(** * LIHEAP data-engineering pipeline: a shallow embedding

    The pipeline is a chain of six pandas scripts
    (notebooks/pipeline/01 .. 06).  This development embeds the
    table-level logic of those scripts as Rocq functions and proves
    properties of them.

    Conventions of the embedding.
    - A text value is a [string]; its characters are read as code points
      below 256.  In that range the regular-expression class [\d] is
      the ten ASCII digits, [[A-Za-z]] is the ASCII letters and
      [str.isspace] holds for 9..13, 28..32, 133 and 160.  Case
      conversion is modelled on the ASCII letters.
    - A spreadsheet cell is a [cell]: missing (NaN, None or pd.NA), text, an
      integer, a float holding a whole number, or a timestamp at midnight.
      A float with a fractional part is outside the cell model: its text
      is the shortest round-trip decimal, which is not computed here.
    - [Series.astype(str)] is the element-wise Python [str]; it turns a
      missing cell into the text "nan" (and a missing period into "NaT").
    - A [DataFrame] is a list of rows in index order; a Python [dict] is a
      [gmap].
    - The results of the library parsers [pd.to_numeric] and
      [pd.to_datetime] on text are inputs of the embedding. *)

From Stdlib Require Import String Ascii List ZArith QArith Lia Bool.
From Stdlib Require Import Permutation Sorted DecimalString.
From stdpp Require Import gmap strings.
Import ListNotations.

Local Open Scope string_scope.
Local Open Scope list_scope.

(** ** Text primitives *)

Module Text.

Definition code (c : ascii) : nat := nat_of_ascii c.

Definition in_range (lo hi : nat) (c : ascii) : bool :=
  (lo <=? code c)%nat && (code c <=? hi)%nat.

(** [\d] on code points below 256 *)
Definition is_digit (c : ascii) : bool := in_range 48 57 c.

(** [[A-Za-z]] *)
Definition is_alpha (c : ascii) : bool := in_range 65 90 c || in_range 97 122 c.

(** [str.isspace] / [\s] on code points below 256 *)
Definition is_space (c : ascii) : bool :=
  in_range 9 13 c || in_range 28 32 c
  || (code c =? 133)%nat || (code c =? 160)%nat.

Fixpoint all_chars (p : ascii -> bool) (s : string) : bool :=
  match s with
  | EmptyString => true
  | String c s' => p c && all_chars p s'
  end.

Fixpoint any_char (p : ascii -> bool) (s : string) : bool :=
  match s with
  | EmptyString => false
  | String c s' => p c || any_char p s'
  end.

Fixpoint map_chars (f : ascii -> ascii) (s : string) : string :=
  match s with
  | EmptyString => EmptyString
  | String c s' => String (f c) (map_chars f s')
  end.

(** [str.lstrip()], [str.rstrip()], [str.strip()] *)
Fixpoint lstrip (s : string) : string :=
  match s with
  | EmptyString => EmptyString
  | String c s' => if is_space c then lstrip s' else s
  end.

Fixpoint rstrip (s : string) : string :=
  match s with
  | EmptyString => EmptyString
  | String c s' =>
      match rstrip s' with
      | EmptyString => if is_space c then EmptyString else String c EmptyString
      | r => String c r
      end
  end.

Definition strip (s : string) : string := rstrip (lstrip s).

(** [str.upper()] on ASCII letters *)
Definition upper_char (c : ascii) : ascii :=
  if in_range 97 122 c then ascii_of_nat (code c - 32) else c.

Definition upper (s : string) : string := map_chars upper_char s.

Fixpoint zeros (n : nat) : string :=
  match n with
  | O => EmptyString
  | S n' => String "0" (zeros n')
  end.

(** [str.zfill(width)], which [Series.str.zfill] applies to each text: pad
    on the left with "0" up to [width]; a leading sign stays in front of the
    padding. *)
Definition zfill (width : nat) (s : string) : string :=
  let n := String.length s in
  if (width <=? n)%nat then s
  else
    match s with
    | String c s' =>
        if (Ascii.eqb c "+" || Ascii.eqb c "-")%bool
        then String c (zeros (width - n) ++ s')
        else zeros (width - n) ++ s
    | EmptyString => zeros (width - n)
    end.

(** [str(int)] *)
Definition str_of_Z (z : Z) : string := NilZero.string_of_int (Z.to_int z).

(** [re.search(r"[A-Za-z]", s) is not None] *)
Definition contains_alpha (s : string) : bool := any_char is_alpha s.

End Text.

(** ** Cells *)

Record date := mkDate { d_year : Z; d_month : Z; d_day : Z }.

Inductive cell :=
| CNaN
| CNone                  (* Python [None] stored in an object column *)
| CNA                    (* [pd.NA] *)
| CStr (s : string)
| CInt (z : Z)
| CFloat (whole : Z)     (* the float [whole.0], |whole| < 10^16 *)
| CDate (d : date).

Definition pad2 (z : Z) : string := Text.zfill 2 (Text.str_of_Z z).
Definition pad4 (z : Z) : string := Text.zfill 4 (Text.str_of_Z z).

(** [str(Timestamp)] of a timestamp at midnight *)
Definition str_of_date (d : date) : string :=
  pad4 (d_year d) ++ "-" ++ pad2 (d_month d) ++ "-" ++ pad2 (d_day d) ++ " 00:00:00".

(** Python [str(x)] of one cell, as applied by [Series.astype(str)] *)
Definition astype_str (c : cell) : string :=
  match c with
  | CNaN => "nan"
  | CNone => "None"
  | CNA => "<NA>"
  | CStr s => s
  | CInt z => Text.str_of_Z z
  | CFloat z => Text.str_of_Z z ++ ".0"
  | CDate d => str_of_date d
  end.

Definition isna (c : cell) : bool :=
  match c with CNaN | CNone | CNA => true | _ => false end.

Definition notna (c : cell) : bool := negb (isna c).

(** The [.str] accessor yields a missing value on a non-text element and
    [sum()] skips it. *)
Definition str_contains_alpha (c : cell) : bool :=
  match c with CStr s => Text.contains_alpha s | _ => false end.

Definition count_true {A} (p : A -> bool) (l : list A) : nat :=
  List.length (List.filter p l).

(** ** Stage 1: header detection (01_combine_liheap_data.py, detect_header_row) *)

Module Header.

(** [tmp.iloc[i].astype(str)]: every element becomes a text cell *)
Definition row_astype_str (row : list cell) : list cell :=
  map (fun c => CStr (astype_str c)) row.

Definition looks_like_header (raw_row : list cell) : bool :=
  let row := row_astype_str raw_row in
  let has_alpha := count_true str_contains_alpha row in
  let non_null := count_true notna row in
  (3 <=? non_null)%nat && (2 <=? has_alpha)%nat.

(** the [for i in range(min(max_rows, len(tmp)))] loop *)
Fixpoint scan (i : nat) (rows : list (list cell)) : nat :=
  match rows with
  | [] => 0%nat
  | r :: rest => if looks_like_header r then i else scan (S i) rest
  end.

(** [grid] is the sheet read with [header=None]; [nrows=max_rows] keeps
    its first [max_rows] rows. *)
Definition detect_header_row (max_rows : nat) (grid : list (list cell)) : nat :=
  scan 0 (firstn max_rows grid).

(** The documented rule: at least 3 non-null cells and at least 2 cells
    with letters, counted on the cells as read. *)
Definition documented_header (raw_row : list cell) : bool :=
  (3 <=? count_true notna raw_row)%nat
  && (2 <=? count_true (fun c => notna c && Text.contains_alpha (astype_str c)) raw_row)%nat.

Fixpoint documented_scan (i : nat) (rows : list (list cell)) : nat :=
  match rows with
  | [] => 0%nat
  | r :: rest => if documented_header r then i else documented_scan (S i) rest
  end.

Definition documented_detect (max_rows : nat) (grid : list (list cell)) : nat :=
  documented_scan 0 (firstn max_rows grid).

Definition titled_grid : list (list cell) :=
  [ [CStr "LIHEAP Pledge Report"; CNaN; CNaN; CNaN];
    [CStr "Generated 2024"; CNaN; CNaN; CNaN];
    [CStr "City"; CStr "Zip Code"; CStr "Created On"; CStr "Pledge Amount"] ].

End Header.

(** ** pandas primitives on tables *)

Module Frame.

(** Comparison of a nullable column, [na_position="last"] *)
Definition cmp_na_last {A} (cmp : A -> A -> comparison) (a b : option A) : comparison :=
  match a, b with
  | Some x, Some y => cmp x y
  | Some _, None => Lt
  | None, Some _ => Gt
  | None, None => Eq
  end.

(** Lexicographic combination of the comparisons of two sort keys *)
Definition cmp_then (c1 c2 : comparison) : comparison :=
  match c1 with Eq => c2 | _ => c1 end.

Definition le_of {A} (cmp : A -> A -> comparison) (a b : A) : bool :=
  match cmp a b with Gt => false | _ => true end.

Definition eq_of {A} (cmp : A -> A -> comparison) (a b : A) : bool :=
  match cmp a b with Eq => true | _ => false end.

(** [sort_values] on several columns is a stable sort: rows with equal keys
    keep their order.  [insert_row] puts a row in front of the first row
    that does not sort strictly before it. *)
Fixpoint insert_row {A} (cmp : A -> A -> comparison) (x : A) (l : list A) : list A :=
  match l with
  | [] => [x]
  | y :: l' => if le_of cmp x y then x :: l else y :: insert_row cmp x l'
  end.

Fixpoint sort_values {A} (cmp : A -> A -> comparison) (l : list A) : list A :=
  match l with
  | [] => []
  | x :: l' => insert_row cmp x (sort_values cmp l')
  end.

(** [drop_duplicates(subset=..., keep="first")]: a row is kept when no
    earlier row has the same key. *)
Fixpoint drop_dups_from {A} (same : A -> A -> bool) (seen : list A) (l : list A) : list A :=
  match l with
  | [] => []
  | x :: l' =>
      if existsb (same x) seen then drop_dups_from same seen l'
      else x :: drop_dups_from same (x :: seen) l'
  end.

Definition drop_duplicates {A} (same : A -> A -> bool) (l : list A) : list A :=
  drop_dups_from same [] l.

(** [left.merge(right, on=key, how="left")]: the rows of [left] in order;
    each is paired with every row of [right] that has its key, in the
    order of [right], or once with missing right-hand fields. *)
Definition matches {L R} (same_key : L -> R -> bool) (l : L) (right : list R) : list R :=
  List.filter (same_key l) right.

Definition merge_row {L R} (same_key : L -> R -> bool) (right : list R) (l : L)
  : list (L * option R) :=
  match matches same_key l right with
  | [] => [(l, None)]
  | ms => map (fun r => (l, Some r)) ms
  end.

Definition merge_left {L R} (same_key : L -> R -> bool) (left : list L) (right : list R)
  : list (L * option R) :=
  flat_map (merge_row same_key right) left.

(** A comparison that orders its type: it is antisymmetric, [Lt] is
    transitive and [Eq] is a congruence. *)
Record Order {A} (cmp : A -> A -> comparison) : Prop := {
  order_anti : forall a b, cmp b a = CompOpp (cmp a b);
  order_lt_trans : forall a b c, cmp a b = Lt -> cmp b c = Lt -> cmp a c = Lt;
  order_eq_l : forall a b c, cmp a b = Eq -> cmp a c = cmp b c
}.

(** [a] sorts no later than [b] *)
Definition le_rel {A} (cmp : A -> A -> comparison) (a b : A) : Prop :=
  le_of cmp a b = true.

(** The number of output rows that one left row contributes *)
Definition rows_for {L R} (same_key : L -> R -> bool) (right : list R) (l : L) : nat :=
  Nat.max 1 (List.length (matches same_key l right)).

(** What a left join guarantees about its output [out] *)
Definition left_join_law {L R} (same_key : L -> R -> bool)
    (left : list L) (right : list R) (out : list (L * option R)) : Prop :=
  List.length out = list_sum (map (rows_for same_key right) left)
  /\ (List.length left <= List.length out)%nat
  /\ (List.length out = List.length left
      <-> forall l, In l left -> (List.length (matches same_key l right) <= 1)%nat)
  /\ (forall l r, In (l, Some r) out
                  <-> In l left /\ In r right /\ same_key l r = true)
  /\ (forall l, In (l, None) out
                <-> In l left /\ forall r, In r right -> same_key l r = false)
  /\ (forall l, In l left -> exists o, In (l, o) out).

End Frame.

(** ** Stage 1: the ZIP cleaner (01_combine_liheap_data.py, clean_zip) *)

Module Zip.

(** [re.sub(r"\.0$", "", s)]: [$] matches at the end of the text and also
    just before a newline that ends it. *)
Fixpoint replace_trailing_dot0 (s : string) : string :=
  match s with
  | EmptyString => EmptyString
  | String c s' =>
      if (Ascii.eqb c "." && (String.eqb s' "0"))%bool then EmptyString
      else if (Ascii.eqb c "." && (String.eqb s' (String "0" (String "010" EmptyString))))%bool
           then String "010" EmptyString
           else String c (replace_trailing_dot0 s')
  end.

(** [\d{n}] matched at the start of [s] *)
Fixpoint digit_prefix (n : nat) (s : string) : option string :=
  match n with
  | O => Some EmptyString
  | S n' =>
      match s with
      | String c s' =>
          if Text.is_digit c
          then match digit_prefix n' s' with
               | Some w => Some (String c w)
               | None => None
               end
          else None
      | EmptyString => None
      end
  end.

(** [Series.str.extract(r"(\d{n})", expand=False)] on one text: the
    leftmost match, or missing. *)
Fixpoint str_extract_digits (n : nat) (s : string) : option string :=
  match digit_prefix n s with
  | Some w => Some w
  | None =>
      match s with
      | EmptyString => None
      | String _ s' => str_extract_digits n s'
      end
  end.

Definition clean_zip_value (c : cell) : option string :=
  option_map (Text.zfill 5)
    (str_extract_digits 5 (replace_trailing_dot0 (astype_str c))).

Definition clean_zip (zip_series : list cell) : list (option string) :=
  map clean_zip_value zip_series.

(** The cleaner as the specification words it: one trailing ".0" is
    removed when the text ends with it. *)
Fixpoint strip_trailing_dot0 (s : string) : string :=
  match s with
  | EmptyString => EmptyString
  | String c s' =>
      if (Ascii.eqb c "." && String.eqb s' "0")%bool then EmptyString
      else String c (strip_trailing_dot0 s')
  end.

(** [w] is a run of five digits that starts at offset [String.length pre] *)
Definition five_digits_at (s pre w : string) : Prop :=
  (exists post, s = (pre ++ w ++ post)%string)
  /\ String.length w = 5%nat
  /\ Text.all_chars Text.is_digit w = true.

(** [w] is the first such run of [s] *)
Definition first_five_digits (s w : string) : Prop :=
  exists pre,
    five_digits_at s pre w
    /\ forall pre' w', five_digits_at s pre' w' ->
                       (String.length pre <= String.length pre')%nat.

End Zip.

(** ** Stage 1: the normalizer (01_combine_liheap_data.py, LiheapPipeline) *)

Module Stage1.

Inductive exn := FileNotFoundError | RuntimeError | KeyError.

Inductive outcome (A : Type) :=
| Ok (a : A)
| Raise (e : exn).
Arguments Ok {A} a.
Arguments Raise {A} e.

Definition COLUMN_MAPPING : gmap string string :=
  list_to_map
    [ ("CV_EnergyAssistance[City(Service Address)]", "City");
      ("Service City", "City");
      ("City", "City");
      ("CV_EnergyAssistance[Post Code (Service Address)]", "Zip_Code");
      ("CV_EnergyAssistance[Zipcode (Business Partner Address)]", "Zip_Code");
      ("Zipcode (Business Partner Address)", "Zip_Code");
      ("Zip Code", "Zip_Code");
      ("ZIP", "Zip_Code");
      ("Zip_Code", "Zip_Code");
      ("CV_EnergyAssistance[created On (Pledge Details)]", "Created_On");
      ("CV_EnergyAssistance[Created On (Pledge Details)]", "Created_On");
      ("CV_EnergyAssistance[Created on (MM/DD/YYYY)]", "Created_On");
      ("CV_EnergyAssistance[Created On (PL)]", "Created_On");
      ("Created_On", "Created_On");
      ("Created On", "Created_On");
      ("[Pledge_Amount]", "Pledge_Amount");
      ("Pledge Amount", "Pledge_Amount");
      ("Pledge_Amount", "Pledge_Amount");
      ("CV_EnergyAssistance[Pledge Amount]", "Pledge_Amount") ].

Definition REQUIRED_STRICT : list string := ["Zip_Code"; "Created_On"; "Pledge_Amount"].
Definition OPTIONAL_COLS : list string := ["City"].

(** The frame that [pd.read_excel(file, header=header_row)] returns:
    its column labels and its rows, one cell per label. *)
Record source_file := {
  file_name : string;
  labels : list cell;
  body : list (list cell)
}.

Record raw_record := {
  raw_City : cell;
  raw_Zip_Code : cell;
  raw_Created_On : cell;
  raw_Pledge_Amount : cell;
  raw_SourceFile : string
}.

(** [self.skipped_files] *)
Definition skipped_log : Type := list (string * list string).

(** [re.sub(r"\s+", " ", s)] *)
Fixpoint collapse_ws_from (in_run : bool) (s : string) : string :=
  match s with
  | EmptyString => EmptyString
  | String c s' =>
      if Text.is_space c
      then if in_run then collapse_ws_from true s'
           else String " " (collapse_ws_from true s')
      else String c (collapse_ws_from false s')
  end.

Definition collapse_ws (s : string) : string := collapse_ws_from false s.

Definition normalize_columns (cols : list cell) : list string :=
  map (fun c => collapse_ws (Text.strip (astype_str c))) cols.

(** [df.rename(columns=lambda c: mapping.get(c, c))] *)
Definition rename_columns (mapping : gmap string string) (cols : list string) : list string :=
  map (fun c => default c (mapping !! c)) cols.

(** [c in df.columns] *)
Definition has_column (c : string) (cols : list string) : bool :=
  existsb (String.eqb c) cols.

Fixpoint column_index (c : string) (cols : list string) : option nat :=
  match cols with
  | [] => None
  | c' :: rest =>
      if String.eqb c c' then Some 0%nat
      else option_map S (column_index c rest)
  end.

(** The cell of a row under a label.  Labels are taken to be distinct after
    the mapping (with a repeated label pandas returns every such column). *)
Definition cell_at (cols : list string) (row : list cell) (c : string) : cell :=
  match column_index c cols with
  | Some i => nth i row CNaN
  | None => CNaN
  end.

(** [df[col] = pd.NA] for an optional column that is absent *)
Definition ensure_column (frame : list string * list (list cell)) (col : string)
  : list string * list (list cell) :=
  let (cols, rows) := frame in
  if has_column col cols then frame
  else (cols ++ [col], map (fun row => row ++ [CNA]) rows).

Definition keep_cols : list string := ["City"; "Zip_Code"; "Created_On"; "Pledge_Amount"].

Definition _normalize_single_file
    (column_mapping : gmap string string)
    (required_strict optional_cols : list string)
    (file : source_file) (skipped_files : skipped_log)
  : outcome (option (list raw_record)) * skipped_log :=
  let cols := rename_columns column_mapping (normalize_columns (labels file)) in
  let missing_required :=
    List.filter (fun c => negb (has_column c cols)) required_strict in
  match missing_required with
  | _ :: _ =>
      (Ok None, skipped_files ++ [(file_name file, missing_required)])
  | [] =>
      let (cols', rows') := fold_left ensure_column optional_cols (cols, body file) in
      if forallb (fun c => has_column c cols') keep_cols
      then
        (Ok (Some (map (fun row =>
                   {| raw_City := cell_at cols' row "City";
                      raw_Zip_Code := cell_at cols' row "Zip_Code";
                      raw_Created_On := cell_at cols' row "Created_On";
                      raw_Pledge_Amount := cell_at cols' row "Pledge_Amount";
                      raw_SourceFile := file_name file |}) rows')),
         skipped_files)
      else (Raise KeyError, skipped_files)
  end.

(** The loop of [load_and_normalize_all_files] over the files, sorted by
    name: the frames of the files that are kept, and the log. *)
Fixpoint normalize_files
    (column_mapping : gmap string string)
    (required_strict optional_cols : list string)
    (excel_files : list source_file) (skipped_files : skipped_log)
  : outcome (list (list raw_record)) * skipped_log :=
  match excel_files with
  | [] => (Ok [], skipped_files)
  | file :: rest =>
      match _normalize_single_file column_mapping required_strict optional_cols
              file skipped_files with
      | (Raise e, sk) => (Raise e, sk)
      | (Ok df_normalized, sk) =>
          match normalize_files column_mapping required_strict optional_cols rest sk with
          | (Raise e, sk') => (Raise e, sk')
          | (Ok dfs, sk') =>
              (Ok (match df_normalized with
                   | Some df => df :: dfs
                   | None => dfs
                   end), sk')
          end
      end
  end.

Definition load_and_normalize_all_files
    (column_mapping : gmap string string)
    (required_strict optional_cols : list string)
    (excel_files : list source_file) (skipped_files : skipped_log)
  : outcome (list raw_record) * skipped_log :=
  match excel_files with
  | [] => (Raise FileNotFoundError, skipped_files)
  | _ =>
      match normalize_files column_mapping required_strict optional_cols
              excel_files skipped_files with
      | (Raise e, sk) => (Raise e, sk)
      | (Ok [], sk) => (Raise RuntimeError, sk)
      | (Ok normalized_dfs, sk) => (Ok (concat normalized_dfs), sk)
      end
  end.

(** The header of a file after trimming and mapping, and the required
    columns that it lacks, under the mapping and lists of the script *)
Definition mapped_columns (file : source_file) : list string :=
  rename_columns COLUMN_MAPPING (normalize_columns (labels file)).

Definition missing_required (file : source_file) : list string :=
  List.filter (fun c => negb (has_column c (mapped_columns file))) REQUIRED_STRICT.

(** *** Cleaning the core columns *)

(** The library parsers: [pd.to_datetime(text, format="%Y%m%d")] (missing
    when it raises), [pd.to_datetime(text, errors="coerce")] and
    [pd.to_numeric(text, errors="coerce")]. *)
Record parsers := {
  to_datetime_ymd : string -> option date;
  to_datetime : string -> option date;
  to_numeric : string -> option Q
}.

Record record := {
  City : cell;
  Zip_Code : option string;
  Created_On : option date;
  YearMo : string;
  Pledge_Amount : option Q;
  SourceFile : string
}.

(** [x.isna() | x.astype(str).str.strip().eq("")
     | x.astype(str).str.strip().str.upper().eq("NAN")] *)
Definition is_missing_text (c : cell) : bool :=
  isna c
  || String.eqb (Text.strip (astype_str c)) ""
  || String.eqb (Text.upper (Text.strip (astype_str c))) "NAN".

Definition parse_date (P : parsers) (value : cell) : option date :=
  match value with
  | CNaN | CNone | CNA => None
  | CInt z | CFloat z => to_datetime_ymd P (Text.str_of_Z z)
  | CStr s => to_datetime P s
  | CDate d => Some d
  end.

(** [re.sub(r"[^0-9.\-]", "", s)] *)
Fixpoint keep_numeric_chars (s : string) : string :=
  match s with
  | EmptyString => EmptyString
  | String c s' =>
      if (Text.is_digit c || Ascii.eqb c "." || Ascii.eqb c "-")%bool
      then String c (keep_numeric_chars s')
      else keep_numeric_chars s'
  end.

Definition clean_pledge_amount (P : parsers) (amount : cell) : option Q :=
  to_numeric P (keep_numeric_chars (astype_str amount)).

(** [Created_On.dt.to_period("M").astype(str)] *)
Definition year_month (created_on : option date) : string :=
  match created_on with
  | Some d => (pad4 (d_year d) ++ "-" ++ pad2 (d_month d))%string
  | None => "NaT"
  end.

Definition clean_row (P : parsers) (r : raw_record) : record :=
  let created := parse_date P (raw_Created_On r) in
  {| City := raw_City r;
     Zip_Code := Zip.clean_zip_value (raw_Zip_Code r);
     Created_On := created;
     YearMo := year_month created;
     Pledge_Amount := clean_pledge_amount P (raw_Pledge_Amount r);
     SourceFile := raw_SourceFile r |}.

Definition clean_core_columns (P : parsers) (df_all : list raw_record) : list record :=
  let missing_zip_mask := fun r => is_missing_text (raw_Zip_Code r) in
  map (clean_row P) (List.filter (fun r => negb (missing_zip_mask r)) df_all).

(** *** Deduplication *)

(** Order of the rows under [dedupe_cols = [Zip_Code, YearMo, Pledge_Amount]] *)
Definition cmp_dedupe (a b : record) : comparison :=
  Frame.cmp_then (Frame.cmp_na_last String.compare (Zip_Code a) (Zip_Code b))
    (Frame.cmp_then (String.compare (YearMo a) (YearMo b))
       (Frame.cmp_na_last Qcompare (Pledge_Amount a) (Pledge_Amount b))).

Definition deduplicate (df_all : list record) : list record :=
  Frame.drop_duplicates (Frame.eq_of cmp_dedupe)
    (Frame.sort_values cmp_dedupe df_all).

(** The number that [deduplicate] prints: [before - after] *)
Definition removed_by_deduplicate (df_all : list record) : nat :=
  (List.length df_all - List.length (deduplicate df_all))%nat.

(** *** City backfill *)

Definition normalize_city (c : cell) : string :=
  Text.upper (Text.strip (astype_str c)).

(** The rows that feed the mapping: City present, then normalised, then
    [dropna()] on the two columns. *)
Definition valid_zip_city (df : list record) : list (string * string) :=
  omap (fun r =>
          if is_missing_text (City r) then None
          else match Zip_Code r with
               | Some z => Some (z, normalize_city (City r))
               | None => None
               end) df.

(** [Series.value_counts()]: one entry per distinct value, by decreasing
    count *)
Definition value_counts (s : list string) : list (string * nat) :=
  Frame.sort_values (fun a b => Nat.compare (snd b) (snd a))
    (map (fun v => (v, count_true (String.eqb v) s))
         (Frame.drop_duplicates String.eqb s)).

(** [.sort_index()]: by label *)
Definition sort_index (vc : list (string * nat)) : list (string * nat) :=
  Frame.sort_values (fun a b => String.compare (fst a) (fst b)) vc.

(** [.idxmax()]: the label of the first entry that holds the maximum *)
Fixpoint first_max (vc : list (string * nat)) : option (string * nat) :=
  match vc with
  | [] => None
  | (v, n) :: rest =>
      match first_max rest with
      | Some (v', n') => if (n' <=? n)%nat then Some (v, n) else Some (v', n')
      | None => Some (v, n)
      end
  end.

Definition idxmax (vc : list (string * nat)) : option string :=
  option_map fst (first_max vc).

(** [lambda s: s.value_counts().sort_index().idxmax()] *)
Definition majority_city (s : list string) : option string :=
  idxmax (sort_index (value_counts s)).

(** the City values of the group of [z] under [groupby("Zip_Code")] *)
Definition group_cities (z : string) (pairs : list (string * string)) : list string :=
  map snd (List.filter (fun p => String.eqb (fst p) z) pairs).

Definition build_zip_city_from_internal (df : list record) : gmap string string :=
  let pairs := valid_zip_city df in
  list_to_map
    (omap (fun z => option_map (fun c => (z, c)) (majority_city (group_cities z pairs)))
          (Frame.drop_duplicates String.eqb (map fst pairs))).

(** The number of rows of [df] that have ZipCode [z], a present City, and
    the normalised City [c] *)
Definition city_votes (df : list record) (z c : string) : nat :=
  count_true (fun r => negb (is_missing_text (City r))
                       && bool_decide (Zip_Code r = Some z)
                       && String.eqb c (normalize_city (City r))) df.

(** [c] has the most votes for [z]; among the cities with as many votes it
    is the first in lexicographic order. *)
Definition majority_of (df : list record) (z c : string) : Prop :=
  (0 < city_votes df z c)%nat
  /\ forall c', (city_votes df z c' < city_votes df z c)%nat
                \/ (city_votes df z c' = city_votes df z c /\ String.leb c c' = true).

(** The same count and rule on the City values as the rows hold them, with
    no normalisation: the rule as the specification words it. *)
Definition raw_city_votes (df : list record) (z c : string) : nat :=
  count_true (fun r => negb (is_missing_text (City r))
                       && bool_decide (Zip_Code r = Some z)
                       && String.eqb c (astype_str (City r))) df.

Definition raw_majority_of (df : list record) (z c : string) : Prop :=
  (0 < raw_city_votes df z c)%nat
  /\ forall c', (raw_city_votes df z c' < raw_city_votes df z c)%nat
                \/ (raw_city_votes df z c' = raw_city_votes df z c
                    /\ String.leb c c' = true).

(** [Series.map(dict)]: missing for a missing key or an absent one *)
Definition map_lookup (m : gmap string string) (z : option string) : cell :=
  match z with
  | Some k => match m !! k with Some c => CStr c | None => CNaN end
  | None => CNaN
  end.

(** [lookup_city] inside [fill_missing_cities] *)
Definition lookup_city (geonames_zip_city : gmap string string) (zip_code : option string) : cell :=
  match zip_code with
  | None => CNone
  | Some z =>
      match geonames_zip_city !! Text.zfill 5 z with
      | Some c => CStr c
      | None => CNone
      end
  end.

Definition set_City (r : record) (c : cell) : record :=
  {| City := c; Zip_Code := Zip_Code r; Created_On := Created_On r;
     YearMo := YearMo r; Pledge_Amount := Pledge_Amount r;
     SourceFile := SourceFile r |}.

(** [geonames_zip_city] is what [load_geonames_zip_city] returned: the
    mapping fetched over HTTP, or read from the local file, or empty. *)
Definition fill_missing_cities (geonames_zip_city : gmap string string)
    (df_all : list record) : list record :=
  let zip_city_map_internal := build_zip_city_from_internal df_all in
  let step1 :=
    map (fun r => if is_missing_text (City r)
                  then set_City r (map_lookup zip_city_map_internal (Zip_Code r))
                  else r) df_all in
  let step2 :=
    if decide (geonames_zip_city = ∅) then step1
    else map (fun r => if is_missing_text (City r)
                       then set_City r (lookup_city geonames_zip_city (Zip_Code r))
                       else r) step1 in
  map (fun r => set_City r (CStr (normalize_city (City r)))) step2.

(** *** Date-range filter *)

Definition in_date_range (start_year_month end_year_month : option string) (r : record) : bool :=
  match start_year_month with
  | Some lo => String.leb lo (YearMo r)
  | None => true
  end
  &&
  match end_year_month with
  | Some hi => String.leb (YearMo r) hi
  | None => true
  end.

Definition filter_by_date_range (start_year_month end_year_month : option string)
    (df_all : list record) : list record :=
  match start_year_month, end_year_month with
  | None, None => df_all
  | _, _ => List.filter (in_date_range start_year_month end_year_month) df_all
  end.

(** *** Final dataset *)

Record final_row := {
  out_City : cell;
  out_Zip_Code : string;
  out_YearMo : string;
  out_Pledge_Amount : option Q
}.

(** [Zip_Code.astype(str)] on the cleaned column *)
Definition zip_astype_str (z : option string) : string :=
  match z with
  | Some s => s
  | None => "nan"
  end.

Definition save_final_dataset (df_all : list record) : list final_row :=
  map (fun r => {| out_City := City r;
                   out_Zip_Code := zip_astype_str (Zip_Code r);
                   out_YearMo := YearMo r;
                   out_Pledge_Amount := Pledge_Amount r |}) df_all.

Record config := {
  column_mapping : gmap string string;
  required_strict : list string;
  optional_cols : list string;
  start_year_month : option string;
  end_year_month : option string
}.

(** The configuration that [main] builds *)
Definition main_config : config :=
  {| column_mapping := COLUMN_MAPPING;
     required_strict := REQUIRED_STRICT;
     optional_cols := OPTIONAL_COLS;
     start_year_month := Some "2023-01";
     end_year_month := Some "2025-06" |}.

(** [LiheapPipeline.run]: the final table written, and [skipped_files] *)
Definition run (cfg : config) (P : parsers) (geonames_zip_city : gmap string string)
    (excel_files : list source_file) : outcome (list final_row) * skipped_log :=
  match load_and_normalize_all_files (column_mapping cfg) (required_strict cfg)
          (optional_cols cfg) excel_files [] with
  | (Raise e, sk) => (Raise e, sk)
  | (Ok df_all, sk) =>
      let df_all := clean_core_columns P df_all in
      let df_all := deduplicate df_all in
      let df_all := fill_missing_cities geonames_zip_city df_all in
      let df_all := filter_by_date_range (start_year_month cfg) (end_year_month cfg) df_all in
      (Ok (save_final_dataset df_all), sk)
  end.

(** A bound of the form "YYYY-MM" *)
Definition is_year_month (s : string) : bool :=
  match s with
  | String y1 (String y2 (String y3 (String y4 (String dash (String m1 (String m2 EmptyString)))))) =>
      Text.is_digit y1 && Text.is_digit y2 && Text.is_digit y3 && Text.is_digit y4
      && Ascii.eqb dash "-" && Text.is_digit m1 && Text.is_digit m2
  | _ => false
  end.

(** A five-character text of digits *)
Definition is_zip5 (s : string) : bool :=
  (String.length s =? 5)%nat && Text.all_chars Text.is_digit s.



(** *** The GeoNames table *)

(** A row of US.txt as [pd.read_csv] returns it, with the two columns that
    are used; an empty field is missing. *)
Record geo_row := { postal_code : option string; place_name : option string }.

(** [df_geo.dropna(subset=["postal_code", "place_name"])] *)
Definition geo_dropna (df_geo : list geo_row) : list (string * string) :=
  omap (fun r => match postal_code r, place_name r with
                 | Some z, Some p => Some (z, p)
                 | _, _ => None
                 end) df_geo.

(** [.groupby("postal_code")["place_name"].first().str.upper().to_dict()]:
    of the rows of a postal code the first one gives the place name
    ([list_to_map] keeps the first pair of a key). *)
Definition geonames_mapping (df_geo : list geo_row) : gmap string string :=
  list_to_map (map (fun zp => (fst zp, Text.upper (snd zp))) (geo_dropna df_geo)).

(** [load_geonames_zip_city] with [use_http] set, as [fill_missing_cities]
    calls it.  [http] is the table read from the downloaded archive and
    [local_file] the one read from data_geonames/US.txt; each is [None] when
    anything in its [try] block raised (and [local_file] also when the file
    does not exist). *)
Definition load_geonames_zip_city (http local_file : option (list geo_row))
  : gmap string string :=
  match http with
  | Some df_geo => geonames_mapping df_geo
  | None =>
      match local_file with
      | Some df_geo => geonames_mapping df_geo
      | None => ∅
      end
  end.
(** *** Vocabulary for months *)

(** The character of a decimal digit *)
Definition digit_char (n : Z) : ascii := ascii_of_nat (48 + Z.to_nat n).

(** The text "YYYY-MM" written digit by digit *)
Definition year_month_text (y m : Z) : string :=
  String (digit_char (y / 1000)) (String (digit_char (y / 100 mod 10))
    (String (digit_char (y / 10 mod 10)) (String (digit_char (y mod 10))
      (String "-" (String (digit_char (m / 10)) (String (digit_char (m mod 10))
        EmptyString)))))).

(** The number of a month on the time line *)
Definition month_index (d : date) : Z := 12 * d_year d + d_month d.

(** A date that a [pd.Timestamp] can hold (1677-09-21 to 2262-04-11), with a
    month of the calendar *)
Definition timestamp_date (d : date) : Prop :=
  (1677 <= d_year d <= 2262)%Z /\ (1 <= d_month d <= 12)%Z.
(** *** Vocabulary for the results of the run *)

(** The rows of a result; none when the run was aborted *)
Definition rows_of {A} (o : outcome (list A)) : list A :=
  match o with
  | Ok rows => rows
  | Raise _ => []
  end.





(** The columns of a record other than City *)
Definition other_columns (r : record)
  : option string * option date * string * option Q * string :=
  (Zip_Code r, Created_On r, YearMo r, Pledge_Amount r, SourceFile r).

(** Two records have the same deduplication key *)
Definition same_key (a b : record) : bool := Frame.eq_of cmp_dedupe a b.

(** What [fill_missing_cities] does to the City of one row [r] of the table
    [df], giving the row [r'] of its result: the cases of the backfill, in
    their order of priority. *)
Definition city_fill_rule (geonames_zip_city : gmap string string)
    (df : list record) (r r' : record) : Prop :=
  other_columns r' = other_columns r
  /\ (is_missing_text (City r) = false ->
      City r' = CStr (normalize_city (City r)))
  /\ (is_missing_text (City r) = true ->
      match map_lookup (build_zip_city_from_internal df) (Zip_Code r) with
      | CStr c => City r' = CStr c
      | _ =>
          if decide (geonames_zip_city = ∅) then City r' = CStr "NAN"
          else match lookup_city geonames_zip_city (Zip_Code r) with
               | CStr c => City r' = CStr (Text.upper (Text.strip c))
               | _ => City r' = CStr "NONE"
               end
      end).

(** The characters that [clean_pledge_amount] keeps: [[0-9.\-]] *)
Definition is_amount_char (c : ascii) : bool :=
  (Text.is_digit c || Ascii.eqb c "." || Ascii.eqb c "-")%bool.

End Stage1.

(** ** Stage 2: aggregation by ZIP and year (02_aggregate_liheap_by_zip.py) *)

Module Stage2.

(** One row of the cleaned dataset as [pd.read_excel] returns it.  [Year] is
    the year of [pd.to_datetime(YearMo, format="%Y-%m")], missing for a
    missing date. *)
Record clean_row := {
  Zip_Code : cell;
  Year : option Z;
  Pledge_Amount : option Q
}.

Definition VALID_YEAR_MIN : Z := 2023.
Definition VALID_YEAR_MAX : Z := 2025.

(** [astype(str)], then [str.replace(r"\.0$", "", regex=True)], then [str.zfill(5)] *)
Definition normalize_zip (c : cell) : string :=
  Text.zfill 5 (Zip.replace_trailing_dot0 (astype_str c)).

(** [df["Year"].between(VALID_YEAR_MIN, VALID_YEAR_MAX)]; false for a missing year *)
Definition valid_year (r : clean_row) : bool :=
  match Year r with
  | Some y => (VALID_YEAR_MIN <=? y)%Z && (y <=? VALID_YEAR_MAX)%Z
  | None => false
  end.

(** A row that passed the year filter, with its group key *)
Record keyed_row := { key_Zip : string; key_Year : Z; amount : option Q }.

Definition keyed (r : clean_row) : option keyed_row :=
  match Year r with
  | Some y =>
      if valid_year r
      then Some {| key_Zip := normalize_zip (Zip_Code r); key_Year := y;
                   amount := Pledge_Amount r |}
      else None
  | None => None
  end.

Definition valid_rows (df : list clean_row) : list keyed_row := omap keyed df.

Definition key_of (r : keyed_row) : string * Z := (key_Zip r, key_Year r).

Definition key_eqb (a b : string * Z) : bool :=
  String.eqb (fst a) (fst b) && Z.eqb (snd a) (snd b).

Definition cmp_zip_year (a b : string * Z) : comparison :=
  Frame.cmp_then (String.compare (fst a) (fst b)) (Z.compare (snd a) (snd b)).

(** [groupby(["Zip_Code", "Year"])]: the group keys, in increasing order *)
Definition group_keys (rows : list keyed_row) : list (string * Z) :=
  Frame.sort_values cmp_zip_year (Frame.drop_duplicates key_eqb (map key_of rows)).

Definition group_of (k : string * Z) (rows : list keyed_row) : list keyed_row :=
  List.filter (fun r => key_eqb (key_of r) k) rows.

(** The amounts that are present *)
Definition present_amounts (rows : list keyed_row) : list Q := omap amount rows.

Definition sum_Q (l : list Q) : Q := fold_right Qplus 0%Q l.

Record zip_year := {
  zy_Zip_Code : string;
  zy_Year : Z;
  total_pledge : Q;      (* ("Pledge_Amount", "sum"): missing amounts are skipped *)
  record_count : nat     (* ("Pledge_Amount", "count"): the amounts that are present *)
}.

Definition aggregate (rows : list keyed_row) : list zip_year :=
  map (fun k => {| zy_Zip_Code := fst k;
                   zy_Year := snd k;
                   total_pledge := sum_Q (present_amounts (group_of k rows));
                   record_count := List.length (present_amounts (group_of k rows)) |})
      (group_keys rows).

Definition cmp_zy (a b : zip_year) : comparison :=
  cmp_zip_year (zy_Zip_Code a, zy_Year a) (zy_Zip_Code b, zy_Year b).

(** The table that the script writes: filter by year, aggregate, sort *)
Definition liheap_zip_year (df : list clean_row) : list zip_year :=
  Frame.sort_values cmp_zy (aggregate (valid_rows df)).

(** The present amounts of the rows of [df] inside the valid years *)
Definition valid_amounts (df : list clean_row) : list Q :=
  omap Pledge_Amount (List.filter valid_year df).

End Stage2.

(** ** Stage 3: income and population join (03_join_liheap_acs_data.py) *)

Module Stage3.

Record liheap_row := {
  Zip_Code : cell;
  Year : Z;
  total_pledge : Q;
  record_count : Z
}.

Record income_row := { inc_Zip_Code : cell; Median_Income : option Q }.
Record population_row := { pop_Zip_Code : cell; Population : option Q }.

(** [df["Zip_Code"].astype(str).str.strip().str.zfill(5)] *)
Definition standardize_zip (c : cell) : string :=
  Text.zfill 5 (Text.strip (astype_str c)).

Definition join_income (df_liheap : list liheap_row) (df_income : list income_row)
  : list (liheap_row * option income_row) :=
  Frame.merge_left
    (fun l r => String.eqb (standardize_zip (Zip_Code l)) (standardize_zip (inc_Zip_Code r)))
    df_liheap df_income.

Definition join_population (df_combined : list (liheap_row * option income_row))
    (df_population : list population_row)
  : list ((liheap_row * option income_row) * option population_row) :=
  Frame.merge_left
    (fun l r => String.eqb (standardize_zip (Zip_Code (fst l)))
                           (standardize_zip (pop_Zip_Code r)))
    df_combined df_population.

Definition df_combined (df_liheap : list liheap_row) (df_income : list income_row)
    (df_population : list population_row) :=
  join_population (join_income df_liheap df_income) df_population.

End Stage3.

(** ** Stage 4: annual unemployment (04_etl_bls_laus_profile_to_annual.py) *)

Module Stage4.

(** One row of the monthly table of a sheet.  [Year] and [value] are the
    columns after [pd.to_numeric(..., errors="coerce")]. *)
Record monthly_row := {
  Year : option Z;
  Period : cell;
  value : option Q
}.

Record sheet := {
  sh_county : string;         (* county_name, from the metadata block *)
  sh_series_id : string;
  sh_series_title : string;
  sh_raw : list (list cell);  (* the sheet read with header=None *)
  sh_table : option (list monthly_row)
    (* the table read with header=header_idx; missing when it has no
       "Observation Value" column *)
}.

Record annual_row := {
  a_Year : Z;
  unemployment_rate : Q;
  month_count : nat;
  County : string;
  Series_ID : string;
  Series_Title : string
}.

Definition cell_is (c : cell) (s : string) : bool :=
  String.eqb (Text.strip (astype_str c)) s.

Fixpoint find_header_from (i : nat) (rows : list (list cell)) : option nat :=
  match rows with
  | [] => None
  | row :: rest =>
      match row with
      | a :: b :: _ =>
          if cell_is a "Year" && cell_is b "Period" then Some i
          else find_header_from (S i) rest
      | _ => find_header_from (S i) rest
      end
  end.

Definition _find_table_header_row (raw : list (list cell)) : option nat :=
  match raw with
  | (_ :: _ :: _) :: _ => find_header_from 0 raw
  | _ => None
  end.

(** [re.match(r"^M\d{2}$", s)] *)
Definition match_M_2digits (s : string) : bool :=
  match s with
  | String m (String a (String b rest)) =>
      Ascii.eqb m "M" && Text.is_digit a && Text.is_digit b
      && (String.eqb rest "" || String.eqb rest (String "010" EmptyString))
  | _ => false
  end.

(** [[f"M{m:02d}" for m in range(1, 13)]] *)
Definition month_periods : list string :=
  map (fun m => ("M" ++ pad2 (Z.of_nat m))%string) (seq 1 12).

(** The twelve monthly periods, written out *)
Definition twelve_months : list string :=
  ["M01"; "M02"; "M03"; "M04"; "M05"; "M06";
   "M07"; "M08"; "M09"; "M10"; "M11"; "M12"].

Definition is_month_period (p : string) : bool :=
  match_M_2digits p && existsb (String.eqb p) month_periods.

(** A monthly row after the period filter and [dropna(subset=["Year","value"])] *)
Record month_obs := { m_Year : Z; m_Period : string; m_value : Q }.

Definition retain (r : monthly_row) : option month_obs :=
  let p := Text.strip (astype_str (Period r)) in
  if is_month_period p
  then match Year r, value r with
       | Some y, Some v => Some {| m_Year := y; m_Period := p; m_value := v |}
       | _, _ => None
       end
  else None.

Definition retained (rows : list monthly_row) : list month_obs := omap retain rows.

Definition of_year (y : Z) (obs : list month_obs) : list month_obs :=
  List.filter (fun o => Z.eqb (m_Year o) y) obs.

Definition sum_Q (l : list Q) : Q := fold_right Qplus 0%Q l.

(** [("value", "mean")] *)
Definition mean (l : list Q) : Q :=
  (sum_Q l / inject_Z (Z.of_nat (List.length l)))%Q.

(** [("Period", "nunique")] *)
Definition nunique (l : list string) : nat :=
  List.length (Frame.drop_duplicates String.eqb l).

(** [groupby("Year", as_index=False)]: the group keys, in increasing order *)
Definition group_years (obs : list month_obs) : list Z :=
  Frame.sort_values Z.compare (Frame.drop_duplicates Z.eqb (map m_Year obs)).

Definition annual_of_sheet (sh : sheet) (rows : list monthly_row) : list annual_row :=
  let obs := retained rows in
  map (fun y =>
         {| a_Year := y;
            unemployment_rate := mean (map m_value (of_year y obs));
            month_count := nunique (map m_Period (of_year y obs));
            County := sh_county sh;
            Series_ID := sh_series_id sh;
            Series_Title := sh_series_title sh |})
      (group_years obs).

Record counters := {
  processed_sheets : nat;
  skipped_no_table : nat;
  skipped_no_value_col : nat
}.

(** The loop of [main] over the sheets: [annual_rows] and the counters *)
Fixpoint process_sheets (sheets : list sheet) (annual_rows : list (list annual_row))
    (k : counters) : list (list annual_row) * counters :=
  match sheets with
  | [] => (annual_rows, k)
  | sh :: rest =>
      match _find_table_header_row (sh_raw sh) with
      | None =>
          process_sheets rest annual_rows
            {| processed_sheets := processed_sheets k;
               skipped_no_table := S (skipped_no_table k);
               skipped_no_value_col := skipped_no_value_col k |}
      | Some _ =>
          match sh_table sh with
          | None =>
              process_sheets rest annual_rows
                {| processed_sheets := processed_sheets k;
                   skipped_no_table := skipped_no_table k;
                   skipped_no_value_col := S (skipped_no_value_col k) |}
          | Some rows =>
              process_sheets rest (annual_rows ++ [annual_of_sheet sh rows])
                {| processed_sheets := S (processed_sheets k);
                   skipped_no_table := skipped_no_table k;
                   skipped_no_value_col := skipped_no_value_col k |}
          end
      end
  end.

Definition cmp_county_year (a b : annual_row) : comparison :=
  Frame.cmp_then (String.compare (County a) (County b)) (Z.compare (a_Year a) (a_Year b)).

(** [annual[annual["month_count"] == 12]], sorted by County and Year *)
Definition annual_full (annual : list annual_row) : list annual_row :=
  Frame.sort_values cmp_county_year
    (List.filter (fun a => (month_count a =? 12)%nat) annual).

(** [annual[annual["month_count"] < 12]], sorted by County and Year *)
Definition annual_ytd (annual : list annual_row) : list annual_row :=
  Frame.sort_values cmp_county_year
    (List.filter (fun a => (month_count a <? 12)%nat) annual).

(** [main]: the two sheets written, or the error of an empty result *)
Definition main (sheets : list sheet)
  : option (list annual_row * list annual_row) :=
  match process_sheets sheets []
          {| processed_sheets := 0; skipped_no_table := 0; skipped_no_value_col := 0 |} with
  | ([], _) => None
  | (annual_rows, _) =>
      let annual := concat annual_rows in
      Some (annual_full annual, annual_ytd annual)
  end.

(** A row of the raw sheet that starts the monthly table *)
Definition is_table_header (row : list cell) : bool :=
  match row with
  | a :: b :: _ => cell_is a "Year" && cell_is b "Period"
  | _ => false
  end.





End Stage4.

(** ** Stage 5: dominant county of a ZIP (05_build_bls_laus_ca_county_full_from_ui.py) *)

Module Stage5.

Record xw_row := {
  ZIP : cell;
  COUNTY : cell;
  USPS_ZIP_PREF_STATE : cell;
  TOT_RATIO : option Q
}.

(** A crosswalk row with its standardised keys *)
Record xw_ca_row := {
  Zip_Code : string;
  County_FIPS : string;
  weight : option Q
}.

Record bls_row := {
  Year : option Z;
  bls_County_FIPS : string;
  County : cell;
  unemployment_rate : option Q
}.

(** [(series.str[5:7] + series.str[7:10]).astype(str).str.zfill(5)] *)
Definition fips_of_series_id (series_id : string) : string :=
  Text.zfill 5 (substring 5 2 series_id ++ substring 7 3 series_id)%string.

Definition df_xw_ca (df_xw : list xw_row) : list xw_ca_row :=
  map (fun r => {| Zip_Code := Text.zfill 5 (astype_str (ZIP r));
                   County_FIPS := Text.zfill 5 (astype_str (COUNTY r));
                   weight := TOT_RATIO r |})
      (List.filter (fun r => String.eqb (Text.upper (astype_str (USPS_ZIP_PREF_STATE r))) "CA")
                   df_xw).

(** Order under [sort_values(["Zip_Code", "TOT_RATIO"], ascending=[True, False])];
    a missing weight sorts last. *)
Definition cmp_weight_desc (a b : option Q) : comparison :=
  Frame.cmp_na_last (fun x y => Qcompare y x) a b.

Definition cmp_zip_weight (a b : xw_ca_row) : comparison :=
  Frame.cmp_then (String.compare (Zip_Code a) (Zip_Code b))
                 (cmp_weight_desc (weight a) (weight b)).

Definition same_zip (a b : xw_ca_row) : bool := String.eqb (Zip_Code a) (Zip_Code b).

Definition df_zip_primary (xw_ca : list xw_ca_row) : list xw_ca_row :=
  Frame.drop_duplicates same_zip (Frame.sort_values cmp_zip_weight xw_ca).

(** Order of weights; a missing weight is below every weight. *)
Definition weight_le (a b : option Q) : Prop :=
  match a, b with
  | None, _ => True
  | Some _, None => False
  | Some x, Some y => (x <= y)%Q
  end.

Definition weight_lt (a b : option Q) : Prop :=
  match a, b with
  | _, None => False
  | None, Some _ => True
  | Some x, Some y => (x < y)%Q
  end.

Definition has_zip (z : string) (r : xw_ca_row) : bool := String.eqb (Zip_Code r) z.

(** [r] is the dominant candidate of its ZIP in [candidates]: no candidate
    of that ZIP before it reaches its weight and none after it exceeds it. *)
Definition dominant_in (candidates : list xw_ca_row) (r : xw_ca_row) : Prop :=
  exists before after,
    candidates = before ++ r :: after
    /\ Forall (fun r' => Zip_Code r' = Zip_Code r -> weight_lt (weight r') (weight r)) before
    /\ Forall (fun r' => Zip_Code r' = Zip_Code r -> weight_le (weight r') (weight r)) after.

(** The dominant candidate of [z], by one pass over the candidates *)
Fixpoint dominant (z : string) (l : list xw_ca_row) : option xw_ca_row :=
  match l with
  | [] => None
  | x :: l' =>
      if has_zip z x
      then match dominant z l' with
           | Some y => if Frame.le_of cmp_weight_desc (weight x) (weight y)
                       then Some x else Some y
           | None => Some x
           end
      else dominant z l'
  end.

Definition df_zip_unemp (zip_primary : list xw_ca_row) (df_bls_clean : list bls_row)
  : list (xw_ca_row * option bls_row) :=
  Frame.merge_left (fun l r => String.eqb (County_FIPS l) (bls_County_FIPS r))
    zip_primary df_bls_clean.


(** The Zip_Code and Year columns of an output row; Year is missing when the
    county has no row in the BLS table. *)
Definition zip_year_key (o : xw_ca_row * option bls_row) : string * option Z :=
  (Zip_Code (fst o), match snd o with Some r => Year r | None => None end).

Definition county_year_key (r : bls_row) : string * option Z :=
  (bls_County_FIPS r, Year r).
End Stage5.

(** ** Stage 6: final join (06_join_liheap_acs_unemployment.py) *)

Module Stage6.

Record liheap_acs_row := {
  Zip_Code : cell;
  Year : option Z;
  total_pledge : option Q;
  record_count : option Z;
  Median_Income : option Q;
  Population : option Q
}.

Record unemp_row := {
  u_Zip_Code : cell;
  u_Year : option Z;
  unemployment_rate : option Q;
  County : cell;
  County_FIPS : cell
}.

Definition standardize_zip (c : cell) : string :=
  Text.zfill 5 (Text.strip (astype_str c)).

(** [df_unemp.dropna(subset=["Zip_Code", "Year"])]: the ZIP is text by then *)
Definition df_unemp_clean (df_unemp : list unemp_row) : list unemp_row :=
  List.filter (fun r => match u_Year r with Some _ => true | None => false end) df_unemp.

Definition same_zip_year (l : liheap_acs_row) (r : unemp_row) : bool :=
  String.eqb (standardize_zip (Zip_Code l)) (standardize_zip (u_Zip_Code r))
  && bool_decide (Year l = u_Year r).

Definition df_combined (df_liheap_acs : list liheap_acs_row) (df_unemp : list unemp_row)
  : list (liheap_acs_row * option unemp_row) :=
  Frame.merge_left same_zip_year df_liheap_acs (df_unemp_clean df_unemp).

End Stage6.

(** ** Example tables *)

Module Examples.

Definition one_zip : list Stage5.xw_ca_row :=
  [ {| Stage5.Zip_Code := "92101"; Stage5.County_FIPS := "06073";
       Stage5.weight := Some 1%Q |} ].

Definition two_years : list Stage5.bls_row :=
  [ {| Stage5.Year := Some 2023%Z; Stage5.bls_County_FIPS := "06073";
       Stage5.County := CStr "San Diego County";
       Stage5.unemployment_rate := Some (39 # 10)%Q |};
    {| Stage5.Year := Some 2024%Z; Stage5.bls_County_FIPS := "06073";
       Stage5.County := CStr "San Diego County";
       Stage5.unemployment_rate := Some (43 # 10)%Q |} ].

(** A source file with one pledge whose ZIP text holds no five digits *)
Definition bad_zip_file : Stage1.source_file :=
  {| Stage1.file_name := "pledges_2024.xlsx";
     Stage1.labels := [CStr "City"; CStr "Zip Code"; CStr "Created On"; CStr "Pledge Amount"];
     Stage1.body := [[CStr "San Diego"; CStr "CA 921"; CDate (mkDate 2024 1 15); CInt 100]] |}.

Definition pledge (city : cell) (z : option string) (ym : string) (a : option Q)
    (src : string) : Stage1.record :=
  {| Stage1.City := city; Stage1.Zip_Code := z; Stage1.Created_On := None;
     Stage1.YearMo := ym; Stage1.Pledge_Amount := a; Stage1.SourceFile := src |}.

(** Pledges with a repeated key, a tie between two cities of one ZIP, a
    missing City and a missing ZIP *)
Definition pledges : list Stage1.record :=
  [ pledge (CStr "La Mesa") (Some "91941") "2024-02" (Some 100%Q) "a.xlsx";
    pledge (CStr "san diego ") (Some "92101") "2024-01" (Some 50%Q) "a.xlsx";
    pledge (CStr "San Diego") (Some "92101") "2024-01" (Some 50%Q) "b.xlsx";
    pledge CNaN (Some "92101") "NaT" None "b.xlsx";
    pledge (CStr "Coronado") (Some "92101") "2024-03" (Some (1 # 2)%Q) "b.xlsx";
    pledge (CStr "CORONADO") (Some "92101") "2025-07" (Some 75%Q) "c.xlsx";
    pledge (CStr "Alpine") None "2022-12" (Some 20%Q) "c.xlsx" ].

(** One ZIP whose city is written in two ways in the source files *)
Definition mixed_case_pledges : list Stage1.record :=
  [ pledge (CStr "San Diego") (Some "92101") "2024-01" (Some 10%Q) "a.xlsx";
    pledge (CStr "LA MESA") (Some "92101") "2024-02" (Some 20%Q) "a.xlsx";
    pledge (CStr "San Diego") (Some "92101") "2024-03" (Some 30%Q) "a.xlsx";
    pledge (CStr "LA MESA") (Some "92101") "2024-04" (Some 40%Q) "b.xlsx";
    pledge (CStr "SAN DIEGO") (Some "92101") "2024-05" (Some 50%Q) "b.xlsx" ].

Definition candidate (z fips : string) (w : option Q) : Stage5.xw_ca_row :=
  {| Stage5.Zip_Code := z; Stage5.County_FIPS := fips; Stage5.weight := w |}.

(** Candidates with a tie of weights for 92101 and a missing weight for 91941 *)
Definition candidates : list Stage5.xw_ca_row :=
  [ candidate "92101" "06073" (Some (1 # 2)%Q);
    candidate "92101" "06025" (Some (2 # 4)%Q);
    candidate "91941" "06001" None;
    candidate "91941" "06002" (Some (1 # 10)%Q);
    candidate "92101" "06099" (Some (1 # 3)%Q) ].

(** A sheet with the twelve months of 2024; the value of M03 does not parse. *)
Definition month_2024 (p : string) (v : option Q) : Stage4.monthly_row :=
  {| Stage4.Year := Some 2024%Z; Stage4.Period := CStr p; Stage4.value := v |}.

Definition months_2024 : list Stage4.monthly_row :=
  [ month_2024 "M01" (Some (51 # 10)%Q); month_2024 "M02" (Some (50 # 10)%Q);
    month_2024 "M03" None;               month_2024 "M04" (Some (47 # 10)%Q);
    month_2024 "M05" (Some (45 # 10)%Q); month_2024 "M06" (Some (49 # 10)%Q);
    month_2024 "M07" (Some (53 # 10)%Q); month_2024 "M08" (Some (55 # 10)%Q);
    month_2024 "M09" (Some (50 # 10)%Q); month_2024 "M10" (Some (51 # 10)%Q);
    month_2024 "M11" (Some (52 # 10)%Q); month_2024 "M12" (Some (50 # 10)%Q);
    month_2024 "M13" (Some (50 # 10)%Q) ].

Definition sheet_2024 : Stage4.sheet :=
  {| Stage4.sh_county := "San Diego County";
     Stage4.sh_series_id := "LAUCN060730000000003";
     Stage4.sh_series_title := "Unemployment Rate: San Diego County, CA (U)";
     Stage4.sh_raw := [[CStr "Year"; CStr "Period"; CStr "Observation Value"]];
     Stage4.sh_table := Some months_2024 |}.

(** Parsers for worked examples: only the text "1234.56" is a number, and
    no text is a date. *)
Definition toy_parsers : Stage1.parsers :=
  {| Stage1.to_datetime_ymd := fun _ => None;
     Stage1.to_datetime := fun _ => None;
     Stage1.to_numeric := fun s => if String.eqb s "1234.56" then Some (123456 # 100)%Q else None |}.


(** Three small stage 3 tables: two LIHEAP rows of one ZIP, and one income
    and one population row for it *)
Definition acs_liheap : list Stage3.liheap_row :=
  [ {| Stage3.Zip_Code := CStr "92101"; Stage3.Year := 2023%Z;
       Stage3.total_pledge := 100%Q; Stage3.record_count := 2%Z |};
    {| Stage3.Zip_Code := CStr "92101"; Stage3.Year := 2024%Z;
       Stage3.total_pledge := 50%Q; Stage3.record_count := 1%Z |} ].

Definition acs_income : list Stage3.income_row :=
  [ {| Stage3.inc_Zip_Code := CInt 92101%Z; Stage3.Median_Income := Some 70000%Q |};
    {| Stage3.inc_Zip_Code := CInt 501%Z; Stage3.Median_Income := None |} ].

Definition acs_population : list Stage3.population_row :=
  [ {| Stage3.pop_Zip_Code := CInt 92101%Z; Stage3.Population := Some 38000%Q |} ].

(** A crosswalk with a ZIP split between two counties and a row of another
    state *)
Definition crosswalk : list Stage5.xw_row :=
  [ {| Stage5.ZIP := CInt 92101%Z; Stage5.COUNTY := CInt 6073%Z;
       Stage5.USPS_ZIP_PREF_STATE := CStr "CA"; Stage5.TOT_RATIO := Some (9 # 10)%Q |};
    {| Stage5.ZIP := CInt 92101%Z; Stage5.COUNTY := CInt 6025%Z;
       Stage5.USPS_ZIP_PREF_STATE := CStr "ca"; Stage5.TOT_RATIO := Some (1 # 10)%Q |};
    {| Stage5.ZIP := CInt 89501%Z; Stage5.COUNTY := CInt 32031%Z;
       Stage5.USPS_ZIP_PREF_STATE := CStr "NV"; Stage5.TOT_RATIO := Some 1%Q |} ].
End Examples.

(** * Properties *)

(** ** Left joins *)

Lemma filter_nil_iff {A} (p : A -> bool) (l : list A) :
  List.filter p l = [] <-> forall a, In a l -> p a = false.
Proof.
  induction l as [|a l IH]; simpl.
  - split; [intros _ a [] | reflexivity].
  - destruct (p a) eqn:Hpa.
    + split; [discriminate |]. intros H. specialize (H a (or_introl eq_refl)). congruence.
    + rewrite IH. split.
      * intros H b [<- | Hb]; auto.
      * intros H b Hb. apply H. now right.
Qed.

Section LeftJoin.

Context {L R : Type}.
Variable same_key : L -> R -> bool.
Variable right : list R.

Lemma merge_row_length (l : L) :
  List.length (Frame.merge_row same_key right l) = Frame.rows_for same_key right l.
Proof.
  unfold Frame.merge_row, Frame.rows_for.
  destruct (Frame.matches same_key l right) as [|r ms]; simpl.
  - reflexivity.
  - rewrite length_map. reflexivity.
Qed.

Lemma rows_for_pos (l : L) : (1 <= Frame.rows_for same_key right l)%nat.
Proof. unfold Frame.rows_for. lia. Qed.

Lemma merge_left_length (left : list L) :
  List.length (Frame.merge_left same_key left right)
  = list_sum (map (Frame.rows_for same_key right) left).
Proof.
  unfold Frame.merge_left.
  induction left as [|l left IH]; simpl.
  - reflexivity.
  - rewrite length_app, merge_row_length, IH. reflexivity.
Qed.

Lemma merge_left_ge (left : list L) :
  (List.length left <= List.length (Frame.merge_left same_key left right))%nat.
Proof.
  rewrite merge_left_length.
  induction left as [|l left IH]; simpl.
  - lia.
  - pose proof (rows_for_pos l). lia.
Qed.

Lemma merge_left_same_length (left : list L) :
  List.length (Frame.merge_left same_key left right) = List.length left
  <-> forall l, In l left ->
        (List.length (Frame.matches same_key l right) <= 1)%nat.
Proof.
  rewrite merge_left_length.
  induction left as [|l left IH]; simpl.
  - split; [intros _ l [] | reflexivity].
  - assert (Hge : (List.length left
                   <= list_sum (map (Frame.rows_for same_key right) left))%nat).
    { rewrite <- merge_left_length. apply merge_left_ge. }
    pose proof (rows_for_pos l) as Hpos.
    split.
    + intros Hlen l' [<- | Hin].
      * unfold Frame.rows_for in *. lia.
      * apply IH; [lia | exact Hin].
    + intros Hall.
      assert (Hl : Frame.rows_for same_key right l = 1%nat).
      { unfold Frame.rows_for. specialize (Hall l (or_introl eq_refl)). lia. }
      rewrite Hl. f_equal. apply IH. intros l' Hin. apply Hall. now right.
Qed.

Lemma merge_row_keeps (l : L) : exists o, In (l, o) (Frame.merge_row same_key right l).
Proof.
  unfold Frame.merge_row.
  destruct (Frame.matches same_key l right) as [|r ms].
  - exists None. now left.
  - exists (Some r). now left.
Qed.

Lemma merge_row_in_some (l l' : L) (r : R) :
  In (l', Some r) (Frame.merge_row same_key right l)
  <-> l' = l /\ In r right /\ same_key l r = true.
Proof.
  unfold Frame.merge_row.
  destruct (Frame.matches same_key l right) as [|r0 ms] eqn:Hm.
  - split.
    + intros [H | []]. discriminate H.
    + intros (_ & Hr & Hk). exfalso.
      assert (Hin : In r (Frame.matches same_key l right))
        by (apply filter_In; now split).
      rewrite Hm in Hin. destruct Hin.
  - rewrite <- Hm, in_map_iff. unfold Frame.matches. split.
    + intros (r' & [= <- <-] & Hin). apply filter_In in Hin. tauto.
    + intros (-> & Hr & Hk). exists r. split; [reflexivity |]. apply filter_In. now split.
Qed.

Lemma merge_row_in_none (l l' : L) :
  In (l', None) (Frame.merge_row same_key right l)
  <-> l' = l /\ forall r, In r right -> same_key l r = false.
Proof.
  unfold Frame.merge_row. rewrite <- filter_nil_iff. fold (Frame.matches same_key l right).
  destruct (Frame.matches same_key l right) as [|r0 ms].
  - split.
    + intros [[= <-] | []]. now split.
    + intros [-> _]. now left.
  - split.
    + intros H. apply in_map_iff in H as (r' & H & _). discriminate H.
    + intros [_ H]. discriminate H.
Qed.

Lemma merge_left_law (left : list L) :
  Frame.left_join_law same_key left right (Frame.merge_left same_key left right).
Proof.
  unfold Frame.left_join_law.
  split; [apply merge_left_length |].
  split; [apply merge_left_ge |].
  split; [apply merge_left_same_length |].
  split; [| split].
  - intros l r. unfold Frame.merge_left. rewrite in_flat_map. split.
    + intros (l0 & Hl0 & Hin). apply merge_row_in_some in Hin as (-> & Hr & Hk). tauto.
    + intros (Hl & Hr & Hk). exists l. split; [exact Hl |]. now apply merge_row_in_some.
  - intros l. unfold Frame.merge_left. rewrite in_flat_map. split.
    + intros (l0 & Hl0 & Hin). apply merge_row_in_none in Hin as (-> & H). tauto.
    + intros (Hl & H). exists l. split; [exact Hl |]. now apply merge_row_in_none.
  - intros l Hin. destruct (merge_row_keeps l) as [o Ho].
    exists o. unfold Frame.merge_left. apply in_flat_map. eauto.
Qed.

End LeftJoin.

(** C1, as the specification states it, fails: in stage 5 one ZIP row joined with a
    county that has two annual rows gives two output rows. *)
Lemma left_join_can_add_rows :
  List.length (Stage5.df_zip_unemp Examples.one_zip Examples.two_years)
  <> List.length Examples.one_zip.
Proof. vm_compute. discriminate. Qed.

(** C1 (amended): every left join of stages 3, 5 and 6 gives, for each left
    row, one output row per right row with its key, or one row with missing
    right-hand fields when no right row has its key.  The output has at
    least as many rows as the left table, and exactly as many if and only if
    no left row matches more than one right row; no left row is dropped. *)
Theorem left_joins_keep_every_left_row
    (df_liheap : list Stage3.liheap_row) (df_income : list Stage3.income_row)
    (df_population : list Stage3.population_row)
    (zip_primary : list Stage5.xw_ca_row) (df_bls_clean : list Stage5.bls_row)
    (df_liheap_acs : list Stage6.liheap_acs_row) (df_unemp : list Stage6.unemp_row) :
  Frame.left_join_law
    (fun l r => String.eqb (Stage3.standardize_zip (Stage3.Zip_Code l))
                           (Stage3.standardize_zip (Stage3.inc_Zip_Code r)))
    df_liheap df_income (Stage3.join_income df_liheap df_income)
  /\ Frame.left_join_law
       (fun l r => String.eqb (Stage3.standardize_zip (Stage3.Zip_Code (fst l)))
                              (Stage3.standardize_zip (Stage3.pop_Zip_Code r)))
       (Stage3.join_income df_liheap df_income) df_population
       (Stage3.df_combined df_liheap df_income df_population)
  /\ Frame.left_join_law
       (fun l r => String.eqb (Stage5.County_FIPS l) (Stage5.bls_County_FIPS r))
       zip_primary df_bls_clean (Stage5.df_zip_unemp zip_primary df_bls_clean)
  /\ Frame.left_join_law Stage6.same_zip_year
       df_liheap_acs (Stage6.df_unemp_clean df_unemp)
       (Stage6.df_combined df_liheap_acs df_unemp).
Proof.
  split; [| split; [| split]]; apply merge_left_law.
Qed.

(** ** Header detection *)

Lemma count_true_map {A B} (f : A -> B) (p : B -> bool) (l : list A) :
  count_true p (map f l) = count_true (fun a => p (f a)) l.
Proof.
  unfold count_true. induction l as [|a l IH]; simpl.
  - reflexivity.
  - destruct (p (f a)); simpl; now rewrite IH.
Qed.

Lemma count_true_all {A} (p : A -> bool) (l : list A) :
  (forall a, p a = true) -> count_true p l = List.length l.
Proof.
  intros Hp. unfold count_true. induction l as [|a l IH]; simpl.
  - reflexivity.
  - rewrite Hp. simpl. now rewrite IH.
Qed.

(** What the test of [detect_header_row] computes: the row is cast to text
    before both counts, so every cell counts as non-null and a missing cell
    counts through the letters of "nan". *)
Lemma looks_like_header_counts (row : list cell) :
  Header.looks_like_header row
  = (3 <=? List.length row)%nat
    && (2 <=? count_true (fun c => Text.contains_alpha (astype_str c)) row)%nat.
Proof.
  unfold Header.looks_like_header, Header.row_astype_str.
  rewrite !count_true_map.
  rewrite (count_true_all (fun a => notna (CStr (astype_str a)))) by reflexivity.
  reflexivity.
Qed.

(** C3: on a grid whose first two rows are titles and whose third row has
    four text cells, [detect_header_row] answers 0, where the documented rule
    gives 2. *)
Theorem detect_header_row_on_titled_grid :
  Header.detect_header_row 10 Header.titled_grid = 0%nat
  /\ Header.documented_detect 10 Header.titled_grid = 2%nat.
Proof. split; reflexivity. Qed.

(** ** Required columns *)

Lemma has_column_app (c : string) (cols more : list string) :
  Stage1.has_column c (cols ++ more) = Stage1.has_column c cols || Stage1.has_column c more.
Proof. unfold Stage1.has_column. apply existsb_app. Qed.

Lemma column_index_last (c : string) (cols : list string) :
  Stage1.has_column c cols = false ->
  Stage1.column_index c (cols ++ [c]) = Some (List.length cols).
Proof.
  unfold Stage1.has_column.
  induction cols as [|c' cols IH]; simpl.
  - intros _. now rewrite String.eqb_refl.
  - destruct (String.eqb c c'); simpl; [discriminate |].
    intros H. now rewrite (IH H).
Qed.

Lemma column_index_app_l (c : string) (cols more : list string) :
  Stage1.has_column c cols = true ->
  Stage1.column_index c (cols ++ more) = Stage1.column_index c cols.
Proof.
  unfold Stage1.has_column.
  induction cols as [|c' cols IH]; simpl.
  - discriminate.
  - destruct (String.eqb c c'); simpl; [reflexivity |].
    intros H. now rewrite (IH H).
Qed.

(** C9: with the mapping and column lists of the script, a file is rejected
    exactly when one of Zip_Code, Created_On, Pledge_Amount is absent from
    its mapped header; it is then logged with its name and the list of the
    absent required columns, and it gives no frame.  Otherwise it is kept
    with one record per row and the log is unchanged; if City is absent its
    City column is all [pd.NA]. *)
Theorem normalize_single_file_rejects_iff
    (file : Stage1.source_file) (skipped_files : Stage1.skipped_log) :
  ((exists c, In c ["Zip_Code"; "Created_On"; "Pledge_Amount"]
              /\ Stage1.has_column c (Stage1.mapped_columns file) = false)
   <-> fst (Stage1._normalize_single_file Stage1.COLUMN_MAPPING Stage1.REQUIRED_STRICT
              Stage1.OPTIONAL_COLS file skipped_files) = Stage1.Ok None)
  /\ ((exists c, In c ["Zip_Code"; "Created_On"; "Pledge_Amount"]
               /\ Stage1.has_column c (Stage1.mapped_columns file) = false)
      -> Stage1._normalize_single_file Stage1.COLUMN_MAPPING Stage1.REQUIRED_STRICT
           Stage1.OPTIONAL_COLS file skipped_files
         = (Stage1.Ok None,
            skipped_files ++ [(Stage1.file_name file, Stage1.missing_required file)])
         /\ Stage1.missing_required file <> []
         /\ forall c, In c (Stage1.missing_required file)
                      <-> In c ["Zip_Code"; "Created_On"; "Pledge_Amount"]
                          /\ Stage1.has_column c (Stage1.mapped_columns file) = false)
  /\ ((forall c, In c ["Zip_Code"; "Created_On"; "Pledge_Amount"]
                 -> Stage1.has_column c (Stage1.mapped_columns file) = true)
      -> exists rows,
           Stage1._normalize_single_file Stage1.COLUMN_MAPPING Stage1.REQUIRED_STRICT
             Stage1.OPTIONAL_COLS file skipped_files
           = (Stage1.Ok (Some rows), skipped_files)
           /\ List.length rows = List.length (Stage1.body file)
           /\ (Stage1.has_column "City" (Stage1.mapped_columns file) = false ->
               forall i row, nth_error (Stage1.body file) i = Some row ->
                 List.length row = List.length (Stage1.mapped_columns file) ->
                 option_map Stage1.raw_City (nth_error rows i) = Some CNA)).
Proof.
  assert (Hmiss : forall c, In c (Stage1.missing_required file)
            <-> In c ["Zip_Code"; "Created_On"; "Pledge_Amount"]
                /\ Stage1.has_column c (Stage1.mapped_columns file) = false).
  { intros c. unfold Stage1.missing_required. rewrite filter_In.
    rewrite negb_true_iff. reflexivity. }
  assert (Hrej : (exists c, In c ["Zip_Code"; "Created_On"; "Pledge_Amount"]
                   /\ Stage1.has_column c (Stage1.mapped_columns file) = false)
                 <-> Stage1.missing_required file <> []).
  { split.
    - intros (c & Hc) Hnil. apply Hmiss in Hc. rewrite Hnil in Hc. destruct Hc.
    - intros Hne. destruct (Stage1.missing_required file) as [|c l] eqn:E; [congruence |].
      exists c. apply Hmiss. now left. }
  assert (Hrun : forall m, Stage1.missing_required file = m ->
            Stage1._normalize_single_file Stage1.COLUMN_MAPPING Stage1.REQUIRED_STRICT
              Stage1.OPTIONAL_COLS file skipped_files
            = match m with
              | _ :: _ => (Stage1.Ok None,
                           skipped_files ++ [(Stage1.file_name file, m)])
              | [] =>
                  let (cols', rows') :=
                    Stage1.ensure_column (Stage1.mapped_columns file, Stage1.body file) "City" in
                  if forallb (fun c => Stage1.has_column c cols') Stage1.keep_cols
                  then (Stage1.Ok (Some (map (fun row =>
                           {| Stage1.raw_City := Stage1.cell_at cols' row "City";
                              Stage1.raw_Zip_Code := Stage1.cell_at cols' row "Zip_Code";
                              Stage1.raw_Created_On := Stage1.cell_at cols' row "Created_On";
                              Stage1.raw_Pledge_Amount := Stage1.cell_at cols' row "Pledge_Amount";
                              Stage1.raw_SourceFile := Stage1.file_name file |}) rows')),
                        skipped_files)
                  else (Stage1.Raise Stage1.KeyError, skipped_files)
              end).
  { intros m <-. unfold Stage1._normalize_single_file, Stage1.missing_required, Stage1.mapped_columns.
    reflexivity. }
  split; [| split].
  - rewrite Hrej. split.
    + intros Hne. rewrite (Hrun _ eq_refl).
      destruct (Stage1.missing_required file); [congruence | reflexivity].
    + intros Hres Hnil. rewrite (Hrun _ Hnil) in Hres.
      unfold Stage1.ensure_column in Hres.
      destruct (Stage1.has_column "City" (Stage1.mapped_columns file));
        [| destruct (forallb _ _)]; try destruct (forallb _ _); simpl in Hres; discriminate.
  - intros Hex. apply Hrej in Hex. split; [| split; [exact Hex | exact Hmiss]].
    rewrite (Hrun _ eq_refl).
    destruct (Stage1.missing_required file); [congruence | reflexivity].
  - intros Hall.
    assert (Hnil : Stage1.missing_required file = []).
    { destruct (Stage1.missing_required file) as [|c l] eqn:E; [reflexivity |].
      assert (Hc : In c (c :: l)) by now left.
      apply Hmiss in Hc as [Hin Hf].
      rewrite (Hall c Hin) in Hf. discriminate. }
    rewrite (Hrun _ Hnil).
    pose proof (Hall "Zip_Code" ltac:(simpl; auto)) as Hz.
    pose proof (Hall "Created_On" ltac:(simpl; auto)) as Hd.
    pose proof (Hall "Pledge_Amount" ltac:(simpl; auto)) as Hp.
    unfold Stage1.ensure_column.
    destruct (Stage1.has_column "City" (Stage1.mapped_columns file)) eqn:Hcity.
    + unfold Stage1.keep_cols. simpl forallb. rewrite Hcity, Hz, Hd, Hp. simpl.
      eexists. split; [reflexivity |]. split; [now rewrite length_map |].
      discriminate.
    + unfold Stage1.keep_cols. simpl forallb.
      rewrite !has_column_app, Hz, Hd, Hp, Hcity. simpl.
      eexists. split; [reflexivity |]. split; [now rewrite !length_map |].
      intros _ i row Hrow Hlen.
      rewrite !nth_error_map, Hrow. simpl. f_equal.
      unfold Stage1.cell_at. rewrite (column_index_last _ _ Hcity).
      rewrite <- Hlen. rewrite nth_middle. reflexivity.
Qed.

(** ** Date-range filter and rows without a date *)

Lemma digit_below_N (c : ascii) :
  Text.is_digit c = true -> Ascii.compare c "N" = Lt.
Proof.
  destruct c as [[] [] [] [] [] [] [] []]; intros H; try discriminate H; reflexivity.
Qed.

Lemma year_month_below_NaT (s : string) :
  Stage1.is_year_month s = true -> String.compare s "NaT" = Lt.
Proof.
  destruct s as [|y1 s]; [discriminate |].
  intros H. simpl.
  assert (Hd : Text.is_digit y1 = true).
  { simpl in H. destruct s as [|? [|? [|? [|? [|? [|? [|]]]]]]]; try discriminate H.
    destruct (Text.is_digit y1); [reflexivity | discriminate H]. }
  now rewrite (digit_below_N _ Hd).
Qed.

Lemma NaT_above_year_month (s : string) :
  Stage1.is_year_month s = true -> String.compare "NaT" s = Gt.
Proof.
  intros H. rewrite String.compare_antisym, (year_month_below_NaT _ H). reflexivity.
Qed.

(** C10: a record whose Created_On did not parse gets YearMo "NaT"; "NaT"
    sorts after every "YYYY-MM" text; so the date-range filter drops every
    such record when an end bound is set, and keeps it when only a start
    bound is set or when no bound is set. *)
Theorem unparsed_dates_and_the_date_range :
  (forall P raw, Stage1.parse_date P (Stage1.raw_Created_On raw) = None ->
                 Stage1.YearMo (Stage1.clean_row P raw) = "NaT")
  /\ (forall s, Stage1.is_year_month s = true -> String.ltb s "NaT" = true)
  /\ (forall r lo hi df,
        Stage1.YearMo r = "NaT" -> Stage1.is_year_month hi = true ->
        ~ In r (Stage1.filter_by_date_range lo (Some hi) df))
  /\ (forall r lo df,
        Stage1.YearMo r = "NaT" -> Stage1.is_year_month lo = true ->
        In r df -> In r (Stage1.filter_by_date_range (Some lo) None df))
  /\ (forall df, Stage1.filter_by_date_range None None df = df).
Proof.
  split; [| split; [| split; [| split]]].
  - intros P raw H. unfold Stage1.clean_row. simpl. now rewrite H.
  - intros s H. unfold String.ltb. now rewrite (year_month_below_NaT _ H).
  - intros r lo hi df Hr Hhi Hin.
    assert (Hf : In r (List.filter (Stage1.in_date_range lo (Some hi)) df)).
    { destruct lo; exact Hin. }
    apply filter_In in Hf as [_ Hf].
    unfold Stage1.in_date_range in Hf. apply andb_true_iff in Hf as [_ Hf].
    unfold String.leb in Hf. rewrite Hr, (NaT_above_year_month _ Hhi) in Hf.
    discriminate.
  - intros r lo df Hr Hlo Hin. simpl. apply filter_In. split; [exact Hin |].
    unfold Stage1.in_date_range. rewrite andb_true_r.
    unfold String.leb. now rewrite Hr, (year_month_below_NaT _ Hlo).
  - reflexivity.
Qed.

(** ** The ZIP cleaner *)

Lemma str_length_app (s t : string) :
  String.length (s ++ t)%string = (String.length s + String.length t)%nat.
Proof. induction s as [|c s IH]; simpl; [reflexivity | now rewrite IH]. Qed.

Lemma str_app_inj (p p' x x' : string) :
  (p ++ x)%string = (p' ++ x')%string -> String.length p = String.length p' ->
  p = p' /\ x = x'.
Proof.
  revert p'. induction p as [|c p IH]; intros [|c' p'] H Hlen; simpl in *;
    try discriminate Hlen.
  - now split.
  - injection H as -> H. injection Hlen as Hlen.
    destruct (IH _ H Hlen) as [-> ->]. now split.
Qed.

Lemma all_chars_app (p : ascii -> bool) (s t : string) :
  Text.all_chars p (s ++ t)%string = Text.all_chars p s && Text.all_chars p t.
Proof.
  induction s as [|c s IH]; simpl; [reflexivity |].
  now rewrite IH, andb_assoc.
Qed.

Lemma digit_prefix_spec (n : nat) (s w : string) :
  Zip.digit_prefix n s = Some w
  <-> (exists post, s = (w ++ post)%string)
      /\ String.length w = n /\ Text.all_chars Text.is_digit w = true.
Proof.
  revert s w. induction n as [|n IH]; intros s w; simpl.
  - split.
    + intros [= <-]. split; [now exists s |]. now split.
    + intros (_ & Hlen & _). destruct w; [reflexivity | discriminate].
  - destruct s as [|c s].
    + split; [discriminate |].
      intros ((post & Hs) & Hlen & _). destruct w; discriminate.
    + destruct (Text.is_digit c) eqn:Hc.
      * destruct (Zip.digit_prefix n s) as [w'|] eqn:Hp.
        -- apply IH in Hp as ((post & ->) & Hlen & Hall).
           split.
           ++ intros [= <-]. split; [now exists post |].
              simpl. rewrite Hc, Hall, Hlen. now split.
           ++ intros ((post' & Hs) & Hlen' & Hall').
              destruct w as [|c0 w]; [discriminate |].
              simpl in Hs. injection Hs as <- Hs.
              simpl in Hlen'. injection Hlen' as Hlen'.
              destruct (str_app_inj _ _ _ _ Hs) as [-> _]; [congruence | reflexivity].
        -- split; [discriminate |].
           intros ((post' & Hs) & Hlen' & Hall').
           destruct w as [|c0 w]; [discriminate |].
           simpl in Hs. injection Hs as <- ->.
           simpl in Hlen', Hall'. injection Hlen' as Hlen'.
           apply andb_true_iff in Hall' as [_ Hall'].
           assert (Hw : Zip.digit_prefix n (w ++ post')%string = Some w).
           { apply IH. split; [now exists post' |]. now split. }
           congruence.
      * split; [discriminate |].
        intros ((post' & Hs) & Hlen' & Hall').
        destruct w as [|c0 w]; [discriminate |].
        simpl in Hs. injection Hs as <- ->.
        simpl in Hall'. rewrite Hc in Hall'. discriminate.
Qed.

Lemma str_extract_step (n : nat) (c : ascii) (s : string) :
  Zip.str_extract_digits n (String c s)
  = match Zip.digit_prefix n (String c s) with
    | Some w => Some w
    | None => Zip.str_extract_digits n s
    end.
Proof. reflexivity. Qed.

Lemma str_extract_nil (n : nat) :
  Zip.str_extract_digits (S n) "" = None.
Proof. reflexivity. Qed.

Lemma five_digits_at_cons (c : ascii) (s pre w : string) :
  Zip.five_digits_at s pre w <-> Zip.five_digits_at (String c s) (String c pre) w.
Proof.
  unfold Zip.five_digits_at. split.
  - intros ((post & ->) & H). split; [now exists post | exact H].
  - intros ((post & Hs) & H). simpl in Hs. injection Hs as ->.
    split; [now exists post | exact H].
Qed.

Lemma five_digits_at_nil_pre (s w : string) :
  Zip.five_digits_at s "" w <-> Zip.digit_prefix 5 s = Some w.
Proof.
  rewrite digit_prefix_spec. unfold Zip.five_digits_at. simpl. reflexivity.
Qed.


Lemma str_extract_some (s w : string) :
  Zip.str_extract_digits 5 s = Some w -> Zip.first_five_digits s w.
Proof.
  induction s as [|c s IH].
  - discriminate.
  - rewrite str_extract_step.
    destruct (Zip.digit_prefix 5 (String c s)) as [w'|] eqn:Hp.
    + intros [= <-]. exists "". split.
      * now apply five_digits_at_nil_pre.
      * intros. simpl. lia.
    + intros H. destruct (IH H) as (pre & Hat & Hmin).
      exists (String c pre). split.
      * now apply five_digits_at_cons.
      * intros [|c' pre'] w' Hat'.
        -- apply five_digits_at_nil_pre in Hat'. congruence.
        -- assert (c' = c) as ->.
           { destruct Hat' as ((post & Hs) & _). now injection Hs. }
           apply five_digits_at_cons in Hat'. specialize (Hmin _ _ Hat').
           simpl. lia.
Qed.





(** Removing the ".0" never changes which digits are found: the "0" of a
    trailing ".0" sits next to a "." and cannot belong to five digits. *)
Lemma digit_prefix_replace (n : nat) (s : string) :
  Zip.digit_prefix n (Zip.replace_trailing_dot0 s) = Zip.digit_prefix n s.
Proof.
  revert s. induction n as [|n IH]; intros s; [reflexivity |].
  destruct s as [|c s]; [reflexivity |].
  cbn [Zip.replace_trailing_dot0].
  destruct (Ascii.eqb_spec c ".") as [-> | Hc]; cbn [andb].
  - destruct (String.eqb s "0"); [reflexivity |].
    destruct (String.eqb s _); reflexivity.
  - simpl. destruct (Text.is_digit c); [| reflexivity]. now rewrite IH.
Qed.

Lemma digit_prefix_strip (n : nat) (s : string) :
  Zip.digit_prefix n (Zip.strip_trailing_dot0 s) = Zip.digit_prefix n s.
Proof.
  revert s. induction n as [|n IH]; intros s; [reflexivity |].
  destruct s as [|c s]; [reflexivity |].
  cbn [Zip.strip_trailing_dot0].
  destruct (Ascii.eqb_spec c ".") as [-> | Hc]; cbn [andb].
  - destruct (String.eqb s "0"); reflexivity.
  - simpl. destruct (Text.is_digit c); [| reflexivity]. now rewrite IH.
Qed.

Lemma str_extract_replace (s : string) :
  Zip.str_extract_digits 5 (Zip.replace_trailing_dot0 s) = Zip.str_extract_digits 5 s.
Proof.
  induction s as [|c s IH]; [reflexivity |].
  rewrite str_extract_step, <- (digit_prefix_replace 5 (String c s)).
  cbn [Zip.replace_trailing_dot0].
  destruct (Ascii.eqb_spec c ".") as [-> | Hc]; cbn [andb].
  - destruct (String.eqb_spec s "0") as [-> | H0]; [reflexivity |].
    destruct (String.eqb_spec s (String "0" (String "010" EmptyString))) as [-> | H1];
      [reflexivity |].
    rewrite str_extract_step, IH. reflexivity.
  - rewrite str_extract_step, IH. reflexivity.
Qed.

Lemma str_extract_strip (s : string) :
  Zip.str_extract_digits 5 (Zip.strip_trailing_dot0 s) = Zip.str_extract_digits 5 s.
Proof.
  induction s as [|c s IH]; [reflexivity |].
  rewrite str_extract_step, <- (digit_prefix_strip 5 (String c s)).
  cbn [Zip.strip_trailing_dot0].
  destruct (Ascii.eqb_spec c ".") as [-> | Hc]; cbn [andb].
  - destruct (String.eqb_spec s "0") as [-> | H0]; [reflexivity |].
    rewrite str_extract_step, IH. reflexivity.
  - rewrite str_extract_step, IH. reflexivity.
Qed.

Lemma zfill_five (w : string) : String.length w = 5%nat -> Text.zfill 5 w = w.
Proof. intros H. unfold Text.zfill. now rewrite H. Qed.

Lemma str_extract_length (s w : string) :
  Zip.str_extract_digits 5 s = Some w ->
  String.length w = 5%nat /\ Text.all_chars Text.is_digit w = true.
Proof.
  intros H. apply str_extract_some in H as (pre & (_ & Hlen & Hall) & _). now split.
Qed.

Lemma clean_zip_value_extract (c : cell) :
  Zip.clean_zip_value c
  = Zip.str_extract_digits 5 (Zip.strip_trailing_dot0 (astype_str c)).
Proof.
  unfold Zip.clean_zip_value.
  rewrite str_extract_replace, str_extract_strip.
  destruct (Zip.str_extract_digits 5 (astype_str c)) as [w|] eqn:He; [| reflexivity].
  simpl. f_equal. apply zfill_five. now apply str_extract_length in He.
Qed.


(** ** Orders and stable sorting *)

Lemma string_compare_lt_trans (a b c : string) :
  String.compare a b = Lt -> String.compare b c = Lt -> String.compare a c = Lt.
Proof.
  revert b c. induction a as [|x a IH]; intros [|y b] [|z c]; simpl;
    try discriminate; try reflexivity.
  unfold Ascii.compare.
  destruct (N.compare_spec (N_of_ascii x) (N_of_ascii y)) as [Hxy | Hxy | Hxy];
    try discriminate;
    destruct (N.compare_spec (N_of_ascii y) (N_of_ascii z)) as [Hyz | Hyz | Hyz];
    try discriminate; intros H1 H2.
  - rewrite Hxy, Hyz, N.compare_refl. eapply IH; eassumption.
  - rewrite Hxy. now apply N.compare_lt_iff in Hyz as ->.
  - rewrite <- Hyz. now apply N.compare_lt_iff in Hxy as ->.
  - assert (H : (N_of_ascii x < N_of_ascii z)%N) by (eapply N.lt_trans; eassumption).
    now apply N.compare_lt_iff in H as ->.
Qed.

Lemma string_order : Frame.Order String.compare.
Proof.
  split.
  - intros a b. apply String.compare_antisym.
  - apply string_compare_lt_trans.
  - intros a b c H. apply String.compare_eq_iff in H. now subst.
Qed.

Lemma Z_order : Frame.Order Z.compare.
Proof.
  split.
  - intros a b. apply Z.compare_antisym.
  - intros a b c H1 H2. exact (Z.lt_trans _ _ _ H1 H2).
  - intros a b c H. apply Z.compare_eq_iff in H. now subst.
Qed.

Lemma nat_order : Frame.Order Nat.compare.
Proof.
  split.
  - intros a b. apply Nat.compare_antisym.
  - intros a b c H1 H2. apply Nat.compare_lt_iff in H1. apply Nat.compare_lt_iff in H2.
    apply Nat.compare_lt_iff. lia.
  - intros a b c H. apply Nat.compare_eq_iff in H. now subst.
Qed.

Lemma Q_order : Frame.Order Qcompare.
Proof.
  split.
  - intros a b. symmetry. apply Qcompare_antisym.
  - intros a b c H1 H2. apply Qlt_alt in H1, H2. apply Qlt_alt.
    eapply Qlt_trans; eassumption.
  - intros a b c H. apply Qeq_alt in H. now rewrite H.
Qed.

Section OrderCombinators.

Context {A B : Type}.

Lemma order_reverse (cmp : A -> A -> comparison) :
  Frame.Order cmp -> Frame.Order (fun x y => cmp y x).
Proof.
  intros [Ha Ht He]. split.
  - intros a b. apply Ha.
  - intros a b c H1 H2. eapply Ht; eassumption.
  - intros a b c H. rewrite (Ha a c), (Ha b c). f_equal.
    apply He. rewrite Ha, H. reflexivity.
Qed.

Lemma order_na_last (cmp : A -> A -> comparison) :
  Frame.Order cmp -> Frame.Order (Frame.cmp_na_last cmp).
Proof.
  intros [Ha Ht He]. split.
  - intros [a|] [b|]; simpl; auto.
  - intros [a|] [b|] [c|]; simpl; try discriminate; auto; apply Ht.
  - intros [a|] [b|] [c|]; simpl; try discriminate; auto; apply He.
Qed.

Lemma order_proj (f : A -> B) (cmp : B -> B -> comparison) :
  Frame.Order cmp -> Frame.Order (fun a b => cmp (f a) (f b)).
Proof.
  intros [Ha Ht He]. split.
  - intros a b. apply Ha.
  - intros a b c. apply Ht.
  - intros a b c. apply He.
Qed.

Lemma order_then (c1 c2 : A -> A -> comparison) :
  Frame.Order c1 -> Frame.Order c2 ->
  Frame.Order (fun a b => Frame.cmp_then (c1 a b) (c2 a b)).
Proof.
  intros [Ha1 Ht1 He1] [Ha2 Ht2 He2]. split.
  - intros a b. rewrite (Ha1 a b), (Ha2 a b).
    destruct (c1 a b), (c2 a b); reflexivity.
  - intros a b c. unfold Frame.cmp_then.
    destruct (c1 a b) eqn:Hab; try discriminate;
      destruct (c1 b c) eqn:Hbc; try discriminate; intros H1 H2.
    + rewrite (He1 _ _ _ Hab), Hbc. eapply Ht2; eassumption.
    + now rewrite (He1 _ _ _ Hab), Hbc.
    + assert (Hca : c1 c b = Eq) by (rewrite Ha1, Hbc; reflexivity).
      assert (Hac : c1 a c = Lt).
      { rewrite (Ha1 c a), (He1 _ _ _ Hca), (Ha1 a b), Hab. reflexivity. }
      now rewrite Hac.
    + now rewrite (Ht1 _ _ _ Hab Hbc).
  - intros a b c. unfold Frame.cmp_then.
    destruct (c1 a b) eqn:Hab; try discriminate. intros H.
    now rewrite (He1 _ _ _ Hab), (He2 _ _ _ H).
Qed.

End OrderCombinators.

Section StableSort.

Context {A : Type}.
Variable cmp : A -> A -> comparison.
Hypothesis Hord : Frame.Order cmp.

Lemma order_refl (a : A) : cmp a a = Eq.
Proof.
  pose proof (Frame.order_anti _ Hord a a) as H.
  destruct (cmp a a); [reflexivity | discriminate H | discriminate H].
Qed.

Lemma order_eq_r (a b c : A) : cmp b c = Eq -> cmp a b = cmp a c.
Proof.
  intros H.
  assert (Hcb : cmp c b = Eq) by (rewrite (Frame.order_anti _ Hord), H; reflexivity).
  rewrite (Frame.order_anti _ Hord b a), (Frame.order_anti _ Hord c a).
  f_equal. symmetry. now apply (Frame.order_eq_l _ Hord).
Qed.

Lemma le_total (a b : A) :
  Frame.le_of cmp a b = false -> Frame.le_of cmp b a = true.
Proof.
  unfold Frame.le_of. rewrite (Frame.order_anti _ Hord a b).
  destruct (cmp a b); simpl; congruence.
Qed.

Lemma le_trans (a b c : A) :
  Frame.le_rel cmp a b -> Frame.le_rel cmp b c -> Frame.le_rel cmp a c.
Proof.
  unfold Frame.le_rel, Frame.le_of.
  destruct (cmp a b) eqn:Hab; try discriminate; intros _.
  - now rewrite (Frame.order_eq_l _ Hord _ _ c Hab).
  - destruct (cmp b c) eqn:Hbc; try discriminate; intros _.
    + now rewrite <- (order_eq_r a _ _ Hbc), Hab.
    + now rewrite (Frame.order_lt_trans _ Hord _ _ _ Hab Hbc).
Qed.

Lemma insert_row_perm (x : A) (l : list A) :
  Permutation (x :: l) (Frame.insert_row cmp x l).
Proof.
  induction l as [|y l IH]; simpl.
  - reflexivity.
  - destruct (Frame.le_of cmp x y).
    + reflexivity.
    + rewrite perm_swap. now constructor.
Qed.

Lemma sort_values_perm (l : list A) : Permutation l (Frame.sort_values cmp l).
Proof.
  induction l as [|x l IH]; simpl.
  - constructor.
  - rewrite <- insert_row_perm. now constructor.
Qed.

Lemma insert_row_sorted (x : A) (l : list A) :
  Sorted (Frame.le_rel cmp) l -> Sorted (Frame.le_rel cmp) (Frame.insert_row cmp x l).
Proof.
  induction l as [|y l IH]; simpl; intros Hs.
  - repeat constructor.
  - destruct (Frame.le_of cmp x y) eqn:Hxy.
    + constructor; [exact Hs | constructor; exact Hxy].
    + inversion Hs as [|? ? Hs' Hhd]; subst.
      constructor; [now apply IH |].
      destruct l as [|z l]; simpl.
      * constructor. now apply le_total.
      * destruct (Frame.le_of cmp x z).
        -- constructor. now apply le_total.
        -- inversion Hhd; subst. now constructor.
Qed.

Lemma sort_values_sorted (l : list A) :
  Sorted (Frame.le_rel cmp) (Frame.sort_values cmp l).
Proof.
  induction l as [|x l IH]; simpl.
  - constructor.
  - now apply insert_row_sorted.
Qed.

Lemma sort_values_strongly_sorted (l : list A) :
  StronglySorted (Frame.le_rel cmp) (Frame.sort_values cmp l).
Proof.
  apply Sorted_StronglySorted; [| apply sort_values_sorted].
  intros a b c. apply le_trans.
Qed.

(** A table that is already in order is not moved by the sort. *)
Lemma sort_values_sorted_id (l : list A) :
  Sorted (Frame.le_rel cmp) l -> Frame.sort_values cmp l = l.
Proof.
  induction l as [|x l IH]; simpl; intros Hs.
  - reflexivity.
  - inversion Hs as [|? ? Hs' Hhd]; subst. rewrite (IH Hs').
    destruct l as [|y l]; simpl.
    + reflexivity.
    + inversion Hhd as [|? ? Hxy]; subst. unfold Frame.le_rel in Hxy. now rewrite Hxy.
Qed.

End StableSort.

Section DropDuplicates.

Context {A : Type}.
Variable same : A -> A -> bool.

Lemma drop_dups_from_Forall (P : A -> Prop) (seen l : list A) :
  Forall P l -> Forall P (Frame.drop_dups_from same seen l).
Proof.
  revert seen. induction l as [|x l IH]; intros seen H; simpl.
  - constructor.
  - inversion H; subst. destruct (existsb (same x) seen).
    + now apply IH.
    + constructor; [assumption | now apply IH].
Qed.

Lemma drop_dups_from_strongly_sorted (R : A -> A -> Prop) (seen l : list A) :
  StronglySorted R l -> StronglySorted R (Frame.drop_dups_from same seen l).
Proof.
  revert seen. induction l as [|x l IH]; intros seen H; simpl.
  - constructor.
  - inversion H; subst. destruct (existsb (same x) seen).
    + now apply IH.
    + constructor; [now apply IH | now apply drop_dups_from_Forall].
Qed.

Lemma drop_dups_from_idem (seen l : list A) :
  Frame.drop_dups_from same seen (Frame.drop_dups_from same seen l)
  = Frame.drop_dups_from same seen l.
Proof.
  revert seen. induction l as [|x l IH]; intros seen; simpl.
  - reflexivity.
  - destruct (existsb (same x) seen) eqn:Hx.
    + apply IH.
    + simpl. rewrite Hx. f_equal. apply IH.
Qed.

Lemma drop_dups_from_length (seen l : list A) :
  (List.length (Frame.drop_dups_from same seen l) <= List.length l)%nat.
Proof.
  revert seen. induction l as [|x l IH]; intros seen; simpl.
  - lia.
  - destruct (existsb (same x) seen); simpl.
    + specialize (IH seen). lia.
    + specialize (IH (x :: seen)). lia.
Qed.

End DropDuplicates.

(** ** Deduplication *)

Lemma cmp_dedupe_order : Frame.Order Stage1.cmp_dedupe.
Proof.
  unfold Stage1.cmp_dedupe.
  apply (order_then
           (fun a b => Frame.cmp_na_last String.compare (Stage1.Zip_Code a) (Stage1.Zip_Code b))
           (fun a b => Frame.cmp_then (String.compare (Stage1.YearMo a) (Stage1.YearMo b))
                         (Frame.cmp_na_last Qcompare (Stage1.Pledge_Amount a)
                                                     (Stage1.Pledge_Amount b)))).
  - apply (order_proj Stage1.Zip_Code). apply order_na_last, string_order.
  - apply (order_then
             (fun a b => String.compare (Stage1.YearMo a) (Stage1.YearMo b))
             (fun a b => Frame.cmp_na_last Qcompare (Stage1.Pledge_Amount a)
                                                    (Stage1.Pledge_Amount b))).
    + apply (order_proj Stage1.YearMo), string_order.
    + apply (order_proj Stage1.Pledge_Amount). apply order_na_last, Q_order.
Qed.

Lemma deduplicate_sorted (df_all : list Stage1.record) :
  Sorted (Frame.le_rel Stage1.cmp_dedupe) (Stage1.deduplicate df_all).
Proof.
  apply StronglySorted_Sorted. unfold Stage1.deduplicate, Frame.drop_duplicates.
  apply drop_dups_from_strongly_sorted.
  apply sort_values_strongly_sorted, cmp_dedupe_order.
Qed.

(** C5: deduplication applied to its own output returns the same table, and
    the count of removed rows that it reports is then zero. *)
Theorem deduplicate_idempotent (df_all : list Stage1.record) :
  Stage1.deduplicate (Stage1.deduplicate df_all) = Stage1.deduplicate df_all
  /\ Stage1.removed_by_deduplicate (Stage1.deduplicate df_all) = 0%nat.
Proof.
  assert (H : Stage1.deduplicate (Stage1.deduplicate df_all) = Stage1.deduplicate df_all).
  { unfold Stage1.deduplicate at 1.
    rewrite (sort_values_sorted_id _ _ (deduplicate_sorted df_all)).
    unfold Stage1.deduplicate, Frame.drop_duplicates. apply drop_dups_from_idem. }
  split; [exact H |].
  unfold Stage1.removed_by_deduplicate. rewrite H. lia.
Qed.

(** ** Dominant county *)

Lemma cmp_zip_weight_order : Frame.Order Stage5.cmp_zip_weight.
Proof.
  unfold Stage5.cmp_zip_weight, Stage5.cmp_weight_desc.
  apply (order_then
           (fun a b => String.compare (Stage5.Zip_Code a) (Stage5.Zip_Code b))
           (fun a b => Frame.cmp_na_last (fun x y => Qcompare y x)
                         (Stage5.weight a) (Stage5.weight b))).
  - apply (order_proj Stage5.Zip_Code), string_order.
  - apply (order_proj Stage5.weight). apply order_na_last, order_reverse, Q_order.
Qed.

Lemma weight_desc_le (a b : option Q) :
  Frame.le_of Stage5.cmp_weight_desc a b = true <-> Stage5.weight_le b a.
Proof.
  unfold Frame.le_of, Stage5.cmp_weight_desc.
  destruct a as [x|], b as [y|]; simpl; try (split; [auto | reflexivity]; fail).
  - rewrite Qle_alt. destruct (Qcompare y x); split; congruence.
  - split; [discriminate | intros []].
Qed.

Lemma weight_desc_gt (a b : option Q) :
  Frame.le_of Stage5.cmp_weight_desc a b = false <-> Stage5.weight_lt a b.
Proof.
  unfold Frame.le_of, Stage5.cmp_weight_desc.
  destruct a as [x|], b as [y|]; simpl; try (split; [discriminate | intros []]; fail).
  - rewrite Qlt_alt, <- (Qcompare_antisym y x).
    destruct (Qcompare y x); simpl; split; congruence.
  - split; [auto | reflexivity].
Qed.

Lemma weight_lt_le (a b : option Q) : Stage5.weight_lt a b -> Stage5.weight_le a b.
Proof. destruct a, b; simpl; auto. apply Qlt_le_weak. Qed.

Lemma weight_le_trans (a b c : option Q) :
  Stage5.weight_le a b -> Stage5.weight_le b c -> Stage5.weight_le a c.
Proof. destruct a, b, c; simpl; try tauto. apply Qle_trans. Qed.

Lemma weight_lt_le_trans (a b c : option Q) :
  Stage5.weight_lt a b -> Stage5.weight_le b c -> Stage5.weight_lt a c.
Proof. destruct a, b, c; simpl; try tauto. apply Qlt_le_trans. Qed.

Lemma has_zip_eq (z : string) (r : Stage5.xw_ca_row) :
  Stage5.has_zip z r = true <-> Stage5.Zip_Code r = z.
Proof. unfold Stage5.has_zip. apply String.eqb_eq. Qed.

Lemma cmp_zip_weight_same_zip (x y : Stage5.xw_ca_row) :
  Stage5.Zip_Code x = Stage5.Zip_Code y ->
  Frame.le_of Stage5.cmp_zip_weight x y
  = Frame.le_of Stage5.cmp_weight_desc (Stage5.weight x) (Stage5.weight y).
Proof.
  intros H. unfold Frame.le_of, Stage5.cmp_zip_weight. rewrite H.
  rewrite (order_refl _ string_order). reflexivity.
Qed.

Lemma find_insert_sorted (z : string) (x : Stage5.xw_ca_row) (s : list Stage5.xw_ca_row) :
  StronglySorted (Frame.le_rel Stage5.cmp_zip_weight) s ->
  find (Stage5.has_zip z) (Frame.insert_row Stage5.cmp_zip_weight x s)
  = if Stage5.has_zip z x
    then match find (Stage5.has_zip z) s with
         | Some y => if Frame.le_of Stage5.cmp_zip_weight x y then Some x else Some y
         | None => Some x
         end
    else find (Stage5.has_zip z) s.
Proof.
  induction s as [|y s IH]; intros Hs; cbn [Frame.insert_row find].
  - destruct (Stage5.has_zip z x); reflexivity.
  - inversion Hs as [|? ? Hs' Hall]; subst.
    destruct (Frame.le_of Stage5.cmp_zip_weight x y) eqn:Hxy; cbn [find].
    + destruct (Stage5.has_zip z x) eqn:Hpx; [| reflexivity].
      destruct (Stage5.has_zip z y) eqn:Hpy.
      * now rewrite Hxy.
      * destruct (find (Stage5.has_zip z) s) as [y0|] eqn:Hf; [| reflexivity].
        apply find_some in Hf as [Hin _].
        rewrite List.Forall_forall in Hall. specialize (Hall _ Hin).
        pose proof (le_trans _ cmp_zip_weight_order x y y0 Hxy Hall) as Hx0.
        unfold Frame.le_rel in Hx0. now rewrite Hx0.
    + rewrite (IH Hs'). destruct (Stage5.has_zip z y) eqn:Hpy.
      * destruct (Stage5.has_zip z x); [now rewrite Hxy | reflexivity].
      * reflexivity.
Qed.

Lemma find_sort_dominant (z : string) (l : list Stage5.xw_ca_row) :
  find (Stage5.has_zip z) (Frame.sort_values Stage5.cmp_zip_weight l)
  = Stage5.dominant z l.
Proof.
  induction l as [|x l IH]; cbn [Frame.sort_values Stage5.dominant].
  - reflexivity.
  - rewrite find_insert_sorted
      by apply sort_values_strongly_sorted, cmp_zip_weight_order.
    rewrite IH. destruct (Stage5.has_zip z x) eqn:Hpx; [| reflexivity].
    destruct (Stage5.dominant z l) as [y|] eqn:Hd; [| reflexivity].
    rewrite cmp_zip_weight_same_zip; [reflexivity |].
    apply has_zip_eq in Hpx.
    apply find_some in IH as [_ Hy]. apply has_zip_eq in Hy. congruence.
Qed.

Lemma existsb_has_zip_same (x : Stage5.xw_ca_row) (z : string) (seen : list Stage5.xw_ca_row) :
  Stage5.has_zip z x = true ->
  existsb (Stage5.same_zip x) seen = existsb (Stage5.has_zip z) seen.
Proof.
  intros Hx. apply has_zip_eq in Hx.
  induction seen as [|y seen IH]; simpl; [reflexivity |].
  rewrite IH. f_equal. unfold Stage5.same_zip, Stage5.has_zip. rewrite Hx.
  apply String.eqb_sym.
Qed.

Lemma find_drop_dups (z : string) (seen l : list Stage5.xw_ca_row) :
  find (Stage5.has_zip z) (Frame.drop_dups_from Stage5.same_zip seen l)
  = if existsb (Stage5.has_zip z) seen then None else find (Stage5.has_zip z) l.
Proof.
  revert seen. induction l as [|x l IH]; intros seen; cbn [Frame.drop_dups_from find].
  - now destruct (existsb _ seen).
  - destruct (Stage5.has_zip z x) eqn:Hx.
    + rewrite (existsb_has_zip_same _ _ seen Hx).
      destruct (existsb (Stage5.has_zip z) seen) eqn:Hseen.
      * rewrite IH, Hseen. reflexivity.
      * cbn [find]. now rewrite Hx.
    + destruct (existsb (Stage5.same_zip x) seen).
      * apply IH.
      * cbn [find]. rewrite Hx, IH. cbn [existsb]. now rewrite Hx.
Qed.

Lemma count_drop_dups (z : string) (seen l : list Stage5.xw_ca_row) :
  count_true (Stage5.has_zip z) (Frame.drop_dups_from Stage5.same_zip seen l)
  = if existsb (Stage5.has_zip z) seen then 0%nat
    else if existsb (Stage5.has_zip z) l then 1%nat else 0%nat.
Proof.
  unfold count_true.
  revert seen. induction l as [|x l IH]; intros seen; cbn [Frame.drop_dups_from existsb].
  - now destruct (existsb _ seen).
  - destruct (Stage5.has_zip z x) eqn:Hx.
    + rewrite (existsb_has_zip_same _ _ seen Hx).
      destruct (existsb (Stage5.has_zip z) seen) eqn:Hseen.
      * rewrite IH, Hseen. reflexivity.
      * cbn [List.filter]. rewrite Hx. cbn [List.length orb].
        rewrite IH. cbn [existsb]. now rewrite Hx.
    + cbn [orb]. destruct (existsb (Stage5.same_zip x) seen).
      * apply IH.
      * cbn [List.filter]. rewrite Hx, IH. cbn [existsb]. now rewrite Hx.
Qed.

Lemma find_unique {A} (p : A -> bool) (l : list A) (r : A) :
  (count_true p l <= 1)%nat -> In r l -> p r = true -> find p l = Some r.
Proof.
  unfold count_true. induction l as [|x l IH]; simpl; [intros _ [] |].
  intros Hc [-> | Hin] Hp.
  - now rewrite Hp.
  - destruct (p x) eqn:Hx.
    + exfalso. simpl in Hc.
      assert (Hr : In r (List.filter p l)) by (apply filter_In; now split).
      destruct (List.filter p l); [destruct Hr | simpl in Hc; lia].
    + now apply IH.
Qed.

Lemma dominant_none (z : string) (l : list Stage5.xw_ca_row) :
  Stage5.dominant z l = None -> existsb (Stage5.has_zip z) l = false.
Proof.
  induction l as [|x l IH]; cbn [Stage5.dominant existsb]; [reflexivity |].
  destruct (Stage5.has_zip z x).
  - destruct (Stage5.dominant z l) as [y|]; [| discriminate].
    destruct (Frame.le_of _ _ _); discriminate.
  - intros H. now rewrite IH.
Qed.

Lemma dominant_spec (z : string) (l : list Stage5.xw_ca_row) (r : Stage5.xw_ca_row) :
  Stage5.dominant z l = Some r -> Stage5.Zip_Code r = z /\ Stage5.dominant_in l r.
Proof.
  revert r. induction l as [|x l IH]; intros r; cbn [Stage5.dominant]; [discriminate |].
  destruct (Stage5.has_zip z x) eqn:Hx.
  - apply has_zip_eq in Hx.
    destruct (Stage5.dominant z l) as [y|] eqn:Hd.
    + destruct (IH _ eq_refl) as (Hy & l1 & l2 & Hl & H1 & H2).
      destruct (Frame.le_of Stage5.cmp_weight_desc (Stage5.weight x) (Stage5.weight y)) eqn:Hxy;
        intros [= <-].
      * apply weight_desc_le in Hxy. split; [exact Hx |].
        exists [], l. split; [reflexivity |]. split; [constructor |].
        rewrite Hl. apply List.Forall_app. split; [| constructor].
        -- eapply List.Forall_impl; [| exact H1]. cbv beta. intros r' Hr' Hz.
           eapply weight_le_trans; [| exact Hxy].
           apply weight_lt_le, Hr'. congruence.
        -- intros _. exact Hxy.
        -- eapply List.Forall_impl; [| exact H2]. cbv beta. intros r' Hr' Hz.
           eapply weight_le_trans; [| exact Hxy]. apply Hr'. congruence.
      * apply weight_desc_gt in Hxy. split; [exact Hy |].
        exists (x :: l1), l2. split; [now rewrite Hl |]. split; [| exact H2].
        constructor; [intros _; exact Hxy | exact H1].
    + intros [= <-]. split; [exact Hx |].
      exists [], l. split; [reflexivity |]. split; [constructor |].
      apply dominant_none in Hd. apply List.Forall_forall. intros r' Hin Hz.
      exfalso. assert (Ht : existsb (Stage5.has_zip z) l = true).
      { apply existsb_exists. exists r'. split; [exact Hin |]. apply has_zip_eq. congruence. }
      congruence.
  - intros Hd. destruct (IH _ Hd) as (Hy & l1 & l2 & Hl & H1 & H2).
    split; [exact Hy |].
    exists (x :: l1), l2. split; [now rewrite Hl |]. split; [| exact H2].
    constructor; [| exact H1].
    intros Hz. exfalso. apply not_true_iff_false in Hx. apply Hx, has_zip_eq. congruence.
Qed.

(** C7: after the filter to the target state, the assignment has exactly one
    row for each ZipCode of the filtered crosswalk and none for any other;
    each row is the candidate of its ZipCode with the greatest weight, and
    among candidates of equal weight the one that comes first in the
    crosswalk (a missing weight ranks below every weight). *)
Theorem dominant_county_assignment (df_xw : list Stage5.xw_row) :
  (forall z,
     count_true (Stage5.has_zip z) (Stage5.df_zip_primary (Stage5.df_xw_ca df_xw))
     = if existsb (Stage5.has_zip z) (Stage5.df_xw_ca df_xw) then 1%nat else 0%nat)
  /\ (forall r, In r (Stage5.df_zip_primary (Stage5.df_xw_ca df_xw)) ->
                Stage5.dominant_in (Stage5.df_xw_ca df_xw) r).
Proof.
  set (cands := Stage5.df_xw_ca df_xw).
  assert (Hcount : forall z,
     count_true (Stage5.has_zip z) (Stage5.df_zip_primary cands)
     = if existsb (Stage5.has_zip z) cands then 1%nat else 0%nat).
  { intros z. unfold Stage5.df_zip_primary, Frame.drop_duplicates.
    rewrite count_drop_dups. cbn [existsb].
    assert (He : existsb (Stage5.has_zip z) (Frame.sort_values Stage5.cmp_zip_weight cands)
                 = existsb (Stage5.has_zip z) cands).
    { apply eq_true_iff_eq. rewrite !existsb_exists.
      split; intros (x & Hin & Hx); exists x; (split; [| exact Hx]).
      - eapply Permutation_in; [symmetry; apply sort_values_perm | exact Hin].
      - eapply Permutation_in; [apply sort_values_perm | exact Hin]. }
    now rewrite He. }
  split; [exact Hcount |].
  intros r Hin.
  assert (Hf : find (Stage5.has_zip (Stage5.Zip_Code r)) (Stage5.df_zip_primary cands) = Some r).
  { apply find_unique; [| exact Hin | now apply has_zip_eq].
    rewrite Hcount. destruct (existsb _ cands); lia. }
  unfold Stage5.df_zip_primary, Frame.drop_duplicates in Hf.
  rewrite find_drop_dups in Hf. cbn [existsb] in Hf.
  rewrite find_sort_dominant in Hf.
  now apply dominant_spec in Hf.
Qed.

(** ** The internal ZIP to City mapping *)

Lemma in_drop_dups_from (seen l : list string) (v : string) :
  In v (Frame.drop_dups_from String.eqb seen l)
  <-> In v l /\ existsb (String.eqb v) seen = false.
Proof.
  revert seen. induction l as [|x l IH]; intros seen; cbn [Frame.drop_dups_from].
  - simpl. tauto.
  - destruct (existsb (String.eqb x) seen) eqn:Hx.
    + rewrite IH. simpl. split; [tauto |].
      intros [[-> | Hin] Hv]; [congruence | tauto].
    + simpl. rewrite IH. simpl.
      destruct (String.eqb_spec v x) as [-> | Hne]; simpl.
      * split; [tauto |]. intros [_ _]. now left.
      * split.
        -- intros [-> | H]; [congruence | tauto].
        -- intros [[-> | H] Hs]; [congruence | tauto].
Qed.

Lemma in_drop_duplicates (l : list string) (v : string) :
  In v (Frame.drop_duplicates String.eqb l) <-> In v l.
Proof. unfold Frame.drop_duplicates. rewrite in_drop_dups_from. simpl. tauto. Qed.

Lemma in_sort_values {A} (cmp : A -> A -> comparison) (l : list A) (a : A) :
  In a (Frame.sort_values cmp l) <-> In a l.
Proof.
  split; apply Permutation_in; [symmetry |]; apply sort_values_perm.
Qed.

Lemma value_counts_in (s : list string) (v : string) (n : nat) :
  In (v, n) (Stage1.sort_index (Stage1.value_counts s))
  <-> In v s /\ n = count_true (String.eqb v) s.
Proof.
  unfold Stage1.sort_index, Stage1.value_counts.
  rewrite !in_sort_values, in_map_iff. split.
  - intros (v' & [= -> <-] & Hin). apply (proj1 (in_drop_duplicates _ _)) in Hin. now split.
  - intros [Hin ->]. exists v. split; [reflexivity | now apply in_drop_duplicates].
Qed.

Lemma first_max_split (vc : list (string * nat)) (e : string * nat) :
  Stage1.first_max vc = Some e ->
  exists l1 l2, vc = l1 ++ e :: l2
    /\ Forall (fun e' => (snd e' < snd e)%nat) l1
    /\ Forall (fun e' => (snd e' <= snd e)%nat) l2.
Proof.
  revert e. induction vc as [|[v n] vc IH]; intros e; cbn [Stage1.first_max]; [discriminate |].
  destruct (Stage1.first_max vc) as [[v' n']|] eqn:Hm.
  - destruct (IH _ eq_refl) as (l1 & l2 & Hvc & H1 & H2).
    destruct (Nat.leb_spec n' n) as [Hle | Hlt]; intros [= <-].
    + exists [], vc. split; [reflexivity |]. split; [constructor |].
      rewrite Hvc. apply List.Forall_app. split; [| constructor].
      * eapply List.Forall_impl; [| exact H1]. simpl. intros; lia.
      * simpl. lia.
      * eapply List.Forall_impl; [| exact H2]. simpl. intros; lia.
    + exists ((v, n) :: l1), l2. split; [now rewrite Hvc |]. split; [| exact H2].
      constructor; [simpl; lia | exact H1].
  - intros [= <-]. exists [], vc. split; [reflexivity |]. split; [constructor |].
    destruct vc as [|[v0 n0] vc]; [constructor |].
    cbn [Stage1.first_max] in Hm.
    destruct (Stage1.first_max vc) as [[? ?]|]; [destruct (_ <=? _)%nat |]; discriminate.
Qed.

Lemma first_max_none (vc : list (string * nat)) :
  Stage1.first_max vc = None -> vc = [].
Proof.
  destruct vc as [|[v n] vc]; [reflexivity |]. cbn [Stage1.first_max].
  destruct (Stage1.first_max vc) as [[? ?]|]; [destruct (_ <=? _)%nat |]; discriminate.
Qed.

Lemma strongly_sorted_app_r {A} (R : A -> A -> Prop) (l1 l2 : list A) :
  StronglySorted R (l1 ++ l2) -> StronglySorted R l2.
Proof.
  induction l1 as [|x l1 IH]; simpl; [auto |].
  intros H. apply StronglySorted_inv in H as [H _]. auto.
Qed.

Lemma label_order : Frame.Order (fun a b : string * nat => String.compare (fst a) (fst b)).
Proof. apply (order_proj fst), string_order. Qed.

(** The aggregation of one group: the value of a highest count, and the
    least such value. *)
Lemma majority_city_sound (s : list string) (c : string) :
  Stage1.majority_city s = Some c ->
  In c s
  /\ forall c', In c' s ->
       (count_true (String.eqb c') s < count_true (String.eqb c) s)%nat
       \/ (count_true (String.eqb c') s = count_true (String.eqb c) s
           /\ String.leb c c' = true).
Proof.
  unfold Stage1.majority_city, Stage1.idxmax.
  destruct (Stage1.first_max _) as [[v n]|] eqn:Hm; [| discriminate].
  intros [= <-].
  pose proof (first_max_split _ _ Hm) as (l1 & l2 & HL & H1 & H2).
  assert (Hin : In (v, n) (Stage1.sort_index (Stage1.value_counts s))).
  { rewrite HL. apply in_elt. }
  apply value_counts_in in Hin as [Hv ->]. split; [exact Hv |].
  intros c' Hc'.
  assert (Hin' : In (c', count_true (String.eqb c') s)
                    (Stage1.sort_index (Stage1.value_counts s))).
  { apply value_counts_in. now split. }
  pose proof (sort_values_strongly_sorted _ label_order (Stage1.value_counts s)) as Hs.
  fold (Stage1.sort_index (Stage1.value_counts s)) in Hs.
  rewrite HL in Hin', Hs.
  apply in_app_or in Hin' as [Hin' | [Heq | Hin']].
  - left. rewrite List.Forall_forall in H1. exact (H1 _ Hin').
  - injection Heq as <-. right. split; [reflexivity |].
    unfold String.leb. now rewrite (order_refl _ string_order).
  - rewrite List.Forall_forall in H2. specialize (H2 _ Hin'). simpl in H2.
    assert (Hle : String.leb v c' = true).
    { apply strongly_sorted_app_r in Hs.
      apply StronglySorted_inv in Hs as [_ Hs].
      rewrite List.Forall_forall in Hs. specialize (Hs _ Hin').
      unfold Frame.le_rel, Frame.le_of in Hs. simpl in Hs. exact Hs. }
    destruct (Nat.eq_dec (count_true (String.eqb c') s) (count_true (String.eqb v) s)).
    + right. now split.
    + left. lia.
Qed.

Lemma majority_city_none (s : list string) :
  Stage1.majority_city s = None -> s = [].
Proof.
  unfold Stage1.majority_city, Stage1.idxmax.
  destruct (Stage1.first_max _) as [[v n]|] eqn:Hm; [discriminate |]. intros _.
  apply first_max_none in Hm.
  destruct s as [|x s]; [reflexivity |]. exfalso.
  assert (Hin : In (x, count_true (String.eqb x) (x :: s))
                   (Stage1.sort_index (Stage1.value_counts (x :: s)))).
  { apply value_counts_in. split; [now left | reflexivity]. }
  rewrite Hm in Hin. destruct Hin.
Qed.

Lemma group_votes (df : list Stage1.record) (z c : string) :
  count_true (String.eqb c) (Stage1.group_cities z (Stage1.valid_zip_city df))
  = Stage1.city_votes df z c.
Proof.
  unfold Stage1.city_votes, Stage1.group_cities, Stage1.valid_zip_city, count_true.
  induction df as [|r df IH]; [reflexivity |].
  cbn [omap list_omap List.filter].
  destruct (Stage1.is_missing_text (Stage1.City r)); cbn [negb andb]; [exact IH |].
  destruct (Stage1.Zip_Code r) as [z'|].
  - cbn [List.filter fst]. destruct (String.eqb_spec z' z) as [-> | Hne].
    + rewrite bool_decide_eq_true_2 by reflexivity. cbn [andb map snd List.filter].
      destruct (String.eqb c _); cbn [List.length]; now rewrite IH.
    + rewrite bool_decide_eq_false_2 by congruence. exact IH.
  - rewrite bool_decide_eq_false_2 by discriminate. exact IH.
Qed.

Lemma count_true_pos {A} (p : A -> bool) (l : list A) :
  (0 < count_true p l)%nat <-> exists a, In a l /\ p a = true.
Proof.
  unfold count_true. split.
  - destruct (List.filter p l) as [|a l'] eqn:E; simpl; [lia |]. intros _.
    exists a. apply filter_In. rewrite E. now left.
  - intros (a & Ha). apply filter_In in Ha.
    destruct (List.filter p l); [destruct Ha | simpl; lia].
Qed.

Lemma group_in_votes (df : list Stage1.record) (z c : string) :
  In c (Stage1.group_cities z (Stage1.valid_zip_city df))
  <-> (0 < Stage1.city_votes df z c)%nat.
Proof.
  rewrite <- group_votes, count_true_pos. split.
  - intros H. exists c. split; [exact H | apply String.eqb_refl].
  - intros (a & Ha & Heq). apply String.eqb_eq in Heq. now subst.
Qed.

Lemma lookup_list_to_map_omap (h : string -> option string) (ks : list string) (z : string) :
  (list_to_map (omap (fun k => option_map (fun c => (k, c)) (h k)) ks)
     : gmap string string) !! z
  = if existsb (String.eqb z) ks then h z else None.
Proof.
  induction ks as [|k ks IH]; [reflexivity |].
  cbn [omap list_omap existsb].
  destruct (String.eqb_spec z k) as [-> | Hne]; cbn [orb].
  - destruct (h k) as [c|] eqn:Hk; cbn [option_map].
    + cbn [list_to_map foldr]. apply lookup_insert_eq.
    + rewrite IH. now destruct (existsb _ ks).
  - destruct (h k) as [c|] eqn:Hk; cbn [option_map].
    + cbn [list_to_map foldr fst snd]. rewrite lookup_insert_ne by congruence. exact IH.
    + exact IH.
Qed.

Lemma build_lookup (df : list Stage1.record) (z : string) :
  Stage1.build_zip_city_from_internal df !! z
  = Stage1.majority_city (Stage1.group_cities z (Stage1.valid_zip_city df)).
Proof.
  unfold Stage1.build_zip_city_from_internal.
  rewrite (lookup_list_to_map_omap
             (fun k => Stage1.majority_city (Stage1.group_cities k (Stage1.valid_zip_city df)))).
  destruct (existsb _ _) eqn:He; [reflexivity |].
  destruct (Stage1.group_cities z (Stage1.valid_zip_city df)) as [|c g] eqn:Hg; [reflexivity |].
  exfalso. apply not_true_iff_false in He. apply He.
  apply existsb_exists. exists z. split; [| apply String.eqb_refl].
  apply in_drop_duplicates.
  assert (Hc : In c (Stage1.group_cities z (Stage1.valid_zip_city df))) by (rewrite Hg; now left).
  unfold Stage1.group_cities in Hc.
  apply in_map_iff in Hc as ([z' c'] & _ & Hin).
  apply filter_In in Hin as [Hin Hz]. simpl in Hz. apply String.eqb_eq in Hz. subst z'.
  apply in_map_iff. now exists (z, c').
Qed.

Lemma majority_of_unique (df : list Stage1.record) (z c c' : string) :
  Stage1.majority_of df z c -> Stage1.majority_of df z c' -> c = c'.
Proof.
  intros [_ H] [_ H'].
  destruct (H c') as [Hlt | [Heq Hle]], (H' c) as [Hlt' | [Heq' Hle']]; try lia.
  apply String.leb_antisym; assumption.
Qed.

Lemma build_lookup_majority (df : list Stage1.record) (z c : string) :
  Stage1.build_zip_city_from_internal df !! z = Some c <-> Stage1.majority_of df z c.
Proof.
  rewrite build_lookup.
  assert (Hsound : forall c0,
            Stage1.majority_city (Stage1.group_cities z (Stage1.valid_zip_city df)) = Some c0 ->
            Stage1.majority_of df z c0).
  { intros c0 H. apply majority_city_sound in H as [Hin Hmax]. split.
    - now apply group_in_votes.
    - intros c'. destruct (Nat.eq_dec (Stage1.city_votes df z c') 0) as [H0 | Hpos].
      + left. apply group_in_votes in Hin. lia.
      + rewrite <- !group_votes. apply Hmax. apply group_in_votes. lia. }
  split; [apply Hsound |].
  intros Hmaj.
  destruct (Stage1.majority_city _) as [c0|] eqn:Hm.
  - f_equal. eapply majority_of_unique; [apply Hsound; reflexivity | exact Hmaj].
  - apply majority_city_none in Hm. destruct Hmaj as [Hpos _].
    apply group_in_votes in Hpos. rewrite Hm in Hpos. destruct Hpos.
Qed.

Lemma count_true_perm {A} (p : A -> bool) (l l' : list A) :
  Permutation l l' -> count_true p l = count_true p l'.
Proof.
  unfold count_true. induction 1; simpl.
  - reflexivity.
  - destruct (p x); simpl; congruence.
  - destruct (p x), (p y); reflexivity.
  - congruence.
Qed.

Lemma raw_votes_zero_or (df : list Stage1.record) (z c : string) (cs : list string) :
  (forall r, In r df -> In (astype_str (Stage1.City r)) cs) ->
  In c cs \/ Stage1.raw_city_votes df z c = 0%nat.
Proof.
  intros Hall. destruct (in_dec string_dec c cs) as [Hin | Hnot]; [now left | right].
  unfold Stage1.raw_city_votes, count_true.
  rewrite (proj2 (filter_nil_iff _ df)); [reflexivity |].
  intros r Hr. apply andb_false_iff. right.
  apply String.eqb_neq. intros ->. apply Hnot, Hall, Hr.
Qed.

(** C6, as the specification states it, fails: with "San Diego" twice, "SAN DIEGO"
    once and "LA MESA" twice for one ZipCode, the City value with the highest
    count, ties broken lexicographically, is "LA MESA"; the mapping gives
    "SAN DIEGO", which it counts three times. *)
Lemma mapping_counts_normalised_cities :
  Stage1.build_zip_city_from_internal Examples.mixed_case_pledges !! "92101"
  = Some "SAN DIEGO"
  /\ Stage1.raw_majority_of Examples.mixed_case_pledges "92101" "LA MESA"
  /\ ~ Stage1.raw_majority_of Examples.mixed_case_pledges "92101" "SAN DIEGO".
Proof.
  split; [vm_compute; reflexivity | split].
  - split; [vm_compute; lia |].
    intros c'.
    destruct (raw_votes_zero_or Examples.mixed_case_pledges "92101" c'
                ["San Diego"; "LA MESA"; "SAN DIEGO"]) as [Hin | H0].
    + intros r Hr. repeat (destruct Hr as [<- | Hr]; [simpl; tauto |]). destruct Hr.
    + repeat (destruct Hin as [<- | Hin];
              [vm_compute; first [left; lia | right; split; reflexivity] |]).
      destruct Hin.
    + left. rewrite H0. vm_compute. lia.
  - intros [_ H]. specialize (H "LA MESA"). vm_compute in H.
    destruct H as [H | [H _]]; [lia | discriminate H].
Qed.

(** C6 (amended): the mapping sends a ZipCode to the City, trimmed and in
    upper case, that occurs most often among the rows of that ZipCode with a
    present City, the counts being taken after that normalisation, and the
    lexicographically smallest one among equals; its keys are the ZipCodes
    that have such a row; and it is the same for every permutation of the
    rows. *)
Theorem zip_city_majority_mapping (df : list Stage1.record) :
  (forall z c, Stage1.build_zip_city_from_internal df !! z = Some c
               <-> Stage1.majority_of df z c)
  /\ (forall z, is_Some (Stage1.build_zip_city_from_internal df !! z)
               <-> exists r, In r df /\ Stage1.Zip_Code r = Some z
                             /\ Stage1.is_missing_text (Stage1.City r) = false)
  /\ (forall df', Permutation df df' ->
        Stage1.build_zip_city_from_internal df' = Stage1.build_zip_city_from_internal df).
Proof.
  split; [apply build_lookup_majority | split].
  - intros z. split.
    + intros [c Hc]. apply build_lookup_majority in Hc as [Hpos _].
      unfold Stage1.city_votes in Hpos. apply count_true_pos in Hpos as (r & Hin & Hr).
      apply andb_true_iff in Hr as [Hr _]. apply andb_true_iff in Hr as [Hc Hz].
      exists r. split; [exact Hin |]. split.
      * now apply bool_decide_eq_true_1 in Hz.
      * now apply negb_true_iff in Hc.
    + intros (r & Hin & Hz & Hc).
      destruct (Stage1.build_zip_city_from_internal df !! z) as [c|] eqn:Hb; [now exists c |].
      exfalso. rewrite build_lookup in Hb. apply majority_city_none in Hb.
      assert (Hg : In (Stage1.normalize_city (Stage1.City r))
                      (Stage1.group_cities z (Stage1.valid_zip_city df))).
      { apply group_in_votes. unfold Stage1.city_votes. apply count_true_pos.
        exists r. split; [exact Hin |].
        rewrite Hc, String.eqb_refl, bool_decide_eq_true_2 by exact Hz. reflexivity. }
      rewrite Hb in Hg. destruct Hg.
  - intros df' Hperm. apply map_eq. intros z.
    assert (Hiff : forall c, Stage1.majority_of df' z c <-> Stage1.majority_of df z c).
    { intros c. unfold Stage1.majority_of, Stage1.city_votes.
      rewrite <- (count_true_perm _ _ _ Hperm).
      split; intros [Hpos H]; (split; [exact Hpos |]); intros c'; specialize (H c').
      - now rewrite (count_true_perm _ _ _ Hperm).
      - now rewrite <- (count_true_perm _ _ _ Hperm). }
    destruct (Stage1.build_zip_city_from_internal df' !! z) as [c|] eqn:H1.
    + symmetry. apply build_lookup_majority, Hiff, build_lookup_majority, H1.
    + destruct (Stage1.build_zip_city_from_internal df !! z) as [c|] eqn:H2; [| reflexivity].
      apply build_lookup_majority, Hiff, build_lookup_majority in H2. congruence.
Qed.

(** ** Annual unemployment *)

Section DropDuplicatesEq.

Context {A : Type}.
Variable eqb : A -> A -> bool.
Hypothesis eqb_eq : forall x y, eqb x y = true <-> x = y.

Lemma existsb_eqb_in (x : A) (l : list A) : existsb (eqb x) l = true <-> In x l.
Proof.
  rewrite existsb_exists. split.
  - intros (y & Hin & Hy). apply eqb_eq in Hy. now subst.
  - intros Hin. exists x. split; [exact Hin | now apply eqb_eq].
Qed.

Lemma drop_dups_from_in (seen l : list A) (x : A) :
  In x (Frame.drop_dups_from eqb seen l) <-> In x l /\ ~ In x seen.
Proof.
  revert seen. induction l as [|y l IH]; intros seen; cbn [Frame.drop_dups_from].
  - simpl. tauto.
  - destruct (existsb (eqb y) seen) eqn:Hy.
    + apply existsb_eqb_in in Hy. rewrite IH. simpl. split; [tauto |].
      intros [[-> | Hin] Hx]; tauto.
    + assert (Hy' : ~ In y seen).
      { intros H. apply existsb_eqb_in in H. congruence. }
      simpl. rewrite IH. simpl. split.
      * intros [-> | [Hin Hx]]; tauto.
      * intros [[-> | Hin] Hx]; [now left |].
        destruct (existsb (eqb x) [y]) eqn:Hxy.
        -- apply existsb_eqb_in in Hxy as [-> | []]. now left.
        -- right. split; [exact Hin |]. intros [-> | H]; [| tauto].
           simpl in Hxy. rewrite (proj2 (eqb_eq x x) eq_refl) in Hxy. discriminate.
Qed.

Lemma drop_dups_from_nodup (seen l : list A) :
  List.NoDup (Frame.drop_dups_from eqb seen l).
Proof.
  revert seen. induction l as [|y l IH]; intros seen; cbn [Frame.drop_dups_from].
  - constructor.
  - destruct (existsb (eqb y) seen); [apply IH |].
    constructor; [| apply IH].
    rewrite drop_dups_from_in. simpl. tauto.
Qed.

Lemma drop_duplicates_in (l : list A) (x : A) :
  In x (Frame.drop_duplicates eqb l) <-> In x l.
Proof. unfold Frame.drop_duplicates. rewrite drop_dups_from_in. simpl. tauto. Qed.

Lemma drop_duplicates_nodup (l : list A) : List.NoDup (Frame.drop_duplicates eqb l).
Proof. apply drop_dups_from_nodup. Qed.

(** The number of distinct values of [l], counted over a duplicate-free
    list [universe] that contains them all *)
Lemma distinct_count (universe l : list A) :
  List.NoDup universe -> (forall x, In x l -> In x universe) ->
  List.length (Frame.drop_duplicates eqb l)
  = count_true (fun u => existsb (eqb u) l) universe.
Proof.
  intros Hnd Hincl. unfold count_true.
  apply Permutation_length, Permutation.NoDup_Permutation.
  - apply drop_duplicates_nodup.
  - now apply List.NoDup_filter.
  - intros x. rewrite drop_duplicates_in, filter_In, existsb_eqb_in.
    split; [intros H; split; auto | tauto].
Qed.

End DropDuplicatesEq.

Lemma month_periods_written_out : Stage4.month_periods = Stage4.twelve_months.
Proof. reflexivity. Qed.

Lemma is_month_period_iff (p : string) :
  Stage4.is_month_period p = true <-> In p Stage4.twelve_months.
Proof.
  unfold Stage4.is_month_period. rewrite month_periods_written_out. split.
  - intros H. apply andb_true_iff in H as [_ H].
    now apply (existsb_eqb_in String.eqb String.eqb_eq) in H.
  - intros H. apply andb_true_iff. split.
    + repeat (destruct H as [<- | H]; [reflexivity |]). destruct H.
    + now apply (existsb_eqb_in String.eqb String.eqb_eq).
Qed.

Lemma retain_some (r : Stage4.monthly_row) (o : Stage4.month_obs) :
  Stage4.retain r = Some o
  <-> In (Text.strip (astype_str (Stage4.Period r))) Stage4.twelve_months
      /\ Stage4.Year r = Some (Stage4.m_Year o)
      /\ Stage4.value r = Some (Stage4.m_value o)
      /\ Stage4.m_Period o = Text.strip (astype_str (Stage4.Period r)).
Proof.
  unfold Stage4.retain. rewrite <- is_month_period_iff.
  destruct (Stage4.is_month_period _).
  - destruct (Stage4.Year r) as [y|], (Stage4.value r) as [v|]; destruct o as [oy op ov];
      simpl; split; try discriminate; try (intros (_ & H & _); discriminate H);
      try (intros (_ & _ & H & _); discriminate H).
    + intros [= <- <- <-]. auto.
    + intros (_ & [= <-] & [= <-] & ->). reflexivity.
  - split; [discriminate | intros (H & _); discriminate H].
Qed.

Lemma retained_periods (rows : list Stage4.monthly_row) (o : Stage4.month_obs) :
  In o (Stage4.retained rows) -> In (Stage4.m_Period o) Stage4.twelve_months.
Proof.
  unfold Stage4.retained. intros H.
  apply list_elem_of_In, list_elem_of_omap in H as (r & _ & Hr).
  apply retain_some in Hr as (Hp & _ & _ & ->). exact Hp.
Qed.

Lemma twelve_months_nodup : List.NoDup Stage4.twelve_months.
Proof.
  unfold Stage4.twelve_months.
  repeat (constructor; [simpl; intuition discriminate |]). constructor.
Qed.

Lemma count_true_le {A} (p : A -> bool) (l : list A) :
  (count_true p l <= List.length l)%nat.
Proof.
  unfold count_true. induction l as [|a l IH]; simpl; [lia |].
  destruct (p a); simpl; lia.
Qed.

Lemma group_years_in (obs : list Stage4.month_obs) (y : Z) :
  In y (Stage4.group_years obs) <-> exists o, In o obs /\ Stage4.m_Year o = y.
Proof.
  unfold Stage4.group_years.
  rewrite in_sort_values, (drop_duplicates_in Z.eqb Z.eqb_eq), in_map_iff.
  split; intros (o & H1 & H2); exists o; tauto.
Qed.

Lemma group_years_nodup (obs : list Stage4.month_obs) : List.NoDup (Stage4.group_years obs).
Proof.
  unfold Stage4.group_years.
  eapply Permutation_NoDup; [apply sort_values_perm |].
  apply (drop_duplicates_nodup Z.eqb Z.eqb_eq).
Qed.

(** C8, as the specification states it, fails: a row whose Period is M03 but whose
    value does not parse is not retained, and a year with twelve monthly
    rows then has MonthCount 11 and goes to the partial set. *)
Lemma month_without_value_is_dropped :
  Stage4.is_month_period
    (Text.strip (astype_str (Stage4.Period (Examples.month_2024 "M03" None)))) = true
  /\ Stage4.retain (Examples.month_2024 "M03" None) = None
  /\ map Stage4.month_count
         (Stage4.annual_of_sheet Examples.sheet_2024 Examples.months_2024) = [11%nat]
  /\ option_map (fun out => (List.length (fst out), List.length (snd out)))
         (Stage4.main [Examples.sheet_2024]) = Some (0%nat, 1%nat).
Proof. repeat split; vm_compute; reflexivity. Qed.

(** C8 (amended): a row is retained exactly when its trimmed Period is one
    of M01..M12 and its Year and value are numeric (so M13 is excluded, and
    so is a month whose value does not parse).  There is one annual row per
    Year that has a retained row; its rate is the mean of the retained values
    of that Year and its MonthCount is the number of the twelve periods that
    occur among them, between 1 and 12.  An annual row goes to the
    complete-year set iff MonthCount = 12 and to the partial set iff
    MonthCount < 12. *)
Theorem annual_unemployment_extraction
    (sh : Stage4.sheet) (rows : list Stage4.monthly_row) :
  (forall r, is_Some (Stage4.retain r)
             <-> In (Text.strip (astype_str (Stage4.Period r))) Stage4.twelve_months
                 /\ is_Some (Stage4.Year r) /\ is_Some (Stage4.value r))
  /\ ~ In "M13" Stage4.twelve_months
  /\ (forall y, (exists o, In o (Stage4.retained rows) /\ Stage4.m_Year o = y)
                <-> exists a, In a (Stage4.annual_of_sheet sh rows) /\ Stage4.a_Year a = y)
  /\ List.NoDup (map Stage4.a_Year (Stage4.annual_of_sheet sh rows))
  /\ (forall a, In a (Stage4.annual_of_sheet sh rows) ->
        Stage4.of_year (Stage4.a_Year a) (Stage4.retained rows) <> []
        /\ Stage4.unemployment_rate a
           = (Stage4.sum_Q (map Stage4.m_value
                              (Stage4.of_year (Stage4.a_Year a) (Stage4.retained rows)))
              / inject_Z (Z.of_nat (List.length
                              (Stage4.of_year (Stage4.a_Year a) (Stage4.retained rows)))))%Q
        /\ Stage4.month_count a
           = count_true
               (fun p => existsb (String.eqb p)
                           (map Stage4.m_Period
                              (Stage4.of_year (Stage4.a_Year a) (Stage4.retained rows))))
               Stage4.twelve_months
        /\ (1 <= Stage4.month_count a <= 12)%nat)
  /\ (forall annual a, In a annual ->
        (In a (Stage4.annual_full annual) <-> Stage4.month_count a = 12%nat)
        /\ (In a (Stage4.annual_ytd annual) <-> (Stage4.month_count a < 12)%nat)).
Proof.
  split; [| split; [| split; [| split; [| split]]]].
  - intros r. split.
    + intros [o Ho]. apply retain_some in Ho as (Hp & Hy & Hv & _).
      rewrite Hy, Hv. eauto.
    + intros (Hp & [y Hy] & [v Hv]).
      exists {| Stage4.m_Year := y;
                Stage4.m_Period := Text.strip (astype_str (Stage4.Period r));
                Stage4.m_value := v |}.
      apply retain_some. simpl. auto.
  - simpl. intuition discriminate.
  - intros y. rewrite <- group_years_in. unfold Stage4.annual_of_sheet. split.
    + intros Hy. eexists. split; [apply in_map; exact Hy | reflexivity].
    + intros (a & Ha & <-). apply in_map_iff in Ha as (y & <- & Hy). exact Hy.
  - unfold Stage4.annual_of_sheet. rewrite map_map. simpl. rewrite map_id.
    apply group_years_nodup.
  - intros a Ha. unfold Stage4.annual_of_sheet in Ha.
    apply in_map_iff in Ha as (y & <- & Hy). cbn [Stage4.a_Year Stage4.unemployment_rate
      Stage4.month_count].
    apply group_years_in in Hy as (o & Ho & Hoy).
    assert (Hin : In o (Stage4.of_year y (Stage4.retained rows))).
    { apply filter_In. split; [exact Ho |]. now apply Z.eqb_eq. }
    assert (Hcount : Stage4.nunique
                       (map Stage4.m_Period (Stage4.of_year y (Stage4.retained rows)))
                     = count_true
                         (fun p => existsb (String.eqb p)
                            (map Stage4.m_Period (Stage4.of_year y (Stage4.retained rows))))
                         Stage4.twelve_months).
    { unfold Stage4.nunique.
      apply (distinct_count String.eqb String.eqb_eq); [apply twelve_months_nodup |].
      intros p Hp. apply in_map_iff in Hp as (o' & <- & Ho').
      apply filter_In in Ho' as [Ho' _]. eapply retained_periods; exact Ho'. }
    split; [| split; [unfold Stage4.mean; now rewrite length_map | split; [exact Hcount |]]].
    + intros Hnil. rewrite Hnil in Hin. destruct Hin.
    + rewrite Hcount. split.
      * apply count_true_pos. exists (Stage4.m_Period o). split.
        -- eapply retained_periods; exact Ho.
        -- apply (existsb_eqb_in String.eqb String.eqb_eq). now apply in_map.
      * apply (count_true_le _ Stage4.twelve_months).
  - intros annual a Ha. unfold Stage4.annual_full, Stage4.annual_ytd.
    rewrite !in_sort_values, !filter_In. split.
    + rewrite Nat.eqb_eq. tauto.
    + rewrite Nat.ltb_lt. tauto.
Qed.

(** ** The ZIP column of the final dataset *)

(** Only a raw ZIP that is missing, blank or "nan" drops its row; a row
    whose ZIP text holds no five digits is kept, with a missing Zip_Code. *)
Lemma clean_core_columns_keeps_invalid_zip (P : Stage1.parsers) (r : Stage1.raw_record) :
  Stage1.is_missing_text (Stage1.raw_Zip_Code r) = false ->
  Zip.clean_zip_value (Stage1.raw_Zip_Code r) = None ->
  exists c, Stage1.clean_core_columns P [r] = [c] /\ Stage1.Zip_Code c = None.
Proof.
  intros Hm Hz. unfold Stage1.clean_core_columns. simpl. rewrite Hm. simpl.
  eexists. split; [reflexivity |]. exact Hz.
Qed.

(** C2: a pledge whose raw Zip_Code is "CA 921" is not dropped; with the
    configuration of [main] it reaches the final dataset, where its
    Zip_Code is the text "nan". *)
Theorem invalid_zip_reaches_final_dataset
    (P : Stage1.parsers) (geonames_zip_city : gmap string string) :
  Stage1.run Stage1.main_config P geonames_zip_city [Examples.bad_zip_file]
  = (Stage1.Ok [ {| Stage1.out_City := CStr "SAN DIEGO";
                    Stage1.out_Zip_Code := "nan";
                    Stage1.out_YearMo := "2024-01";
                    Stage1.out_Pledge_Amount := Stage1.to_numeric P "100" |} ],
     [])
  /\ Stage1.is_zip5 "nan" = false.
Proof.
  split; [| reflexivity].
  unfold Stage1.run.
  assert (Hload : Stage1.load_and_normalize_all_files
                    (Stage1.column_mapping Stage1.main_config)
                    (Stage1.required_strict Stage1.main_config)
                    (Stage1.optional_cols Stage1.main_config)
                    [Examples.bad_zip_file] []
                  = (Stage1.Ok [ {| Stage1.raw_City := CStr "San Diego";
                                    Stage1.raw_Zip_Code := CStr "CA 921";
                                    Stage1.raw_Created_On := CDate (mkDate 2024 1 15);
                                    Stage1.raw_Pledge_Amount := CInt 100;
                                    Stage1.raw_SourceFile := "pledges_2024.xlsx" |} ], [])).
  { vm_compute. reflexivity. }
  rewrite Hload. f_equal. f_equal.
  unfold Stage1.fill_missing_cities.
  destruct (decide (geonames_zip_city = ∅)); vm_compute; reflexivity.
Qed.

(** ** Worked examples *)

Example deduplicate_pledges :
  map (fun r => (Stage1.Zip_Code r, Stage1.YearMo r, Stage1.SourceFile r))
      (Stage1.deduplicate Examples.pledges)
  = [ (Some "91941", "2024-02", "a.xlsx"); (Some "92101", "2024-01", "a.xlsx");
      (Some "92101", "2024-03", "b.xlsx"); (Some "92101", "2025-07", "c.xlsx");
      (Some "92101", "NaT", "b.xlsx"); (None, "2022-12", "c.xlsx") ]
  /\ Stage1.removed_by_deduplicate Examples.pledges = 1%nat.
Proof. split; vm_compute; reflexivity. Qed.

Example zip_city_of_pledges :
  map_to_list (Stage1.build_zip_city_from_internal Examples.pledges)
  = [("91941", "LA MESA"); ("92101", "CORONADO")].
Proof. vm_compute. reflexivity. Qed.

Example date_range_of_pledges :
  map Stage1.YearMo
      (Stage1.filter_by_date_range (Some "2023-01") (Some "2025-06")
         [ Examples.pledge CNaN None "2025-07" None "";
           Examples.pledge CNaN None "2025-06" None "";
           Examples.pledge CNaN None "2022-12" None "";
           Examples.pledge CNaN None "NaT" None "" ])
  = ["2025-06"].
Proof. reflexivity. Qed.

Example dominant_of_candidates :
  map Stage5.County_FIPS (Stage5.df_zip_primary Examples.candidates) = ["06002"; "06073"].
Proof. vm_compute. reflexivity. Qed.

Example fips_of_alameda :
  Stage5.fips_of_series_id "LAUCN060010000000003" = "06001".
Proof. reflexivity. Qed.

Example clean_zip_samples :
  Zip.clean_zip [CInt 92101; CStr " 92101-1234"; CStr "x1234567"; CStr "9210"; CInt 1234]
  = [Some "92101"; Some "92101"; Some "12345"; None; None].
Proof. reflexivity. Qed.

(** * Further properties of the pipeline *)

(** ** Header detection: the index returned *)

Lemma scan_first_match (i : nat) (rows : list (list cell)) :
  (exists pre r post,
      rows = pre ++ r :: post
      /\ Header.looks_like_header r = true
      /\ (forall r', In r' pre -> Header.looks_like_header r' = false)
      /\ Header.scan i rows = (i + List.length pre)%nat)
  \/ ((forall r, In r rows -> Header.looks_like_header r = false)
      /\ Header.scan i rows = 0%nat).
Proof.
  revert i. induction rows as [|r rows IH]; intros i; cbn [Header.scan].
  - right. split; [intros r [] | reflexivity].
  - destruct (Header.looks_like_header r) eqn:Hr.
    + left. exists [], r, rows. repeat split; [exact Hr | intros r' [] | simpl; lia].
    + destruct (IH (S i)) as [(pre & r0 & post & -> & Hr0 & Hpre & Hs) | [Hall Hs]].
      * left. exists (r :: pre), r0, post. repeat split; [exact Hr0 | | simpl; lia].
        intros r' [<- | Hin]; [exact Hr | now apply Hpre].
      * right. split; [| exact Hs]. intros r' [<- | Hin]; [exact Hr | now apply Hall].
Qed.

(** X1: [detect_header_row] returns the index of the first row, among the
    first [max_rows] rows of the grid, that has at least 3 cells and at
    least 2 cells whose text contains a letter (a missing cell has the text
    "nan"); it returns 0 when no such row exists, so the index is always
    0 or that of a row of the grid inside the window. *)
Theorem detect_header_row_first_match (max_rows : nat) (grid : list (list cell)) :
  (forall row, Header.looks_like_header row = true
               <-> (3 <= List.length row)%nat
                   /\ (2 <= count_true (fun c => Text.contains_alpha (astype_str c)) row)%nat)
  /\ ((exists row,
         nth_error grid (Header.detect_header_row max_rows grid) = Some row
         /\ (Header.detect_header_row max_rows grid < max_rows)%nat
         /\ Header.looks_like_header row = true
         /\ forall k row', (k < Header.detect_header_row max_rows grid)%nat ->
                           nth_error grid k = Some row' ->
                           Header.looks_like_header row' = false)
      \/ (Header.detect_header_row max_rows grid = 0%nat
          /\ forall k row', (k < max_rows)%nat -> nth_error grid k = Some row' ->
                            Header.looks_like_header row' = false)).
Proof.
  split.
  - intros row. rewrite looks_like_header_counts, andb_true_iff, !Nat.leb_le. reflexivity.
  - unfold Header.detect_header_row.
    assert (Hnth : forall k row', (k < max_rows)%nat -> nth_error grid k = Some row' ->
                     nth_error (firstn max_rows grid) k = Some row').
    { intros k row' Hk Hrow. rewrite nth_error_firstn.
      destruct (Nat.ltb_spec k max_rows); [exact Hrow | lia]. }
    destruct (scan_first_match 0 (firstn max_rows grid))
      as [(pre & r & post & Hsplit & Hr & Hpre & Hs) | [Hall Hs]].
    + left. rewrite Hs. simpl.
      assert (Hr' : nth_error (firstn max_rows grid) (List.length pre) = Some r).
      { rewrite Hsplit. rewrite nth_error_app2 by lia. now rewrite Nat.sub_diag. }
      assert (Hlt : (List.length pre < max_rows)%nat).
      { assert (H : (List.length pre < List.length (firstn max_rows grid))%nat)
          by (apply nth_error_Some; congruence).
        rewrite length_firstn in H. lia. }
      exists r. repeat split; [| exact Hlt | exact Hr |].
      * rewrite nth_error_firstn in Hr'.
        destruct (Nat.ltb_spec (List.length pre) max_rows); [exact Hr' | lia].
      * intros k row' Hk Hrow. apply Hpre.
        assert (Hk' : nth_error (firstn max_rows grid) k = Some row')
          by (apply Hnth; [lia | exact Hrow]).
        rewrite Hsplit, nth_error_app1 in Hk' by exact Hk.
        eapply nth_error_In; exact Hk'.
    + right. split; [exact Hs |].
      intros k row' Hk Hrow. apply Hall.
      eapply nth_error_In. apply Hnth; eassumption.
Qed.

(** ** Loading the source files: errors and the log *)



Lemma length_concat_sum {A} (ls : list (list A)) :
  List.length (concat ls) = list_sum (map (@List.length A) ls).
Proof.
  induction ls as [|l ls IH]; simpl; [reflexivity |].
  now rewrite length_app, IH.
Qed.


(** ** Stable sort and first occurrences *)

Section FirstOfKey.

Context {A : Type}.
Variable cmp : A -> A -> comparison.
Hypothesis Hord : Frame.Order cmp.

Lemma eq_of_class (k x y : A) :
  Frame.eq_of cmp k x = true -> Frame.eq_of cmp x y = Frame.eq_of cmp k y.
Proof.
  unfold Frame.eq_of. destruct (cmp k x) eqn:Hkx; try discriminate. intros _.
  now rewrite (Frame.order_eq_l _ Hord _ _ y Hkx).
Qed.

Lemma find_insert_row (k x : A) (s : list A) :
  find (Frame.eq_of cmp k) (Frame.insert_row cmp x s)
  = if Frame.eq_of cmp k x then Some x else find (Frame.eq_of cmp k) s.
Proof.
  induction s as [|y s IH]; cbn [Frame.insert_row find].
  - reflexivity.
  - destruct (Frame.le_of cmp x y) eqn:Hxy; cbn [find]; [reflexivity |].
    rewrite IH. destruct (Frame.eq_of cmp k x) eqn:Hkx; [| reflexivity].
    rewrite <- (eq_of_class _ _ y Hkx).
    unfold Frame.le_of in Hxy. unfold Frame.eq_of.
    destruct (cmp x y); try discriminate Hxy. reflexivity.
Qed.

(** The sort is stable: the first row of a key is the same before and after. *)
Lemma find_sort_values (k : A) (l : list A) :
  find (Frame.eq_of cmp k) (Frame.sort_values cmp l) = find (Frame.eq_of cmp k) l.
Proof.
  induction l as [|x l IH]; cbn [Frame.sort_values find]; [reflexivity |].
  now rewrite find_insert_row, IH.
Qed.

Lemma existsb_class (k x : A) (seen : list A) :
  Frame.eq_of cmp k x = true ->
  existsb (Frame.eq_of cmp x) seen = existsb (Frame.eq_of cmp k) seen.
Proof.
  intros Hkx. induction seen as [|y seen IH]; simpl; [reflexivity |].
  now rewrite IH, (eq_of_class _ _ y Hkx).
Qed.

Lemma find_drop_dups_from (k : A) (seen l : list A) :
  find (Frame.eq_of cmp k) (Frame.drop_dups_from (Frame.eq_of cmp) seen l)
  = if existsb (Frame.eq_of cmp k) seen then None else find (Frame.eq_of cmp k) l.
Proof.
  revert seen. induction l as [|x l IH]; intros seen; cbn [Frame.drop_dups_from find].
  - now destruct (existsb _ seen).
  - destruct (Frame.eq_of cmp k x) eqn:Hx.
    + rewrite (existsb_class _ _ seen Hx).
      destruct (existsb (Frame.eq_of cmp k) seen) eqn:Hseen.
      * now rewrite IH, Hseen.
      * cbn [find]. now rewrite Hx.
    + destruct (existsb (Frame.eq_of cmp x) seen).
      * apply IH.
      * cbn [find]. rewrite Hx, IH. cbn [existsb]. now rewrite Hx.
Qed.

Lemma count_drop_dups_from (k : A) (seen l : list A) :
  count_true (Frame.eq_of cmp k) (Frame.drop_dups_from (Frame.eq_of cmp) seen l)
  = if existsb (Frame.eq_of cmp k) seen then 0%nat
    else if existsb (Frame.eq_of cmp k) l then 1%nat else 0%nat.
Proof.
  unfold count_true.
  revert seen. induction l as [|x l IH]; intros seen; cbn [Frame.drop_dups_from existsb].
  - now destruct (existsb _ seen).
  - destruct (Frame.eq_of cmp k x) eqn:Hx.
    + rewrite (existsb_class _ _ seen Hx).
      destruct (existsb (Frame.eq_of cmp k) seen) eqn:Hseen.
      * now rewrite IH, Hseen.
      * cbn [List.filter]. rewrite Hx. cbn [List.length orb].
        rewrite IH. cbn [existsb]. now rewrite Hx.
    + cbn [orb]. destruct (existsb (Frame.eq_of cmp x) seen).
      * apply IH.
      * cbn [List.filter]. rewrite Hx, IH. cbn [existsb]. now rewrite Hx.
Qed.

End FirstOfKey.

Lemma drop_dups_from_incl {A} (same : A -> A -> bool) (seen l : list A) (x : A) :
  In x (Frame.drop_dups_from same seen l) -> In x l.
Proof.
  intros H.
  assert (HF : Forall (fun a => In a l) (Frame.drop_dups_from same seen l)).
  { apply drop_dups_from_Forall. apply List.Forall_forall. auto. }
  rewrite List.Forall_forall in HF. now apply HF.
Qed.

Lemma existsb_perm {A} (p : A -> bool) (l l' : list A) :
  Permutation l l' -> existsb p l = existsb p l'.
Proof.
  intros H. apply eq_true_iff_eq. rewrite !existsb_exists.
  split; intros (x & Hin & Hx); exists x; (split; [| exact Hx]).
  - eapply Permutation_in; eassumption.
  - eapply Permutation_in; [symmetry |]; eassumption.
Qed.

Lemma deduplicate_in (df_all : list Stage1.record) (r : Stage1.record) :
  In r (Stage1.deduplicate df_all) -> In r df_all.
Proof.
  unfold Stage1.deduplicate, Frame.drop_duplicates. intros H.
  apply drop_dups_from_incl in H.
  eapply Permutation_in; [symmetry; apply sort_values_perm | exact H].
Qed.

(** X3: for every key (ZipCode, YearMo, PledgeAmount), [deduplicate] keeps
    exactly one row when the input has rows with that key and none
    otherwise, and the row it keeps is the first of them in the input.  It
    invents no row and returns at most as many rows as it was given. *)
Theorem deduplicate_keeps_first (df_all : list Stage1.record) :
  (forall k, find (Stage1.same_key k) (Stage1.deduplicate df_all)
             = find (Stage1.same_key k) df_all)
  /\ (forall k, count_true (Stage1.same_key k) (Stage1.deduplicate df_all)
                = if existsb (Stage1.same_key k) df_all then 1%nat else 0%nat)
  /\ (forall r, In r (Stage1.deduplicate df_all) -> In r df_all)
  /\ (List.length (Stage1.deduplicate df_all) <= List.length df_all)%nat.
Proof.
  split; [| split; [| split]].
  - intros k. unfold Stage1.same_key, Stage1.deduplicate, Frame.drop_duplicates.
    rewrite (find_drop_dups_from _ cmp_dedupe_order). cbn [existsb].
    apply (find_sort_values _ cmp_dedupe_order).
  - intros k. unfold Stage1.same_key, Stage1.deduplicate, Frame.drop_duplicates.
    rewrite (count_drop_dups_from _ cmp_dedupe_order). cbn [existsb].
    now rewrite <- (existsb_perm _ _ _ (sort_values_perm Stage1.cmp_dedupe df_all)).
  - apply deduplicate_in.
  - unfold Stage1.deduplicate, Frame.drop_duplicates.
    etransitivity; [apply drop_dups_from_length |].
    now rewrite <- (Permutation_length (sort_values_perm Stage1.cmp_dedupe df_all)).
Qed.

(** ** Trimming and upper case *)

Lemma upper_char_idem (c : ascii) : Text.upper_char (Text.upper_char c) = Text.upper_char c.
Proof. destruct c as [[] [] [] [] [] [] [] []]; reflexivity. Qed.

Lemma is_space_upper_char (c : ascii) : Text.is_space (Text.upper_char c) = Text.is_space c.
Proof. destruct c as [[] [] [] [] [] [] [] []]; reflexivity. Qed.

Lemma upper_idem (s : string) : Text.upper (Text.upper s) = Text.upper s.
Proof.
  unfold Text.upper. induction s as [|c s IH]; simpl; [reflexivity |].
  now rewrite upper_char_idem, IH.
Qed.

Lemma upper_nil_iff (s : string) : Text.upper s = EmptyString <-> s = EmptyString.
Proof.
  unfold Text.upper. destruct s; cbn; split; intros H; try reflexivity; discriminate H.
Qed.

Lemma lstrip_upper (s : string) : Text.lstrip (Text.upper s) = Text.upper (Text.lstrip s).
Proof.
  unfold Text.upper. induction s as [|c s IH]; simpl; [reflexivity |].
  rewrite is_space_upper_char. destruct (Text.is_space c); [exact IH | reflexivity].
Qed.

Lemma rstrip_upper (s : string) : Text.rstrip (Text.upper s) = Text.upper (Text.rstrip s).
Proof.
  unfold Text.upper. induction s as [|c s IH]; simpl; [reflexivity |].
  rewrite IH, is_space_upper_char.
  destruct (Text.rstrip s) as [|d r]; simpl.
  - destruct (Text.is_space c); reflexivity.
  - reflexivity.
Qed.

Lemma strip_upper (s : string) : Text.strip (Text.upper s) = Text.upper (Text.strip s).
Proof. unfold Text.strip. now rewrite lstrip_upper, rstrip_upper. Qed.

(** A text that does not begin with a blank *)
Lemma lstrip_no_lead (s : string) :
  match Text.lstrip s with
  | EmptyString => True
  | String c _ => Text.is_space c = false
  end.
Proof.
  induction s as [|c s IH]; simpl; [exact I |].
  destruct (Text.is_space c) eqn:Hc; [exact IH | exact Hc].
Qed.

Lemma rstrip_idem (s : string) : Text.rstrip (Text.rstrip s) = Text.rstrip s.
Proof.
  induction s as [|c s IH]; simpl; [reflexivity |].
  destruct (Text.rstrip s) as [|d r] eqn:Hr.
  - destruct (Text.is_space c) eqn:Hc; simpl; [reflexivity | now rewrite Hc].
  - change (Text.rstrip (String c (String d r)))
      with (match Text.rstrip (String d r) with
            | EmptyString => if Text.is_space c then EmptyString else String c EmptyString
            | r0 => String c r0
            end).
    now rewrite IH.
Qed.

Lemma rstrip_keeps_head (c : ascii) (s : string) :
  Text.is_space c = false -> exists r, Text.rstrip (String c s) = String c r.
Proof.
  intros Hc. simpl. destruct (Text.rstrip s) as [|d r].
  - rewrite Hc. now exists EmptyString.
  - now exists (String d r).
Qed.

Lemma strip_idem (s : string) : Text.strip (Text.strip s) = Text.strip s.
Proof.
  unfold Text.strip.
  assert (H : Text.lstrip (Text.rstrip (Text.lstrip s)) = Text.rstrip (Text.lstrip s)).
  { pose proof (lstrip_no_lead s) as Hl.
    destruct (Text.lstrip s) as [|c t]; [reflexivity |].
    destruct (rstrip_keeps_head c t Hl) as [r ->]. simpl. now rewrite Hl. }
  rewrite H. apply rstrip_idem.
Qed.

Lemma normalize_city_idem (c : cell) :
  Stage1.normalize_city (CStr (Stage1.normalize_city c)) = Stage1.normalize_city c.
Proof.
  unfold Stage1.normalize_city. cbn [astype_str].
  now rewrite strip_upper, strip_idem, upper_idem.
Qed.

Lemma normalized_city_present (c : cell) :
  Stage1.is_missing_text c = false ->
  Stage1.is_missing_text (CStr (Stage1.normalize_city c)) = false.
Proof.
  unfold Stage1.is_missing_text. intros H.
  apply orb_false_iff in H as [H Hnan]. apply orb_false_iff in H as [_ Hblank].
  fold (Stage1.normalize_city c) in Hnan.
  assert (Hstrip : Text.strip (Stage1.normalize_city c) = Stage1.normalize_city c).
  { unfold Stage1.normalize_city. now rewrite strip_upper, strip_idem. }
  assert (Hupper : Text.upper (Stage1.normalize_city c) = Stage1.normalize_city c).
  { unfold Stage1.normalize_city. apply upper_idem. }
  cbn [isna astype_str orb]. rewrite Hstrip, Hupper, Hnan, orb_false_r.
  apply String.eqb_neq. apply String.eqb_neq in Hblank.
  unfold Stage1.normalize_city. intros Hu. apply (proj1 (upper_nil_iff _)) in Hu. exact (Hblank Hu).
Qed.

(** ** City backfill *)

Lemma set_City_other (r : Stage1.record) (c : cell) :
  Stage1.other_columns (Stage1.set_City r c) = Stage1.other_columns r.
Proof. reflexivity. Qed.

(** Every value of the internal mapping is a normalised City of the table. *)
Lemma build_value_normalized (df : list Stage1.record) (z c : string) :
  Stage1.build_zip_city_from_internal df !! z = Some c ->
  Stage1.is_missing_text (CStr c) = false /\ Stage1.normalize_city (CStr c) = c.
Proof.
  intros H. apply build_lookup_majority in H as [Hpos _].
  unfold Stage1.city_votes in Hpos. apply count_true_pos in Hpos as (r & _ & Hr).
  apply andb_true_iff in Hr as [Hr Hc]. apply andb_true_iff in Hr as [Hm _].
  apply String.eqb_eq in Hc. apply negb_true_iff in Hm. subst c.
  split; [now apply normalized_city_present | apply normalize_city_idem].
Qed.


Section FillOneRow.

Variable geo : gmap string string.
Variable df : list Stage1.record.

(** The three steps of [fill_missing_cities] on one row *)
Let step_internal (r : Stage1.record) : Stage1.record :=
  if Stage1.is_missing_text (Stage1.City r)
  then Stage1.set_City r
         (Stage1.map_lookup (Stage1.build_zip_city_from_internal df) (Stage1.Zip_Code r))
  else r.

Let step_geonames (r : Stage1.record) : Stage1.record :=
  if Stage1.is_missing_text (Stage1.City r)
  then Stage1.set_City r (Stage1.lookup_city geo (Stage1.Zip_Code r))
  else r.

Let step_normalize (r : Stage1.record) : Stage1.record :=
  Stage1.set_City r (CStr (Stage1.normalize_city (Stage1.City r))).

Lemma internal_step_cases (r : Stage1.record) :
  Stage1.other_columns (step_internal r) = Stage1.other_columns r
  /\ (Stage1.is_missing_text (Stage1.City r) = false -> step_internal r = r)
  /\ (Stage1.is_missing_text (Stage1.City r) = true ->
      Stage1.City (step_internal r)
      = Stage1.map_lookup (Stage1.build_zip_city_from_internal df) (Stage1.Zip_Code r)).
Proof.
  unfold step_internal.
  destruct (Stage1.is_missing_text (Stage1.City r)); repeat split; try discriminate; reflexivity.
Qed.

Lemma geonames_step_cases (r : Stage1.record) :
  Stage1.other_columns (step_geonames r) = Stage1.other_columns r
  /\ (Stage1.is_missing_text (Stage1.City r) = false -> step_geonames r = r)
  /\ (Stage1.is_missing_text (Stage1.City r) = true ->
      Stage1.City (step_geonames r) = Stage1.lookup_city geo (Stage1.Zip_Code r)).
Proof.
  unfold step_geonames.
  destruct (Stage1.is_missing_text (Stage1.City r)); repeat split; try discriminate; reflexivity.
Qed.

Lemma map_lookup_cases (z : option string) :
  (exists c, Stage1.map_lookup (Stage1.build_zip_city_from_internal df) z = CStr c
             /\ Stage1.is_missing_text (CStr c) = false
             /\ Stage1.normalize_city (CStr c) = c)
  \/ Stage1.map_lookup (Stage1.build_zip_city_from_internal df) z = CNaN.
Proof.
  unfold Stage1.map_lookup. destruct z as [z|]; [| now right].
  destruct (Stage1.build_zip_city_from_internal df !! z) as [c|] eqn:Hb; [| now right].
  left. exists c. split; [reflexivity |]. exact (build_value_normalized df z c Hb).
Qed.

Lemma lookup_city_cases (z : option string) :
  (exists c, Stage1.lookup_city geo z = CStr c) \/ Stage1.lookup_city geo z = CNone.
Proof.
  unfold Stage1.lookup_city. destruct z as [z|]; [| now right].
  destruct (geo !! Text.zfill 5 z) as [c|]; [left; now exists c | now right].
Qed.

Lemma fill_one_row (r : Stage1.record) :
  Stage1.city_fill_rule geo df r
    (step_normalize
       ((if decide (geo = ∅) then (fun x => x) else step_geonames) (step_internal r))).
Proof.
  destruct (internal_step_cases r) as (Ho1 & Hkeep1 & Hfill1).
  destruct (geonames_step_cases (step_internal r)) as (Ho2 & Hkeep2 & Hfill2).
  unfold Stage1.city_fill_rule, step_normalize.
  split; [| split].
  - rewrite set_City_other. destruct (decide (geo = ∅)); cbv beta; congruence.
  - intros Hm. cbn [Stage1.set_City Stage1.City].
    rewrite (Hkeep1 Hm) in *.
    destruct (decide (geo = ∅)); cbv beta; [reflexivity |].
    now rewrite (Hkeep2 Hm).
  - intros Hm. specialize (Hfill1 Hm). cbn [Stage1.set_City Stage1.City].
    destruct (map_lookup_cases (Stage1.Zip_Code r)) as [(c & Hc & Hpres & Hnorm) | Hnone].
    + rewrite Hc in *. rewrite Hfill1 in Hkeep2.
      destruct (decide (geo = ∅)); cbv beta.
      * now rewrite Hfill1, Hnorm.
      * now rewrite (Hkeep2 Hpres), Hfill1, Hnorm.
    + rewrite Hnone in *.
      destruct (decide (geo = ∅)); cbv beta.
      * now rewrite Hfill1.
      * rewrite Hfill1 in Hfill2. specialize (Hfill2 eq_refl).
        assert (Hz : Stage1.Zip_Code (step_internal r) = Stage1.Zip_Code r).
        { unfold Stage1.other_columns in Ho1. congruence. }
        rewrite Hz in Hfill2. rewrite Hfill2.
        destruct (lookup_city_cases (Stage1.Zip_Code r)) as [(c & ->) | ->]; reflexivity.
Qed.

End FillOneRow.

(** X4: [fill_missing_cities] returns the rows of its input in the same
    order with every column but City unchanged.  A present City is kept,
    trimmed and in upper case.  A missing City takes the value of the
    internal mapping for the row's ZipCode when there is one, whatever the
    GeoNames mapping holds; otherwise, with an empty GeoNames mapping it
    becomes the text "NAN", and with a non-empty one it takes the GeoNames
    place name of the zero-padded ZipCode, trimmed and in upper case, or the
    text "NONE" when there is none. *)
Theorem fill_missing_cities_rule
    (geonames_zip_city : gmap string string) (df_all : list Stage1.record) :
  Forall2 (Stage1.city_fill_rule geonames_zip_city df_all)
    df_all (Stage1.fill_missing_cities geonames_zip_city df_all).
Proof.
  unfold Stage1.fill_missing_cities.
  pose proof (fill_one_row geonames_zip_city df_all) as HR. cbv zeta in HR.
  revert HR.
  generalize (Stage1.city_fill_rule geonames_zip_city df_all) as R.
  generalize (Stage1.build_zip_city_from_internal df_all) as m.
  intros m R HR.
  destruct (decide (geonames_zip_city = ∅)) as [He | Hne].
  - rewrite map_map. induction df_all as [|r l IH]; cbn [map]; constructor.
    + exact (HR r).
    + exact IH.
  - rewrite !map_map. induction df_all as [|r l IH]; cbn [map]; constructor.
    + exact (HR r).
    + exact IH.
Qed.

(** ** The ZIP column from the raw files to the final dataset *)

Lemma clean_zip_value_zip5 (c : cell) (z : string) :
  Zip.clean_zip_value c = Some z -> Stage1.is_zip5 z = true.
Proof.
  rewrite clean_zip_value_extract. intros H.
  apply str_extract_length in H as [Hlen Hall].
  unfold Stage1.is_zip5. now rewrite Hlen, Hall.
Qed.

Lemma fill_missing_cities_in (geo : gmap string string) (df : list Stage1.record)
    (r' : Stage1.record) :
  In r' (Stage1.fill_missing_cities geo df) ->
  exists r, In r df /\ Stage1.other_columns r' = Stage1.other_columns r.
Proof.
  unfold Stage1.fill_missing_cities.
  pose proof (fill_one_row geo df) as HR. cbv zeta in HR. revert HR.
  generalize (Stage1.build_zip_city_from_internal df) as m. intros m HR.
  destruct (decide (geo = ∅)); rewrite ?map_map, in_map_iff;
    intros (r & <- & Hin); exists r; (split; [exact Hin | apply (HR r)]).
Qed.

Lemma filter_by_date_range_in (lo hi : option string) (df : list Stage1.record)
    (r : Stage1.record) :
  In r (Stage1.filter_by_date_range lo hi df)
  <-> In r df /\ Stage1.in_date_range lo hi r = true.
Proof.
  unfold Stage1.filter_by_date_range.
  destruct lo, hi; rewrite ?filter_In; try reflexivity.
  simpl. tauto.
Qed.

(** X5: whatever the files, the parsers and the GeoNames mapping, every
    Zip_Code of the final dataset is either five digits or the text "nan";
    the run never writes any other ZIP text. *)
Theorem final_zip_is_five_digits_or_nan
    (cfg : Stage1.config) (P : Stage1.parsers) (geonames_zip_city : gmap string string)
    (excel_files : list Stage1.source_file) :
  Forall (fun row => Stage1.out_Zip_Code row = "nan"
                     \/ Stage1.is_zip5 (Stage1.out_Zip_Code row) = true)
         (Stage1.rows_of (fst (Stage1.run cfg P geonames_zip_city excel_files))).
Proof.
  unfold Stage1.run.
  destruct (Stage1.load_and_normalize_all_files _ _ _ _ _) as [[raw | e] sk];
    cbn [fst Stage1.rows_of]; [| constructor].
  apply List.Forall_forall. intros row Hrow.
  unfold Stage1.save_final_dataset in Hrow.
  apply in_map_iff in Hrow as (r & <- & Hr). cbn [Stage1.out_Zip_Code].
  apply filter_by_date_range_in in Hr as [Hr _].
  apply fill_missing_cities_in in Hr as (r1 & Hr1 & Ho).
  assert (Hz : Stage1.Zip_Code r = Stage1.Zip_Code r1)
    by (unfold Stage1.other_columns in Ho; congruence).
  rewrite Hz. apply deduplicate_in in Hr1.
  unfold Stage1.clean_core_columns in Hr1.
  apply in_map_iff in Hr1 as (raw_r & <- & _). cbn [Stage1.clean_row Stage1.Zip_Code].
  destruct (Zip.clean_zip_value (Stage1.raw_Zip_Code raw_r)) as [z|] eqn:Hc.
  - right. cbn. now apply clean_zip_value_zip5 in Hc.
  - now left.
Qed.

(** ** Date-range filter: composition *)

Lemma filter_filter {A} (p q : A -> bool) (l : list A) :
  List.filter p (List.filter q l) = List.filter (fun a => q a && p a) l.
Proof.
  induction l as [|a l IH]; simpl; [reflexivity |].
  destruct (q a); simpl; [destruct (p a) |]; now rewrite IH.
Qed.

Lemma filter_all_true {A} (p : A -> bool) (l : list A) :
  (forall a, In a l -> p a = true) -> List.filter p l = l.
Proof.
  induction l as [|a l IH]; simpl; intros H; [reflexivity |].
  rewrite (H a (or_introl eq_refl)). f_equal. apply IH. intros b Hb. apply H. now right.
Qed.

Lemma filter_by_date_range_filter (lo hi : option string) (df : list Stage1.record) :
  Stage1.filter_by_date_range lo hi df = List.filter (Stage1.in_date_range lo hi) df.
Proof.
  unfold Stage1.filter_by_date_range. destruct lo, hi; try reflexivity.
  symmetry. apply filter_all_true. reflexivity.
Qed.

(** X6: filtering with both bounds is filtering with the start bound and then
    with the end bound, in either order; filtering twice with the same
    bounds changes nothing more; and the rows kept are exactly the rows whose
    YearMo lies between the bounds that are set, in their original order. *)
Theorem filter_by_date_range_composes
    (lo hi : option string) (df_all : list Stage1.record) :
  Stage1.filter_by_date_range lo hi df_all
  = Stage1.filter_by_date_range None hi (Stage1.filter_by_date_range lo None df_all)
  /\ Stage1.filter_by_date_range lo hi df_all
     = Stage1.filter_by_date_range lo None (Stage1.filter_by_date_range None hi df_all)
  /\ Stage1.filter_by_date_range lo hi (Stage1.filter_by_date_range lo hi df_all)
     = Stage1.filter_by_date_range lo hi df_all
  /\ Stage1.filter_by_date_range lo hi df_all
     = List.filter
         (fun r => match lo with Some b => String.leb b (Stage1.YearMo r) | None => true end
                   && match hi with Some b => String.leb (Stage1.YearMo r) b | None => true end)
         df_all.
Proof.
  rewrite !filter_by_date_range_filter, !filter_filter.
  repeat split; apply filter_ext; intros r; unfold Stage1.in_date_range;
    destruct lo, hi; cbn;
    repeat match goal with |- context [String.leb ?a ?b] => destruct (String.leb a b) end;
    reflexivity.
Qed.

(** ** The pledge-amount cleaner *)

Lemma str_app_cons (c : ascii) (s t : string) :
  (String c s ++ t)%string = String c (s ++ t)%string.
Proof. reflexivity. Qed.

Lemma str_app_nil_l (t : string) : (EmptyString ++ t)%string = t.
Proof. reflexivity. Qed.

Lemma keep_numeric_chars_app (s t : string) :
  Stage1.keep_numeric_chars (s ++ t)%string
  = (Stage1.keep_numeric_chars s ++ Stage1.keep_numeric_chars t)%string.
Proof.
  induction s as [|c s IH]; [reflexivity |].
  rewrite str_app_cons. cbn [Stage1.keep_numeric_chars].
  destruct (Text.is_digit c || Ascii.eqb c "." || Ascii.eqb c "-")%bool.
  - now rewrite str_app_cons, IH.
  - exact IH.
Qed.

Lemma keep_numeric_chars_junk (junk : string) :
  Text.all_chars (fun c => negb (Stage1.is_amount_char c)) junk = true ->
  Stage1.keep_numeric_chars junk = EmptyString.
Proof.
  unfold Stage1.is_amount_char.
  induction junk as [|c s IH]; cbn [Text.all_chars Stage1.keep_numeric_chars]; [reflexivity |].
  intros H. apply andb_true_iff in H as [Hc Hs]. apply negb_true_iff in Hc.
  rewrite Hc. now apply IH.
Qed.

Lemma keep_numeric_chars_only (s : string) :
  Text.all_chars Stage1.is_amount_char (Stage1.keep_numeric_chars s) = true.
Proof.
  unfold Stage1.is_amount_char.
  induction s as [|c s IH]; cbn [Stage1.keep_numeric_chars]; [reflexivity |].
  destruct (Text.is_digit c || Ascii.eqb c "." || Ascii.eqb c "-")%bool eqn:Hc.
  - cbn [Text.all_chars]. now rewrite Hc, IH.
  - exact IH.
Qed.

Lemma keep_numeric_chars_fixed (s : string) :
  Text.all_chars Stage1.is_amount_char s = true -> Stage1.keep_numeric_chars s = s.
Proof.
  unfold Stage1.is_amount_char.
  induction s as [|c s IH]; cbn [Text.all_chars Stage1.keep_numeric_chars]; [reflexivity |].
  intros H. apply andb_true_iff in H as [Hc Hs]. rewrite Hc. f_equal. now apply IH.
Qed.

(** X7: characters other than digits, "." and "-" never influence the
    cleaned amount: inserting a run of them anywhere in the text of a value
    gives the same result.  The text handed to [pd.to_numeric] holds only
    digits, "." and "-", and cleaning it again leaves it as it is. *)
Theorem clean_pledge_amount_ignores_other_characters
    (P : Stage1.parsers) (before junk after : string) :
  Text.all_chars (fun c => negb (Stage1.is_amount_char c)) junk = true ->
  Stage1.clean_pledge_amount P (CStr (before ++ junk ++ after)%string)
  = Stage1.clean_pledge_amount P (CStr (before ++ after)%string)
  /\ Text.all_chars Stage1.is_amount_char
       (Stage1.keep_numeric_chars (before ++ junk ++ after)%string) = true
  /\ Stage1.keep_numeric_chars (Stage1.keep_numeric_chars (before ++ junk ++ after)%string)
     = Stage1.keep_numeric_chars (before ++ junk ++ after)%string.
Proof.
  intros Hjunk. split; [| split].
  - unfold Stage1.clean_pledge_amount. cbn [astype_str]. f_equal.
    rewrite !keep_numeric_chars_app, (keep_numeric_chars_junk _ Hjunk). reflexivity.
  - apply keep_numeric_chars_only.
  - apply keep_numeric_chars_fixed, keep_numeric_chars_only.
Qed.

Lemma clean_pledge_amount_ignores_other_characters_witness :
  Text.all_chars (fun c => negb (Stage1.is_amount_char c)) "," = true
  /\ Stage1.clean_pledge_amount Examples.toy_parsers (CStr "$1,234.56 ")
     = Stage1.clean_pledge_amount Examples.toy_parsers (CStr "$1234.56 ")
  /\ Stage1.clean_pledge_amount Examples.toy_parsers (CStr "$1,234.56 ")
     = Some (123456 # 100)%Q.
Proof.
  split; [reflexivity |]. split; [| reflexivity].
  apply (clean_pledge_amount_ignores_other_characters
           Examples.toy_parsers "$1" "," "234.56 ").
  reflexivity.
Defined.

(** ** Zero padding and the county FIPS code *)

Lemma zeros_length (n : nat) : String.length (Text.zeros n) = n.
Proof. induction n; simpl; congruence. Qed.

Lemma zfill_length (width : nat) (s : string) :
  String.length (Text.zfill width s) = Nat.max width (String.length s).
Proof.
  unfold Text.zfill. destruct (Nat.leb_spec width (String.length s)) as [Hle | Hlt].
  - lia.
  - destruct s as [|c s].
    + rewrite zeros_length. simpl. lia.
    + destruct (Ascii.eqb c "+" || Ascii.eqb c "-")%bool.
      * cbn [String.length]. rewrite str_length_app, zeros_length.
        cbn [String.length] in *. lia.
      * rewrite str_length_app, zeros_length. cbn [String.length] in *. lia.
Qed.

Lemma zfill_long (width : nat) (s : string) :
  (width <= String.length s)%nat -> Text.zfill width s = s.
Proof.
  intros H. unfold Text.zfill. now apply Nat.leb_le in H as ->.
Qed.

Lemma substring_length (n m : nat) (s : string) :
  String.length (substring n m s) = Nat.min m (String.length s - n).
Proof.
  revert m s. induction n as [|n IH]; intros m s.
  - revert s. induction m as [|m IHm]; intros [|c s]; cbn; try reflexivity.
    rewrite IHm. rewrite Nat.sub_0_r. reflexivity.
  - destruct s as [|c s]; cbn.
    + destruct m; reflexivity.
    + apply IH.
Qed.

Lemma substring_split (n a b : nat) (s : string) :
  (substring n a s ++ substring (n + a) b s)%string = substring n (a + b) s.
Proof.
  revert a s. induction n as [|n IH]; intros a s.
  - revert s. induction a as [|a IHa]; intros s.
    + destruct s; reflexivity.
    + destruct s as [|c s].
      * destruct b; reflexivity.
      * cbn [Nat.add substring]. rewrite str_app_cons. f_equal. apply IHa.
  - destruct s as [|c s].
    + cbn [Nat.add substring]. destruct a, b; reflexivity.
    + cbn [Nat.add substring]. apply IH.
Qed.

(** X8: the county FIPS code derived from a series identifier always has
    exactly five characters.  For an identifier of at least ten characters
    it is the five characters at offsets 5 to 9; a shorter identifier gives
    the characters it has from offset 5 on, padded on the left to five
    (a leading sign stays in front). *)
Theorem fips_of_series_id_five_characters (series_id : string) :
  String.length (Stage5.fips_of_series_id series_id) = 5%nat
  /\ Stage5.fips_of_series_id series_id = Text.zfill 5 (substring 5 5 series_id)
  /\ ((10 <= String.length series_id)%nat ->
      Stage5.fips_of_series_id series_id = substring 5 5 series_id).
Proof.
  assert (H : Stage5.fips_of_series_id series_id = Text.zfill 5 (substring 5 5 series_id)).
  { unfold Stage5.fips_of_series_id. f_equal. apply (substring_split 5 2 3). }
  rewrite H. split; [| split; [reflexivity |]].
  - rewrite zfill_length, substring_length. lia.
  - intros Hlen. apply zfill_long. rewrite substring_length. lia.
Qed.

(** ** Aggregation by ZIP and year *)

Lemma key_eqb_eq (a b : string * Z) : Stage2.key_eqb a b = true <-> a = b.
Proof.
  unfold Stage2.key_eqb. destruct a as [z y], b as [z' y']. cbn [fst snd].
  rewrite andb_true_iff, String.eqb_eq, Z.eqb_eq. split; [intros [-> ->] | intros [= -> ->]]; auto.
Qed.

Lemma cmp_zip_year_order : Frame.Order Stage2.cmp_zip_year.
Proof.
  unfold Stage2.cmp_zip_year.
  apply (order_then (fun a b : string * Z => String.compare (fst a) (fst b))
                    (fun a b : string * Z => Z.compare (snd a) (snd b))).
  - apply (order_proj fst), string_order.
  - apply (order_proj snd), Z_order.
Qed.

Lemma filter_partition_perm {A} (p : A -> bool) (l : list A) :
  Permutation (List.filter p l ++ List.filter (fun a => negb (p a)) l) l.
Proof.
  induction l as [|a l IH]; simpl; [constructor |].
  destruct (p a); simpl.
  - now constructor.
  - rewrite <- Permutation_middle. now constructor.
Qed.

Section Groups.

Context {A K : Type}.
Variable key : A -> K.
Variable keq : K -> K -> bool.
Hypothesis keq_eq : forall a b, keq a b = true <-> a = b.

(** Grouping by the keys of a duplicate-free list that holds every key of
    the rows gives back the rows, up to their order. *)
Lemma groups_partition (keys : list K) (rows : list A) :
  List.NoDup keys -> (forall r, In r rows -> In (key r) keys) ->
  Permutation (concat (map (fun k => List.filter (fun r => keq (key r) k) rows) keys)) rows.
Proof.
  revert rows. induction keys as [|k keys IH]; intros rows Hnd Hcover.
  - destruct rows as [|r rows]; [constructor |].
    destruct (Hcover r (or_introl eq_refl)).
  - cbn [map concat]. apply List.NoDup_cons_iff in Hnd as [Hk Hnd].
    etransitivity; [| apply (filter_partition_perm (fun r => keq (key r) k) rows)].
    apply Permutation_app_head.
    assert (Hsame : map (fun k' => List.filter (fun r => keq (key r) k') rows) keys
                    = map (fun k' => List.filter (fun r => keq (key r) k')
                                       (List.filter (fun r => negb (keq (key r) k)) rows)) keys).
    { apply map_ext_in. intros k' Hk'. rewrite filter_filter.
      apply filter_ext. intros r.
      destruct (keq (key r) k') eqn:E1; [| now rewrite andb_false_r].
      destruct (keq (key r) k) eqn:E2; [| reflexivity].
      apply keq_eq in E1, E2. exfalso. apply Hk. congruence. }
    rewrite Hsame. apply IH; [exact Hnd |].
    intros r Hr. apply filter_In in Hr as [Hr Hne].
    destruct (Hcover r Hr) as [Heq | Hin]; [| exact Hin].
    rewrite (proj2 (keq_eq (key r) k) (eq_sym Heq)) in Hne. discriminate.
Qed.

End Groups.

Lemma sum_Q_app (l l' : list Q) :
  (Stage2.sum_Q (l ++ l') == Stage2.sum_Q l + Stage2.sum_Q l')%Q.
Proof.
  unfold Stage2.sum_Q. induction l as [|q l IH]; simpl.
  - ring.
  - rewrite IH. ring.
Qed.

Lemma sum_Q_perm (l l' : list Q) :
  Permutation l l' -> (Stage2.sum_Q l == Stage2.sum_Q l')%Q.
Proof.
  unfold Stage2.sum_Q. induction 1; simpl.
  - reflexivity.
  - now rewrite IHPermutation.
  - ring.
  - etransitivity; eassumption.
Qed.

Lemma sum_Q_concat (ls : list (list Q)) :
  (Stage2.sum_Q (concat ls) == Stage2.sum_Q (map Stage2.sum_Q ls))%Q.
Proof.
  induction ls as [|l ls IH]; [reflexivity |].
  cbn [concat map]. rewrite sum_Q_app, IH. unfold Stage2.sum_Q at 3. simpl. reflexivity.
Qed.

Lemma list_sum_perm (l l' : list nat) : Permutation l l' -> list_sum l = list_sum l'.
Proof.
  induction 1; simpl; lia.
Qed.

Lemma omap_concat {A B} (f : A -> option B) (ls : list (list A)) :
  omap f (concat ls) = concat (map (omap f) ls).
Proof.
  induction ls as [|l ls IH]; [reflexivity |].
  cbn [concat map]. now rewrite omap_app, IH.
Qed.

Lemma omap_perm {A B} (f : A -> option B) (l l' : list A) :
  Permutation l l' -> Permutation (omap f l) (omap f l').
Proof. intros H. now apply omap_Permutation. Qed.

Lemma group_keys_nodup (rows : list Stage2.keyed_row) : List.NoDup (Stage2.group_keys rows).
Proof.
  unfold Stage2.group_keys.
  eapply Permutation_NoDup; [apply sort_values_perm |].
  apply (drop_duplicates_nodup Stage2.key_eqb key_eqb_eq).
Qed.

Lemma group_keys_in (rows : list Stage2.keyed_row) (k : string * Z) :
  In k (Stage2.group_keys rows) <-> exists r, In r rows /\ Stage2.key_of r = k.
Proof.
  unfold Stage2.group_keys.
  rewrite in_sort_values, (drop_duplicates_in Stage2.key_eqb key_eqb_eq), in_map_iff.
  split; intros (r & H1 & H2); exists r; tauto.
Qed.

Lemma groups_of_rows (rows : list Stage2.keyed_row) :
  Permutation (concat (map (fun k => Stage2.group_of k rows) (Stage2.group_keys rows))) rows.
Proof.
  apply (groups_partition Stage2.key_of Stage2.key_eqb key_eqb_eq).
  - apply group_keys_nodup.
  - intros r Hr. apply group_keys_in. now exists r.
Qed.

Lemma aggregate_counts (rows : list Stage2.keyed_row) :
  list_sum (map Stage2.record_count (Stage2.aggregate rows))
  = List.length (Stage2.present_amounts rows).
Proof.
  unfold Stage2.aggregate. rewrite map_map. cbn [Stage2.record_count].
  unfold Stage2.present_amounts.
  rewrite <- (Permutation_length (omap_perm Stage2.amount _ _ (groups_of_rows rows))).
  rewrite omap_concat, length_concat_sum, !map_map. reflexivity.
Qed.

Lemma aggregate_totals (rows : list Stage2.keyed_row) :
  (Stage2.sum_Q (map Stage2.total_pledge (Stage2.aggregate rows))
   == Stage2.sum_Q (Stage2.present_amounts rows))%Q.
Proof.
  unfold Stage2.aggregate. rewrite map_map. cbn [Stage2.total_pledge].
  unfold Stage2.present_amounts.
  rewrite <- (sum_Q_perm _ _ (omap_perm Stage2.amount _ _ (groups_of_rows rows))).
  rewrite omap_concat, sum_Q_concat, !map_map. reflexivity.
Qed.

Lemma omap_cons {A B} (f : A -> option B) (x : A) (l : list A) :
  omap f (x :: l) = match f x with Some y => y :: omap f l | None => omap f l end.
Proof. reflexivity. Qed.

Lemma valid_rows_amounts (df : list Stage2.clean_row) :
  Stage2.present_amounts (Stage2.valid_rows df) = Stage2.valid_amounts df.
Proof.
  unfold Stage2.present_amounts, Stage2.valid_rows, Stage2.valid_amounts.
  induction df as [|r df IH]; [reflexivity |].
  rewrite omap_cons. cbn [List.filter].
  destruct (Stage2.keyed r) as [k|] eqn:Hk; unfold Stage2.keyed in Hk.
  - destruct (Stage2.Year r) as [y|]; [| discriminate Hk].
    destruct (Stage2.valid_year r); [| discriminate Hk].
    injection Hk as <-. rewrite !omap_cons. cbn [Stage2.amount].
    destruct (Stage2.Pledge_Amount r); now rewrite IH.
  - destruct (Stage2.valid_year r) eqn:Hv; [| exact IH].
    destruct (Stage2.Year r) as [y|] eqn:Hy; [discriminate Hk |].
    unfold Stage2.valid_year in Hv. rewrite Hy in Hv. discriminate Hv.
Qed.

Lemma valid_rows_in (df : list Stage2.clean_row) (k : Stage2.keyed_row) :
  In k (Stage2.valid_rows df)
  <-> exists r, In r df /\ Stage2.valid_year r = true
                /\ Stage2.Year r = Some (Stage2.key_Year k)
                /\ Stage2.key_Zip k = Stage2.normalize_zip (Stage2.Zip_Code r)
                /\ Stage2.amount k = Stage2.Pledge_Amount r.
Proof.
  unfold Stage2.valid_rows. rewrite <- list_elem_of_In, list_elem_of_omap.
  split.
  - intros (r & Hr & Hk). exists r. rewrite <- list_elem_of_In. split; [exact Hr |].
    unfold Stage2.keyed in Hk. destruct (Stage2.Year r) as [y|]; [| discriminate].
    destruct (Stage2.valid_year r); [| discriminate].
    injection Hk as <-. cbn. auto.
  - intros (r & Hr & Hv & Hy & Hz & Ha). exists r. rewrite list_elem_of_In.
    split; [exact Hr |]. unfold Stage2.keyed. rewrite Hy, Hv.
    destruct k as [kz ky ka]. cbn in *. now subst.
Qed.

(** X9: the aggregate written by stage 2 has one row for each pair of a
    normalised ZIP and a Year between 2023 and 2025 that occurs in the input,
    and no other row, in increasing order of (ZIP, Year).  Nothing is lost or
    counted twice: its record counts add up to the number of input rows in
    those years whose amount is present, and its totals add up to the sum of
    those amounts. *)
Theorem aggregate_conserves_counts_and_totals (df : list Stage2.clean_row) :
  List.NoDup (map (fun a => (Stage2.zy_Zip_Code a, Stage2.zy_Year a))
                  (Stage2.liheap_zip_year df))
  /\ (forall z y,
        (exists a, In a (Stage2.liheap_zip_year df)
                   /\ Stage2.zy_Zip_Code a = z /\ Stage2.zy_Year a = y)
        <-> exists r, In r df /\ Stage2.normalize_zip (Stage2.Zip_Code r) = z
                      /\ Stage2.Year r = Some y /\ (2023 <= y <= 2025)%Z)
  /\ Sorted (Frame.le_rel Stage2.cmp_zy) (Stage2.liheap_zip_year df)
  /\ list_sum (map Stage2.record_count (Stage2.liheap_zip_year df))
     = List.length (Stage2.valid_amounts df)
  /\ (Stage2.sum_Q (map Stage2.total_pledge (Stage2.liheap_zip_year df))
      == Stage2.sum_Q (Stage2.valid_amounts df))%Q.
Proof.
  assert (Hperm : Permutation (Stage2.aggregate (Stage2.valid_rows df))
                              (Stage2.liheap_zip_year df))
    by apply sort_values_perm.
  split; [| split; [| split; [| split]]].
  - eapply Permutation_NoDup; [apply Permutation_map; exact Hperm |].
    unfold Stage2.aggregate. rewrite map_map. cbn [Stage2.zy_Zip_Code Stage2.zy_Year].
    rewrite (map_ext _ (fun k => k)) by (now intros []). rewrite map_id.
    apply group_keys_nodup.
  - intros z y. split.
    + intros (a & Ha & <- & <-).
      apply (Permutation_in _ (Permutation_sym Hperm)) in Ha.
      unfold Stage2.aggregate in Ha. apply in_map_iff in Ha as (k & <- & Hk).
      apply group_keys_in in Hk as (kr & Hkr & <-).
      apply valid_rows_in in Hkr as (r & Hr & Hv & Hy & Hz & _).
      exists r. cbn. split; [exact Hr |]. split; [now rewrite Hz |]. split; [exact Hy |].
      unfold Stage2.valid_year in Hv. rewrite Hy in Hv.
      unfold Stage2.VALID_YEAR_MIN, Stage2.VALID_YEAR_MAX in Hv. lia.
    + intros (r & Hr & <- & Hy & Hrange).
      assert (Hk : In {| Stage2.key_Zip := Stage2.normalize_zip (Stage2.Zip_Code r);
                         Stage2.key_Year := y;
                         Stage2.amount := Stage2.Pledge_Amount r |}
                      (Stage2.valid_rows df)).
      { apply valid_rows_in. exists r. cbn. repeat split; try assumption.
        unfold Stage2.valid_year. rewrite Hy.
        unfold Stage2.VALID_YEAR_MIN, Stage2.VALID_YEAR_MAX. lia. }
      eexists. split.
      * apply (Permutation_in _ Hperm). unfold Stage2.aggregate.
        apply in_map. apply group_keys_in. eexists. split; [exact Hk | reflexivity].
      * split; reflexivity.
  - apply sort_values_sorted.
    unfold Stage2.cmp_zy.
    apply (order_proj (fun a => (Stage2.zy_Zip_Code a, Stage2.zy_Year a))),
      cmp_zip_year_order.
  - rewrite <- (list_sum_perm _ _ (Permutation_map Stage2.record_count Hperm)).
    now rewrite aggregate_counts, valid_rows_amounts.
  - rewrite <- (sum_Q_perm _ _ (Permutation_map Stage2.total_pledge Hperm)).
    now rewrite aggregate_totals, valid_rows_amounts.
Qed.

(** ** Unemployment workbook: table header, counters, the two sheets *)

Lemma find_header_from_spec (i : nat) (rows : list (list cell)) :
  (exists pre row post,
      rows = pre ++ row :: post
      /\ Stage4.is_table_header row = true
      /\ (forall r, In r pre -> Stage4.is_table_header r = false)
      /\ Stage4.find_header_from i rows = Some (i + List.length pre)%nat)
  \/ ((forall r, In r rows -> Stage4.is_table_header r = false)
      /\ Stage4.find_header_from i rows = None).
Proof.
  revert i. induction rows as [|r rows IH]; intros i.
  - right. split; [intros r [] | reflexivity].
  - assert (Hstep : Stage4.find_header_from i (r :: rows)
                    = if Stage4.is_table_header r then Some i
                      else Stage4.find_header_from (S i) rows).
    { cbn [Stage4.find_header_from]. unfold Stage4.is_table_header.
      destruct r as [|a [|b rest]]; reflexivity. }
    rewrite Hstep. destruct (Stage4.is_table_header r) eqn:Hr.
    + left. exists [], r, rows. repeat split; [exact Hr | intros r' [] |].
      simpl. f_equal. lia.
    + destruct (IH (S i)) as [(pre & r0 & post & -> & Hr0 & Hpre & Hs) | [Hall Hs]].
      * left. exists (r :: pre), r0, post. repeat split; [exact Hr0 | |].
        -- intros r' [<- | Hin]; [exact Hr | now apply Hpre].
        -- rewrite Hs. f_equal. simpl. lia.
      * right. split; [| exact Hs]. intros r' [<- | Hin]; [exact Hr | now apply Hall].
Qed.

(** X10: [_find_table_header_row] returns the index of the first row of the
    sheet whose first two cells, cast to text and trimmed, are "Year" and
    "Period", and nothing when there is no such row; a sheet whose first row
    has fewer than two cells gives nothing. *)
Theorem find_table_header_row_first_match (raw : list (list cell)) :
  (forall i, Stage4._find_table_header_row raw = Some i ->
             exists row, nth_error raw i = Some row
                         /\ Stage4.is_table_header row = true
                         /\ forall k r, (k < i)%nat -> nth_error raw k = Some r ->
                                        Stage4.is_table_header r = false)
  /\ (Stage4._find_table_header_row raw = None ->
      (forall r, In r raw -> Stage4.is_table_header r = false)
      \/ (forall row, nth_error raw 0 = Some row -> (List.length row < 2)%nat))
  /\ (forall row, nth_error raw 0 = Some row -> (List.length row < 2)%nat ->
                  Stage4._find_table_header_row raw = None)
  /\ Stage4._find_table_header_row [] = None.
Proof.
  split; [| split; [| split]].
  - intros i Hi.
    assert (Hf : Stage4.find_header_from 0 raw = Some i).
    { unfold Stage4._find_table_header_row in Hi.
      destruct raw as [|[|a [|b rest]] rows]; try discriminate Hi; exact Hi. }
    destruct (find_header_from_spec 0 raw)
      as [(pre & row & post & -> & Hrow & Hpre & Hs) | [_ Hs]]; [| congruence].
    rewrite Hs in Hf. injection Hf as <-. simpl. exists row. split; [| split].
    + rewrite nth_error_app2 by lia. now rewrite Nat.sub_diag.
    + exact Hrow.
    + intros k r Hk Hr. apply Hpre. rewrite nth_error_app1 in Hr by exact Hk.
      eapply nth_error_In; exact Hr.
  - intros Hn. unfold Stage4._find_table_header_row in Hn.
    destruct raw as [|[|a [|b rest]] rows].
    + left. intros r [].
    + right. intros row [= <-]. simpl. lia.
    + right. intros row [= <-]. simpl. lia.
    + left. destruct (find_header_from_spec 0 ((a :: b :: rest) :: rows))
        as [(pre & row & post & _ & _ & _ & Hs) | [Hall _]]; [congruence | exact Hall].
  - intros row Hrow Hlen. destruct raw as [|r rows]; [discriminate Hrow |].
    injection Hrow as ->. unfold Stage4._find_table_header_row.
    destruct row as [|a [|b rest]]; try reflexivity. simpl in Hlen. lia.
  - reflexivity.
Qed.








(** ** A clean ZIP stays the same in every stage *)

Lemma digit_not_space (c : ascii) : Text.is_digit c = true -> Text.is_space c = false.
Proof. destruct c as [[] [] [] [] [] [] [] []]; intros H; try discriminate H; reflexivity. Qed.

Lemma digit_not_dot (c : ascii) : Text.is_digit c = true -> Ascii.eqb c "." = false.
Proof. destruct c as [[] [] [] [] [] [] [] []]; intros H; try discriminate H; reflexivity. Qed.

Lemma lstrip_digits (s : string) :
  Text.all_chars Text.is_digit s = true -> Text.lstrip s = s.
Proof.
  destruct s as [|c s]; [reflexivity |]. cbn [Text.all_chars Text.lstrip].
  intros H. apply andb_true_iff in H as [Hc _]. now rewrite (digit_not_space _ Hc).
Qed.

Lemma rstrip_digits (s : string) :
  Text.all_chars Text.is_digit s = true -> Text.rstrip s = s.
Proof.
  induction s as [|c s IH]; [reflexivity |]. cbn [Text.all_chars Text.rstrip].
  intros H. apply andb_true_iff in H as [Hc Hs]. rewrite (IH Hs).
  destruct s; [now rewrite (digit_not_space _ Hc) | reflexivity].
Qed.

Lemma strip_digits (s : string) :
  Text.all_chars Text.is_digit s = true -> Text.strip s = s.
Proof.
  intros H. unfold Text.strip. rewrite (lstrip_digits _ H). now apply rstrip_digits.
Qed.

Lemma replace_trailing_dot0_digits (s : string) :
  Text.all_chars Text.is_digit s = true -> Zip.replace_trailing_dot0 s = s.
Proof.
  induction s as [|c s IH]; [reflexivity |]. cbn [Text.all_chars Zip.replace_trailing_dot0].
  intros H. apply andb_true_iff in H as [Hc Hs].
  rewrite (digit_not_dot _ Hc). cbn [andb]. now rewrite (IH Hs).
Qed.

Lemma is_zip5_parts (z : string) :
  Stage1.is_zip5 z = true ->
  String.length z = 5%nat /\ Text.all_chars Text.is_digit z = true.
Proof.
  unfold Stage1.is_zip5. intros H. apply andb_true_iff in H as [Hl Hd].
  now apply Nat.eqb_eq in Hl.
Qed.

(** X13: a text of five digits is a fixed point of every ZIP treatment of the
    pipeline: the stage 1 cleaner returns it, also when other characters
    follow it (a ZIP+4 suffix, for instance), and the key normalisations of
    stages 2, 3 and 6 and the zero padding of stage 5 leave it unchanged, so
    the keys of the stages agree. *)
Theorem five_digit_zip_is_stable (z rest : string) :
  Stage1.is_zip5 z = true ->
  Zip.clean_zip_value (CStr z) = Some z
  /\ Zip.clean_zip_value (CStr (z ++ rest)%string) = Some z
  /\ Stage2.normalize_zip (CStr z) = z
  /\ Stage3.standardize_zip (CStr z) = z
  /\ Text.zfill 5 (astype_str (CStr z)) = z
  /\ Stage6.standardize_zip (CStr z) = z.
Proof.
  intros Hz. destruct (is_zip5_parts z Hz) as [Hlen Hdig].
  assert (Hrest : Zip.clean_zip_value (CStr (z ++ rest)%string) = Some z).
  { rewrite clean_zip_value_extract, str_extract_strip. cbn [astype_str].
    assert (Hp : Zip.digit_prefix 5 (z ++ rest)%string = Some z).
    { apply digit_prefix_spec. split; [now exists rest | now split]. }
    destruct (z ++ rest)%string as [|c s] eqn:E.
    - destruct z; discriminate.
    - rewrite str_extract_step, Hp. reflexivity. }
  split; [| split; [| split; [| split; [| split]]]].
  - clear Hrest. rewrite clean_zip_value_extract, str_extract_strip. cbn [astype_str].
    assert (Hp : Zip.digit_prefix 5 z = Some z).
    { apply digit_prefix_spec. split; [exists EmptyString | now split].
      clear. induction z as [|c z IH]; [reflexivity |]. rewrite str_app_cons. now f_equal. }
    destruct z as [|c s]; [discriminate |]. rewrite str_extract_step, Hp. reflexivity.
  - exact Hrest.
  - unfold Stage2.normalize_zip. cbn [astype_str].
    rewrite (replace_trailing_dot0_digits _ Hdig). apply zfill_five, Hlen.
  - unfold Stage3.standardize_zip. cbn [astype_str].
    rewrite (strip_digits _ Hdig). apply zfill_five, Hlen.
  - cbn [astype_str]. apply zfill_five, Hlen.
  - unfold Stage6.standardize_zip. cbn [astype_str].
    rewrite (strip_digits _ Hdig). apply zfill_five, Hlen.
Qed.

Lemma five_digit_zip_is_stable_witness :
  Stage1.is_zip5 "92101" = true
  /\ Zip.clean_zip_value (CStr "92101-1234") = Some "92101"
  /\ Stage3.standardize_zip (CStr "92101") = "92101".
Proof.
  pose proof (five_digit_zip_is_stable "92101" "-1234" eq_refl)
    as (_ & H2 & _ & H3 & _).
  split; [reflexivity |]. split; [exact H2 | exact H3].
Defined.

(** ** Joins against a table with one row per key *)

Section UniqueKeys.

Context {L R K : Type}.
Variable key_l : L -> K.
Variable key_r : R -> K.
Variable eqb_k : K -> K -> bool.
Hypothesis eqb_k_eq : forall a b, eqb_k a b = true <-> a = b.

Lemma matches_unique (right : list R) (l : L) :
  List.NoDup (map key_r right) ->
  (List.length (Frame.matches (fun l r => eqb_k (key_l l) (key_r r)) l right) <= 1)%nat.
Proof.
  unfold Frame.matches.
  induction right as [|r right IH]; cbn [map List.filter]; [simpl; lia |].
  intros Hnd. inversion Hnd as [|? ? Hnotin Hnd']; subst.
  destruct (eqb_k (key_l l) (key_r r)) eqn:Hk.
  - apply eqb_k_eq in Hk.
    assert (Hnone : List.filter (fun r0 => eqb_k (key_l l) (key_r r0)) right = []).
    { apply filter_nil_iff. intros r' Hin.
      destruct (eqb_k (key_l l) (key_r r')) eqn:Hk'; [| reflexivity].
      apply eqb_k_eq in Hk'. exfalso. apply Hnotin. rewrite <- Hk, Hk'. now apply in_map. }
    rewrite Hnone. simpl. lia.
  - now apply IH.
Qed.

Lemma merge_row_find (same_key : L -> R -> bool) (right : list R) (l : L) :
  (List.length (Frame.matches same_key l right) <= 1)%nat ->
  Frame.merge_row same_key right l = [(l, List.find (same_key l) right)].
Proof.
  unfold Frame.merge_row, Frame.matches.
  assert (Hhead : forall rs, List.find (same_key l) rs
                             = List.hd_error (List.filter (same_key l) rs)).
  { induction rs as [|r rs IH]; [reflexivity |]. cbn [List.find List.filter].
    destruct (same_key l r); [reflexivity | exact IH]. }
  rewrite Hhead.
  destruct (List.filter (same_key l) right) as [|r [|r' ms]]; cbn; intros Hlen.
  - reflexivity.
  - reflexivity.
  - lia.
Qed.

Lemma merge_left_find (same_key : L -> R -> bool) (left : list L) (right : list R) :
  (forall l, In l left -> (List.length (Frame.matches same_key l right) <= 1)%nat) ->
  Frame.merge_left same_key left right
  = map (fun l => (l, List.find (same_key l) right)) left.
Proof.
  unfold Frame.merge_left.
  induction left as [|l left IH]; intros Hall; [reflexivity |].
  cbn [flat_map map]. rewrite merge_row_find by (apply Hall; now left).
  rewrite IH by (intros l' Hin; apply Hall; now right). reflexivity.
Qed.

End UniqueKeys.

(** X14: when the income table and the population table each have one row
    per standardised ZIP, the two joins of stage 3 in sequence are a lookup:
    the output has the LIHEAP rows in their order, one output row each, with
    the first (only) income row and population row of its ZIP beside it, or
    missing fields where the ZIP is absent from a table. *)
Theorem stage3_joins_are_lookups
    (df_liheap : list Stage3.liheap_row) (df_income : list Stage3.income_row)
    (df_population : list Stage3.population_row) :
  List.NoDup (map (fun r => Stage3.standardize_zip (Stage3.inc_Zip_Code r)) df_income) ->
  List.NoDup (map (fun r => Stage3.standardize_zip (Stage3.pop_Zip_Code r)) df_population) ->
  Stage3.df_combined df_liheap df_income df_population
  = map (fun l =>
           ((l, List.find (fun r => String.eqb (Stage3.standardize_zip (Stage3.Zip_Code l))
                                      (Stage3.standardize_zip (Stage3.inc_Zip_Code r)))
                  df_income),
            List.find (fun r => String.eqb (Stage3.standardize_zip (Stage3.Zip_Code l))
                                  (Stage3.standardize_zip (Stage3.pop_Zip_Code r)))
              df_population))
        df_liheap
  /\ List.length (Stage3.df_combined df_liheap df_income df_population)
     = List.length df_liheap
  /\ map (fun o => fst (fst o)) (Stage3.df_combined df_liheap df_income df_population)
     = df_liheap.
Proof.
  intros Hinc Hpop.
  assert (Heq : Stage3.df_combined df_liheap df_income df_population
                = map (fun l =>
                    ((l, List.find (fun r => String.eqb (Stage3.standardize_zip (Stage3.Zip_Code l))
                                      (Stage3.standardize_zip (Stage3.inc_Zip_Code r)))
                          df_income),
                     List.find (fun r => String.eqb (Stage3.standardize_zip (Stage3.Zip_Code l))
                                  (Stage3.standardize_zip (Stage3.pop_Zip_Code r)))
                       df_population))
                  df_liheap).
  { unfold Stage3.df_combined, Stage3.join_population, Stage3.join_income.
    rewrite (merge_left_find _ df_liheap df_income).
    2:{ intros l _.
        apply (matches_unique (fun l => Stage3.standardize_zip (Stage3.Zip_Code l))
                 (fun r => Stage3.standardize_zip (Stage3.inc_Zip_Code r))
                 String.eqb String.eqb_eq df_income l Hinc). }
    rewrite merge_left_find.
    2:{ intros l _.
        apply (matches_unique (fun l : Stage3.liheap_row * option Stage3.income_row =>
                                 Stage3.standardize_zip (Stage3.Zip_Code (fst l)))
                 (fun r => Stage3.standardize_zip (Stage3.pop_Zip_Code r))
                 String.eqb String.eqb_eq df_population l Hpop). }
    rewrite map_map. reflexivity. }
  split; [exact Heq |]. rewrite Heq. split.
  - apply length_map.
  - rewrite map_map. cbn [fst]. apply map_id.
Qed.

Lemma stage3_joins_are_lookups_witness :
  List.length (Stage3.df_combined Examples.acs_liheap Examples.acs_income
                 Examples.acs_population)
  = 2%nat.
Proof.
  refine (proj1 (proj2 (stage3_joins_are_lookups Examples.acs_liheap Examples.acs_income
                          Examples.acs_population _ _))).
  - vm_compute. repeat constructor; cbn; intuition discriminate.
  - vm_compute. repeat constructor; cbn; intuition discriminate.
Defined.

(** ** The final join and missing years *)

(** X15: in the final join of stage 6 an unemployment row is put beside a
    row of the LIHEAP and ACS table only when both have the same standardised
    ZIP and the same year, and that year is present: unemployment rows
    without a year are dropped before the join, so a left row whose year is
    missing gets exactly one output row, with the unemployment fields
    missing. *)
Theorem final_join_needs_a_year
    (df_liheap_acs : list Stage6.liheap_acs_row) (df_unemp : list Stage6.unemp_row) :
  (forall l r, In (l, Some r) (Stage6.df_combined df_liheap_acs df_unemp)
     <-> In l df_liheap_acs /\ In r df_unemp
         /\ Stage6.standardize_zip (Stage6.Zip_Code l)
            = Stage6.standardize_zip (Stage6.u_Zip_Code r)
         /\ exists y, Stage6.Year l = Some y /\ Stage6.u_Year r = Some y)
  /\ (forall l, Stage6.Year l = None ->
        Frame.merge_row Stage6.same_zip_year (Stage6.df_unemp_clean df_unemp) l
        = [(l, None)])
  /\ (forall l, In l df_liheap_acs -> Stage6.Year l = None ->
        In (l, None) (Stage6.df_combined df_liheap_acs df_unemp)).
Proof.
  assert (Hkey : forall l r, In r (Stage6.df_unemp_clean df_unemp)
                             /\ Stage6.same_zip_year l r = true
            <-> In r df_unemp
                /\ Stage6.standardize_zip (Stage6.Zip_Code l)
                   = Stage6.standardize_zip (Stage6.u_Zip_Code r)
                /\ exists y, Stage6.Year l = Some y /\ Stage6.u_Year r = Some y).
  { intros l r. unfold Stage6.df_unemp_clean, Stage6.same_zip_year.
    rewrite filter_In, andb_true_iff, String.eqb_eq, bool_decide_eq_true.
    split.
    - intros [[Hin Hy] [Hz Hyr]]. split; [exact Hin |]. split; [exact Hz |].
      destruct (Stage6.u_Year r) as [y|]; [| discriminate]. now exists y.
    - intros (Hin & Hz & y & Hl & Hr). rewrite Hl, Hr. tauto. }
  assert (Hnone : forall l, Stage6.Year l = None ->
            forall r, In r (Stage6.df_unemp_clean df_unemp) ->
                      Stage6.same_zip_year l r = false).
  { intros l Hl r Hin. destruct (Stage6.same_zip_year l r) eqn:Hk; [| reflexivity].
    destruct (proj1 (Hkey l r) (conj Hin Hk)) as (_ & _ & y & Hy & _). congruence. }
  destruct (merge_left_law Stage6.same_zip_year (Stage6.df_unemp_clean df_unemp)
              df_liheap_acs) as (_ & _ & _ & Hsome & Hno & _).
  fold (Stage6.df_combined df_liheap_acs df_unemp) in Hsome, Hno.
  split; [| split].
  - intros l r. rewrite Hsome, <- Hkey. tauto.
  - intros l Hl. unfold Frame.merge_row.
    replace (Frame.matches Stage6.same_zip_year l (Stage6.df_unemp_clean df_unemp))
      with (@nil Stage6.unemp_row); [reflexivity |].
    symmetry. apply filter_nil_iff. now apply Hnone.
  - intros l Hin Hl. apply Hno. split; [exact Hin |]. now apply Hnone.
Qed.

(** ** One row per ZIP and year *)

Lemma nodup_map_filter {A B} (f : A -> B) (p : A -> bool) (l : list A) :
  List.NoDup (map f l) -> List.NoDup (map f (List.filter p l)).
Proof.
  induction l as [|x l IH]; cbn [map List.filter]; intros H; [constructor |].
  inversion H as [|? ? Hnotin Hnd]; subst.
  destruct (p x); cbn [map]; [| now apply IH].
  constructor; [| now apply IH].
  intros Hin. apply Hnotin. apply in_map_iff in Hin as (y & Hy & Hin).
  apply filter_In in Hin as [Hin _]. apply in_map_iff. now exists y.
Qed.

Lemma nodup_map_of_count {A} (f : A -> string) (l : list A) :
  (forall z, (count_true (fun r => String.eqb (f r) z) l <= 1)%nat) ->
  List.NoDup (map f l).
Proof.
  unfold count_true.
  induction l as [|x l IH]; cbn [map]; intros H; constructor.
  - intros Hin. apply in_map_iff in Hin as (y & Hy & Hin).
    specialize (H (f x)). cbn [List.filter] in H. rewrite String.eqb_refl in H.
    cbn [List.length] in H.
    assert (Hy' : In y (List.filter (fun r => String.eqb (f r) (f x)) l)).
    { apply filter_In. split; [exact Hin | now apply String.eqb_eq]. }
    destruct (List.filter (fun r => String.eqb (f r) (f x)) l); [destruct Hy' |].
    cbn [List.length] in H. lia.
  - apply IH. intros z. specialize (H z). cbn [List.filter] in H.
    destruct (String.eqb (f x) z); cbn [List.length] in H; lia.
Qed.

Lemma df_zip_primary_nodup (xw_ca : list Stage5.xw_ca_row) :
  List.NoDup (map Stage5.Zip_Code (Stage5.df_zip_primary xw_ca)).
Proof.
  apply nodup_map_of_count. intros z.
  change (fun r => String.eqb (Stage5.Zip_Code r) z) with (Stage5.has_zip z).
  unfold Stage5.df_zip_primary, Frame.drop_duplicates. rewrite count_drop_dups.
  cbn [existsb]. destruct (existsb (Stage5.has_zip z) _); lia.
Qed.

Lemma merge_row_keys_nodup (l : Stage5.xw_ca_row) (bls : list Stage5.bls_row) :
  List.NoDup (map Stage5.county_year_key bls) ->
  List.NoDup (map Stage5.zip_year_key
                (Frame.merge_row (fun l r => String.eqb (Stage5.County_FIPS l)
                                               (Stage5.bls_County_FIPS r)) bls l)).
Proof.
  intros Hnd. unfold Frame.merge_row, Frame.matches.
  pose proof (nodup_map_filter Stage5.county_year_key
                (fun r => String.eqb (Stage5.County_FIPS l) (Stage5.bls_County_FIPS r))
                bls Hnd) as Hf.
  assert (Hall : forall r, In r (List.filter (fun r => String.eqb (Stage5.County_FIPS l)
                                                  (Stage5.bls_County_FIPS r)) bls) ->
                           Stage5.bls_County_FIPS r = Stage5.County_FIPS l).
  { intros r Hin. apply filter_In in Hin as [_ Hk]. symmetry. now apply String.eqb_eq. }
  destruct (List.filter _ bls) as [|r0 ms] eqn:E.
  - cbn. constructor; [intros [] | constructor].
  - rewrite <- E in *. clear E r0 ms.
    induction (List.filter _ bls) as [|r ms IH]; cbn [map]; [constructor |].
    cbn [map] in Hf. inversion Hf as [|? ? Hnotin Hnd']; subst.
    constructor.
    + intros Hin. apply Hnotin.
      apply in_map_iff in Hin as (o & Ho & Hin).
      apply in_map_iff in Hin as (r' & <- & Hin).
      apply in_map_iff. exists r'. split; [| exact Hin].
      unfold Stage5.zip_year_key in Ho. cbn [fst snd] in Ho.
      unfold Stage5.county_year_key.
      rewrite (Hall r' (or_intror Hin)), (Hall r (or_introl eq_refl)).
      congruence.
    + apply IH; [exact Hnd' |]. intros r' Hin. apply Hall. now right.
Qed.

Lemma merge_row_key_zip (l : Stage5.xw_ca_row) (bls : list Stage5.bls_row)
    (o : Stage5.xw_ca_row * option Stage5.bls_row) :
  In o (Frame.merge_row (fun l r => String.eqb (Stage5.County_FIPS l)
                                      (Stage5.bls_County_FIPS r)) bls l) ->
  fst o = l.
Proof.
  unfold Frame.merge_row. destruct (Frame.matches _ l bls) as [|r ms].
  - intros [<- | []]. reflexivity.
  - intros Hin. apply in_map_iff in Hin as (r' & <- & _). reflexivity.
Qed.

(** X16: when the BLS table has at most one row per county and year, the
    table written by stage 5 has at most one row per ZIP and year: keeping
    one county per ZIP before the join is what makes (Zip_Code, Year) a key
    of the output, whatever the crosswalk holds. *)
Theorem zip_year_is_a_key_of_stage5
    (df_xw : list Stage5.xw_row) (df_bls_clean : list Stage5.bls_row) :
  List.NoDup (map Stage5.county_year_key df_bls_clean) ->
  List.NoDup (map Stage5.zip_year_key
                (Stage5.df_zip_unemp (Stage5.df_zip_primary (Stage5.df_xw_ca df_xw))
                   df_bls_clean)).
Proof.
  intros Hbls. unfold Stage5.df_zip_unemp, Frame.merge_left.
  pose proof (df_zip_primary_nodup (Stage5.df_xw_ca df_xw)) as Hzip.
  induction (Stage5.df_zip_primary (Stage5.df_xw_ca df_xw)) as [|l left IH];
    cbn [flat_map map]; [constructor |].
  cbn [map] in Hzip. inversion Hzip as [|? ? Hnotin Hnd]; subst.
  rewrite map_app. apply List.NoDup_app.
  - now apply merge_row_keys_nodup.
  - now apply IH.
  - intros k Hk1 Hk2. apply Hnotin.
    apply in_map_iff in Hk1 as (o1 & <- & Ho1). apply merge_row_key_zip in Ho1.
    apply in_map_iff in Hk2 as (o2 & Heq & Ho2).
    apply in_flat_map in Ho2 as (l2 & Hl2 & Ho2). apply merge_row_key_zip in Ho2.
    apply in_map_iff. exists l2. split; [| exact Hl2].
    unfold Stage5.zip_year_key in Heq. subst. now injection Heq.
Qed.

Lemma zip_year_is_a_key_of_stage5_witness :
  List.NoDup (map Stage5.zip_year_key
                (Stage5.df_zip_unemp
                   (Stage5.df_zip_primary (Stage5.df_xw_ca Examples.crosswalk))
                   Examples.two_years)).
Proof.
  apply zip_year_is_a_key_of_stage5.
  vm_compute. repeat constructor; cbn; intuition discriminate.
Defined.

(** ** Months as text: the order of YearMo *)

Lemma digit_char_compare (i j : Z) :
  (0 <= i <= 9)%Z -> (0 <= j <= 9)%Z ->
  Ascii.compare (Stage1.digit_char i) (Stage1.digit_char j) = Z.compare i j.
Proof.
  intros Hi Hj.
  assert (Ei : (i = 0 \/ i = 1 \/ i = 2 \/ i = 3 \/ i = 4 \/ i = 5 \/ i = 6 \/ i = 7
               \/ i = 8 \/ i = 9)%Z) by lia.
  assert (Ej : (j = 0 \/ j = 1 \/ j = 2 \/ j = 3 \/ j = 4 \/ j = 5 \/ j = 6 \/ j = 7
               \/ j = 8 \/ j = 9)%Z) by lia.
  clear Hi Hj.
  repeat (destruct Ei as [-> | Ei]); try subst i;
    repeat (destruct Ej as [-> | Ej]); try subst j; reflexivity.
Qed.

Lemma digit_char_is_digit (i : Z) :
  (0 <= i <= 9)%Z -> Text.is_digit (Stage1.digit_char i) = true.
Proof.
  intros Hi.
  assert (Ei : (i = 0 \/ i = 1 \/ i = 2 \/ i = 3 \/ i = 4 \/ i = 5 \/ i = 6 \/ i = 7
               \/ i = 8 \/ i = 9)%Z) by lia.
  repeat (destruct Ei as [-> | Ei]); try subst i; reflexivity.
Qed.

Lemma pad4_digits (y : Z) :
  (1677 <= y <= 2262)%Z ->
  pad4 y = String (Stage1.digit_char (y / 1000)) (String (Stage1.digit_char (y / 100 mod 10))
             (String (Stage1.digit_char (y / 10 mod 10))
                (String (Stage1.digit_char (y mod 10)) EmptyString))).
Proof.
  intros Hy.
  assert (Hall : forallb (fun k =>
            String.eqb (pad4 (1677 + Z.of_nat k))
              (String (Stage1.digit_char ((1677 + Z.of_nat k) / 1000))
                 (String (Stage1.digit_char ((1677 + Z.of_nat k) / 100 mod 10))
                    (String (Stage1.digit_char ((1677 + Z.of_nat k) / 10 mod 10))
                       (String (Stage1.digit_char ((1677 + Z.of_nat k) mod 10))
                          EmptyString)))))
            (seq 0 586) = true) by (vm_compute; reflexivity).
  rewrite forallb_forall in Hall.
  specialize (Hall (Z.to_nat (y - 1677))).
  replace (1677 + Z.of_nat (Z.to_nat (y - 1677)))%Z with y in Hall by lia.
  apply String.eqb_eq, Hall, in_seq. lia.
Qed.

Lemma pad2_digits (m : Z) :
  (1 <= m <= 12)%Z ->
  pad2 m = String (Stage1.digit_char (m / 10)) (String (Stage1.digit_char (m mod 10)) EmptyString).
Proof.
  intros Hm.
  assert (Em : (m = 1 \/ m = 2 \/ m = 3 \/ m = 4 \/ m = 5 \/ m = 6 \/ m = 7 \/ m = 8
               \/ m = 9 \/ m = 10 \/ m = 11 \/ m = 12)%Z) by lia.
  repeat (destruct Em as [-> | Em]); try subst m; reflexivity.
Qed.

Lemma year_month_is_text (d : date) :
  Stage1.timestamp_date d ->
  Stage1.year_month (Some d) = Stage1.year_month_text (d_year d) (d_month d).
Proof.
  intros [Hy Hm]. unfold Stage1.year_month, Stage1.year_month_text.
  rewrite (pad4_digits _ Hy), (pad2_digits _ Hm). reflexivity.
Qed.

Lemma year_month_text_compare (y1 m1 y2 m2 : Z) :
  (1000 <= y1 <= 9999)%Z -> (1 <= m1 <= 12)%Z ->
  (1000 <= y2 <= 9999)%Z -> (1 <= m2 <= 12)%Z ->
  String.compare (Stage1.year_month_text y1 m1) (Stage1.year_month_text y2 m2)
  = Z.compare (12 * y1 + m1) (12 * y2 + m2).
Proof.
  intros Hy1 Hm1 Hy2 Hm2. unfold Stage1.year_month_text. cbn [String.compare].
  rewrite !digit_char_compare by (Z.div_mod_to_equations; lia).
  change (Ascii.compare "-" "-") with Eq. cbv iota.
  symmetry.
  destruct (Z.compare_spec (y1 / 1000) (y2 / 1000));
    [| apply Z.compare_lt_iff; Z.div_mod_to_equations; lia
     | apply Z.compare_gt_iff; Z.div_mod_to_equations; lia].
  destruct (Z.compare_spec (y1 / 100 mod 10) (y2 / 100 mod 10));
    [| apply Z.compare_lt_iff; Z.div_mod_to_equations; lia
     | apply Z.compare_gt_iff; Z.div_mod_to_equations; lia].
  destruct (Z.compare_spec (y1 / 10 mod 10) (y2 / 10 mod 10));
    [| apply Z.compare_lt_iff; Z.div_mod_to_equations; lia
     | apply Z.compare_gt_iff; Z.div_mod_to_equations; lia].
  destruct (Z.compare_spec (y1 mod 10) (y2 mod 10));
    [| apply Z.compare_lt_iff; Z.div_mod_to_equations; lia
     | apply Z.compare_gt_iff; Z.div_mod_to_equations; lia].
  assert (y1 = y2) by (Z.div_mod_to_equations; lia). subst y2.
  destruct (Z.compare_spec (m1 / 10) (m2 / 10));
    [| apply Z.compare_lt_iff; Z.div_mod_to_equations; lia
     | apply Z.compare_gt_iff; Z.div_mod_to_equations; lia].
  destruct (Z.compare_spec (m1 mod 10) (m2 mod 10));
    [| apply Z.compare_lt_iff; Z.div_mod_to_equations; lia
     | apply Z.compare_gt_iff; Z.div_mod_to_equations; lia].
  apply Z.compare_eq_iff. Z.div_mod_to_equations. lia.
Qed.

Lemma year_month_text_format (y m : Z) :
  (1000 <= y <= 9999)%Z -> (1 <= m <= 12)%Z ->
  Stage1.is_year_month (Stage1.year_month_text y m) = true.
Proof.
  intros Hy Hm. unfold Stage1.year_month_text, Stage1.is_year_month.
  rewrite !digit_char_is_digit by (Z.div_mod_to_equations; lia). reflexivity.
Qed.

(** X17: for dates that a timestamp can hold, YearMo is a text of the form
    YYYY-MM, and comparing two such texts as strings is comparing the months
    in time.  So the date-range filter, which compares texts, keeps a row
    with a parsed date exactly when its month lies between the month of the
    start bound and that of the end bound. *)
Theorem year_month_text_order_is_time_order (lo hi d : date) (r : Stage1.record) :
  Stage1.timestamp_date lo -> Stage1.timestamp_date hi -> Stage1.timestamp_date d ->
  Stage1.YearMo r = Stage1.year_month (Some d) ->
  Stage1.is_year_month (Stage1.year_month (Some d)) = true
  /\ (String.leb (Stage1.year_month (Some lo)) (Stage1.year_month (Some hi)) = true
      <-> (Stage1.month_index lo <= Stage1.month_index hi)%Z)
  /\ (Stage1.year_month (Some lo) = Stage1.year_month (Some hi)
      <-> d_year lo = d_year hi /\ d_month lo = d_month hi)
  /\ (Stage1.in_date_range (Some (Stage1.year_month (Some lo)))
        (Some (Stage1.year_month (Some hi))) r = true
      <-> (Stage1.month_index lo <= Stage1.month_index d <= Stage1.month_index hi)%Z).
Proof.
  intros Hlo Hhi Hd Hr.
  assert (Hle : forall a b, Stage1.timestamp_date a -> Stage1.timestamp_date b ->
            (String.leb (Stage1.year_month (Some a)) (Stage1.year_month (Some b)) = true
             <-> (Stage1.month_index a <= Stage1.month_index b)%Z)).
  { intros a b Ha Hb. rewrite (year_month_is_text a Ha), (year_month_is_text b Hb).
    destruct Ha as [Hya Hma], Hb as [Hyb Hmb].
    unfold String.leb, Stage1.month_index.
    rewrite year_month_text_compare by lia.
    destruct (Z.compare_spec (12 * d_year a + d_month a) (12 * d_year b + d_month b));
      split; intros; try lia; try reflexivity; discriminate. }
  split; [| split; [| split]].
  - rewrite (year_month_is_text d Hd). destruct Hd. apply year_month_text_format; lia.
  - now apply Hle.
  - split.
    + intros Heq.
      assert (H1 : (Stage1.month_index lo <= Stage1.month_index hi)%Z)
        by (apply Hle; [assumption .. | rewrite Heq; unfold String.leb;
            now rewrite (order_refl _ string_order)]).
      assert (H2 : (Stage1.month_index hi <= Stage1.month_index lo)%Z)
        by (apply Hle; [assumption .. | rewrite Heq; unfold String.leb;
            now rewrite (order_refl _ string_order)]).
      destruct Hlo, Hhi. unfold Stage1.month_index in *. lia.
    + intros [Hy Hm]. unfold Stage1.year_month. now rewrite Hy, Hm.
  - unfold Stage1.in_date_range. rewrite Hr, andb_true_iff, !Hle by assumption. lia.
Qed.

Lemma year_month_text_order_is_time_order_witness :
  Stage1.in_date_range (Some "2023-01") (Some "2025-06")
    (Examples.pledge (CStr "La Mesa") (Some "91941") "2024-02" (Some 100%Q) "a.xlsx")
  = true.
Proof.
  apply (proj2 (proj2 (proj2 (year_month_text_order_is_time_order
           (mkDate 2023 1 1) (mkDate 2025 6 30) (mkDate 2024 2 14)
           (Examples.pledge (CStr "La Mesa") (Some "91941") "2024-02" (Some 100%Q) "a.xlsx")
           ltac:(unfold Stage1.timestamp_date; simpl; lia)
           ltac:(unfold Stage1.timestamp_date; simpl; lia)
           ltac:(unfold Stage1.timestamp_date; simpl; lia)
           eq_refl)))).
  unfold Stage1.month_index. simpl. lia.
Defined.

(** ** The header of a file: trimming and mapping twice *)

Lemma collapse_ws_from_idem (b : bool) (s : string) :
  Stage1.collapse_ws_from b (Stage1.collapse_ws_from b s) = Stage1.collapse_ws_from b s.
Proof.
  revert b. induction s as [|c s IH]; intros b; [reflexivity |].
  cbn [Stage1.collapse_ws_from].
  destruct (Text.is_space c) eqn:Hc.
  - destruct b; [apply IH |].
    cbn [Stage1.collapse_ws_from]. change (Text.is_space " ") with true. cbv iota.
    now rewrite IH.
  - cbn [Stage1.collapse_ws_from]. rewrite Hc. now rewrite IH.
Qed.

(** A text that does not end with a blank *)
Lemma rstrip_fixed_cons (c : ascii) (s : string) :
  Text.rstrip (String c s) = String c s
  <-> (s = EmptyString /\ Text.is_space c = false)
      \/ (s <> EmptyString /\ Text.rstrip s = s).
Proof.
  cbn [Text.rstrip]. destruct (Text.rstrip s) as [|r rs] eqn:Hr.
  - destruct (Text.is_space c) eqn:Hc.
    + split; [discriminate |]. intros [[_ H] | [Hne H]]; [discriminate | congruence].
    + split.
      * intros H. left. split; [now injection H | reflexivity].
      * intros [[-> _] | [Hne H]]; [reflexivity | congruence].
  - split.
    + intros H. right. injection H as <-. split; [discriminate | reflexivity].
    + intros [[-> _] | [_ <-]]; [discriminate Hr | reflexivity].
Qed.

Lemma collapse_ws_from_nonempty (b : bool) (s : string) :
  s <> EmptyString -> Text.rstrip s = s -> Stage1.collapse_ws_from b s <> EmptyString.
Proof.
  revert b. induction s as [|c s IH]; intros b Hne Hfix; [congruence |].
  apply rstrip_fixed_cons in Hfix as [[-> Hc] | [Hs Hfix]].
  - cbn [Stage1.collapse_ws_from]. rewrite Hc. discriminate.
  - cbn [Stage1.collapse_ws_from]. destruct (Text.is_space c).
    + destruct b; [now apply IH | discriminate].
    + discriminate.
Qed.

Lemma rstrip_collapse_ws_from (b : bool) (s : string) :
  Text.rstrip s = s ->
  Text.rstrip (Stage1.collapse_ws_from b s) = Stage1.collapse_ws_from b s.
Proof.
  revert b. induction s as [|c s IH]; intros b Hfix; [reflexivity |].
  apply rstrip_fixed_cons in Hfix as [[-> Hc] | [Hs Hfix]].
  - cbn [Stage1.collapse_ws_from]. rewrite Hc. cbn. now rewrite Hc.
  - cbn [Stage1.collapse_ws_from]. destruct (Text.is_space c) eqn:Hc.
    + destruct b; [now apply IH |].
      apply rstrip_fixed_cons. right.
      split; [now apply collapse_ws_from_nonempty | now apply IH].
    + apply rstrip_fixed_cons. right.
      split; [now apply collapse_ws_from_nonempty | now apply IH].
Qed.

Lemma lstrip_head (s : string) :
  match Text.lstrip s with
  | String c _ => Text.is_space c = false
  | EmptyString => True
  end.
Proof.
  induction s as [|c s IH]; [exact I |]. cbn [Text.lstrip].
  destruct (Text.is_space c) eqn:Hc; [exact IH | exact Hc].
Qed.

Lemma rstrip_head (s : string) :
  match s with
  | String c _ => Text.is_space c = false
  | EmptyString => True
  end ->
  match Text.rstrip s with
  | String c _ => Text.is_space c = false
  | EmptyString => True
  end.
Proof.
  destruct s as [|c s]; [intros _; exact I |]. intros Hc. cbn [Text.rstrip].
  destruct (Text.rstrip s); [now rewrite Hc | exact Hc].
Qed.

Lemma normalize_label_idem (s : string) :
  Stage1.collapse_ws (Text.strip (Stage1.collapse_ws (Text.strip s)))
  = Stage1.collapse_ws (Text.strip s).
Proof.
  assert (Hstrip : Text.strip (Stage1.collapse_ws (Text.strip s))
                   = Stage1.collapse_ws (Text.strip s)).
  { unfold Text.strip at 1.
    assert (Hl : Text.lstrip (Stage1.collapse_ws (Text.strip s))
                 = Stage1.collapse_ws (Text.strip s)).
    { pose proof (rstrip_head _ (lstrip_head s)) as Hh. fold (Text.strip s) in Hh.
      unfold Stage1.collapse_ws. destruct (Text.strip s) as [|c t]; [reflexivity |].
      cbn [Stage1.collapse_ws_from]. rewrite Hh. cbn [Text.lstrip]. now rewrite Hh. }
    rewrite Hl. unfold Stage1.collapse_ws. apply rstrip_collapse_ws_from.
    unfold Text.strip. apply rstrip_idem. }
  rewrite Hstrip. unfold Stage1.collapse_ws. apply collapse_ws_from_idem.
Qed.

Lemma column_mapping_values (c v : string) :
  Stage1.COLUMN_MAPPING !! c = Some v ->
  Stage1.collapse_ws (Text.strip v) = v /\ Stage1.COLUMN_MAPPING !! v = Some v.
Proof.
  intros H. unfold Stage1.COLUMN_MAPPING in H.
  apply elem_of_list_to_map_2, list_elem_of_In in H.
  cbn [In] in H.
  repeat (destruct H as [H | H]; [injection H as <- <-; split; vm_compute; reflexivity |]).
  destruct H.
Qed.

(** X18: the treatment of a header (cast to text, trim, collapse blanks,
    apply the column mapping) is idempotent: applied to the labels it
    produced, it returns them unchanged.  Every name the mapping gives is
    one of the four core names, and a header made of the four core names is
    left as it is. *)
Theorem header_treatment_is_idempotent (file : Stage1.source_file) :
  Stage1.mapped_columns
    {| Stage1.file_name := Stage1.file_name file;
       Stage1.labels := map CStr (Stage1.mapped_columns file);
       Stage1.body := Stage1.body file |}
  = Stage1.mapped_columns file
  /\ (forall c v, Stage1.COLUMN_MAPPING !! c = Some v -> In v Stage1.keep_cols)
  /\ Stage1.rename_columns Stage1.COLUMN_MAPPING
       (Stage1.normalize_columns (map CStr Stage1.keep_cols))
     = Stage1.keep_cols.
Proof.
  split; [| split].
  - unfold Stage1.mapped_columns. cbn [Stage1.labels].
    unfold Stage1.rename_columns, Stage1.normalize_columns.
    rewrite !map_map. apply map_ext. intros c. cbn [astype_str].
    destruct (Stage1.COLUMN_MAPPING !! Stage1.collapse_ws (Text.strip (astype_str c)))
      as [v|] eqn:E; cbn [from_option id astype_str].
    + destruct (column_mapping_values _ _ E) as [Hn Hv]. now rewrite Hn, Hv.
    + now rewrite normalize_label_idem, E.
  - intros c v H. unfold Stage1.COLUMN_MAPPING in H.
    apply elem_of_list_to_map_2, list_elem_of_In in H. cbn [In] in H.
    repeat (destruct H as [H | H]; [injection H as <- <-; cbn; tauto |]).
    destruct H.
  - vm_compute. reflexivity.
Qed.

(** ** The GeoNames mapping *)

Lemma geonames_mapping_lookup (df_geo : list Stage1.geo_row) (z : string) :
  Stage1.geonames_mapping df_geo !! z
  = option_map (fun zp => Text.upper (snd zp))
      (List.find (fun zp => String.eqb (fst zp) z) (Stage1.geo_dropna df_geo)).
Proof.
  unfold Stage1.geonames_mapping.
  induction (Stage1.geo_dropna df_geo) as [|[z' p] l IH]; [reflexivity |].
  cbn [map list_to_map foldr fst snd List.find].
  destruct (String.eqb_spec z' z) as [-> | Hne].
  - now rewrite lookup_insert_eq.
  - rewrite lookup_insert_ne by exact Hne. exact IH.
Qed.

(** X19: the GeoNames mapping gives, for a postal code, the place name of
    the first row of the table that has both that postal code and a place
    name, in upper case, and nothing for a postal code without such a row;
    later rows of the same postal code are ignored.  The table used is the
    downloaded one whenever that attempt succeeded and the local file only
    otherwise.  Every place name of the mapping is in upper case. *)
Theorem geonames_mapping_first_place (http local_file : option (list Stage1.geo_row)) :
  (forall z,
     Stage1.load_geonames_zip_city http local_file !! z
     = match (match http with Some df_geo => Some df_geo | None => local_file end) with
       | Some df_geo =>
           option_map (fun zp => Text.upper (snd zp))
             (List.find (fun zp => String.eqb (fst zp) z) (Stage1.geo_dropna df_geo))
       | None => None
       end)
  /\ (forall z c, Stage1.load_geonames_zip_city http local_file !! z = Some c ->
                  Text.upper c = c).
Proof.
  assert (Hload : Stage1.load_geonames_zip_city http local_file
                  = match (match http with Some df_geo => Some df_geo
                                      | None => local_file end) with
                    | Some df_geo => Stage1.geonames_mapping df_geo
                    | None => ∅
                    end).
  { unfold Stage1.load_geonames_zip_city. now destruct http, local_file. }
  rewrite Hload. clear Hload.
  destruct (match http with Some df_geo => Some df_geo | None => local_file end)
    as [df|]; split.
  - intros z. apply geonames_mapping_lookup.
  - intros z c. rewrite geonames_mapping_lookup.
    destruct (List.find _ _) as [[z' p]|]; [| discriminate].
    cbn. intros [= <-]. apply upper_idem.
  - intros z. apply lookup_empty.
  - intros z c. now rewrite lookup_empty.
Qed.
